(** * node-uri: the composite checkers of [lib/checkers/index.js]

    A shallow embedding of [checkPercentEncoding], [checkURISyntax],
    [checkURI], [checkHttpURL] and its five aliases, followed by the
    properties proved about them.

    JavaScript values are a small tagged union; a thrown [URIError] is the
    [Throw] branch of [result] and carries the [code] the source assigns.
    The modules the checkers [require] ([../parser], [../domain], [../ip],
    [./chars]) are interfaces here, of total functions that do not throw:
    every general theorem holds for any implementation of them, and the
    concrete examples run on instances written from the specification.
    [../helpers] and [../sitemap] are written from the specification too. *)

From Stdlib Require Import ZArith String Ascii List Bool Lia.
Import ListNotations.

Local Open Scope string_scope.
Local Open Scope Z_scope.

(** ** JavaScript values *)

(** The values that reach the checkers.  Numbers are the integers (the
    checkers only count and compare indices); a character of a string is one
    code unit, here one [ascii]. *)
Inductive val : Type :=
| VUndefined
| VNull
| VBool (b : bool)
| VNum (n : Z)
| VStr (s : string).

(** [a === b] *)
Definition val_eqb (a b : val) : bool :=
  match a, b with
  | VUndefined, VUndefined => true
  | VNull, VNull => true
  | VBool x, VBool y => Bool.eqb x y
  | VNum x, VNum y => Z.eqb x y
  | VStr x, VStr y => String.eqb x y
  | _, _ => false
  end.

(** [s.length] *)
Definition strlen (s : string) : Z := Z.of_nat (String.length s).

(** [s[i]] on a string: the one-character string at [i], [undefined]
    outside [0 .. s.length - 1]. *)
Definition str_at (s : string) (i : Z) : val :=
  if (0 <=? i) && (i <? strlen s) then
    match String.get (Z.to_nat i) s with
    | Some c => VStr (String c EmptyString)
    | None => VUndefined
    end
  else VUndefined.

(** [v[i]] on any value the checkers index. *)
Definition js_at (v : val) (i : Z) : val :=
  match v with
  | VStr s => str_at s i
  | _ => VUndefined
  end.

(** [s.substring(a, b)]: both ends clamped to [0 .. s.length], swapped when
    out of order. *)
Definition js_substring (s : string) (a b : Z) : string :=
  let n := strlen s in
  let a' := Z.max 0 (Z.min a n) in
  let b' := Z.max 0 (Z.min b n) in
  let lo := Z.min a' b' in
  let hi := Z.max a' b' in
  String.substring (Z.to_nat lo) (Z.to_nat (hi - lo)) s.

(** [v.startsWith(p)] for a string [v]. *)
Definition startsWith (v : val) (p : string) : bool :=
  match v with
  | VStr s => String.prefix p s
  | _ => false
  end.

(** [list.includes(v)] for a list of strings. *)
Definition includes (l : list string) (v : val) : bool :=
  existsb (fun k => val_eqb (VStr k) v) l.

(** ** Thrown errors *)

(** A call either returns a value or throws a [URIError] whose [code] is the
    given string (the message is not modelled). *)
Inductive result (A : Type) : Type :=
| Ok (a : A)
| Throw (code : string).
Arguments Ok {A} a.
Arguments Throw {A} code.

(** ** Objects *)

(** An object value: its own properties and whether [Object.freeze] has been
    applied to it. *)
Record object (P : Type) : Type := mkObject { props : P; frozen : bool }.
Arguments mkObject {P} props frozen.
Arguments props {P} o.
Arguments frozen {P} o.

(** An object literal [{ ... }] is a fresh, extensible object. *)
Definition literal {P : Type} (p : P) : object P := mkObject p false.

(** [Object.freeze(o)] and [Object.isFrozen(o)]. *)
Definition Object_freeze {P : Type} (o : object P) : object P :=
  mkObject (props o) true.
Definition Object_isFrozen {P : Type} (o : object P) : bool := frozen o.

(** ** The helpers module *)

(** [lib/helpers] ([object.is], [object.exists]) is not among the sources;
    the data model speaks of optional values that are present or absent. *)
Module Helpers.

(** Modelled from the spec: [is(String, v)] of the missing [lib/helpers];
    it holds for the strings. *)
Definition is_String (v : val) : bool :=
  match v with VStr _ => true | _ => false end.

(** Modelled from the spec: [is(Number, v)] of the missing [lib/helpers];
    it holds for the numbers. *)
Definition is_Number (v : val) : bool :=
  match v with VNum _ => true | _ => false end.

(** Modelled from the spec: [exists(v)] of the missing [lib/helpers]; it
    holds for a value that is present, neither [undefined] nor [null]. *)
Definition exists_ (v : val) : bool :=
  match v with VUndefined | VNull => false | _ => true end.

End Helpers.
Import Helpers.

(** ** The character classifier interface ([./chars]) *)

Class Chars : Type := {
  isURIChar : val -> bool;
  (** [isSchemeChar(c, { start })] *)
  isSchemeChar : val -> bool -> bool;
  isPercentEncodingChar : val -> bool;
  isUserinfoChar : val -> bool
}.

Section PercentEncoding.

Context {C : Chars}.

(** [is(Number, stringLen) && stringLen >= 0 ? stringLen : string.length],
    the bound the validator scans to. *)
Definition scanBound (s : string) (stringLen : val) : Z :=
  match stringLen with
  | VNum n => if 0 <=? n then n else strlen s
  | _ => strlen s
  end.

(** [is(Number, index) && index < len ? index : 0], the position the
    validator reads. *)
Definition scanIndex (index : val) (len : Z) : Z :=
  match index with
  | VNum n => if n <? len then n else 0
  | _ => 0
  end.

(** [checkPercentEncoding(string, index, stringLen)]; [is(String, string)]
    holds on the [VStr] branch only. *)
Definition checkPercentEncoding (string index stringLen : val) : result Z :=
  match string with
  | VStr s =>
      let len := scanBound s stringLen in
      let i := scanIndex index len in
      if (0 <? len) && val_eqb (str_at s i) (VStr "%") then
        if i + 2 <? len then
          if negb (isPercentEncodingChar (str_at s (i + 1))) then
            Throw "URI_INVALID_PERCENT_ENCODING"
          else if negb (isPercentEncodingChar (str_at s (i + 2))) then
            Throw "URI_INVALID_PERCENT_ENCODING"
          else Ok 2
        else Throw "URI_INVALID_PERCENT_ENCODING"
      else Ok 0
  | _ => Throw "URI_INVALID_PERCENT_ENCODING"
  end.

(** The well-formed triplet at [i]: two more characters inside the bound,
    both accepted by the classifier. *)
Definition triplet (s : string) (i len : Z) : Prop :=
  i + 2 < len
  /\ isPercentEncodingChar (str_at s (i + 1)) = true
  /\ isPercentEncodingChar (str_at s (i + 2)) = true.

End PercentEncoding.

(** ** URI components and check results *)

(** The object [parseURI] returns; every property holds a string or is
    absent ([undefined] or [null]). *)
Record URIComponents : Type := mkComponents {
  scheme : val;
  authority : val;
  authorityPunydecoded : val;
  userinfo : val;
  host : val;
  hostPunydecoded : val;
  port : val;
  path : val;
  pathqf : val;
  query : val;
  fragment : val
}.

(** The properties of the object a checker returns: the eleven components,
    [schemeLen] ([checkURISyntax] only; a property the object does not have
    reads as [undefined]) and [valid]. *)
Record CheckResult : Type := mkResult {
  components : URIComponents;
  schemeLen : val;
  valid : val
}.

(** The options [{ https, web, sitemap }]; a key that is not given is
    [undefined]. *)
Record HttpOptions : Type := mkOptions {
  https : val;
  web : val;
  sitemap : val
}.

(** [{}] *)
Definition noOptions : HttpOptions := mkOptions VUndefined VUndefined VUndefined.

(** ** The parser and validator interfaces *)

(** [parseURI] of [../parser]. *)
Class Parser : Type := {
  parseURI : val -> URIComponents
}.

(** [isIP] of [../ip], [isDomain] of [../domain] (both used for their
    truthiness only) and [cast.int] of [../helpers] (a number, or
    [undefined]). *)
Class Validators : Type := {
  isIP : val -> bool;
  isDomain : val -> bool;
  int : val -> val
}.

(** ** The sitemap entity table ([../sitemap]) *)

(** [lib/sitemap] is not among the sources. *)
Module Sitemap.

(** The double quote character, as a string. *)
Definition dquote : string := String "034"%char EmptyString.

(** Modelled from the spec: the table of the missing [lib/sitemap], the
    fixed mapping from escape sequence to raw character [&amp; -> &],
    [&lt; -> <], [&gt; -> >], [&quot; -> double quote], [&apos; -> ']. *)
Definition escapeCodes : list (string * string) :=
  [ ("&amp;", "&"); ("&lt;", "<"); ("&gt;", ">");
    ("&quot;", dquote); ("&apos;", "'") ].

(** Modelled from the spec: [escapeCodesKeys] of the missing [lib/sitemap],
    the escape sequences of the table. *)
Definition escapeCodesKeys : list string := map fst escapeCodes.

(** Modelled from the spec: [entitiesKeys] of the missing [lib/sitemap], the
    raw characters of the table. *)
Definition entitiesKeys : list string := map snd escapeCodes.

(** Modelled from the spec: [escapeCodesKeysLen] of the missing
    [lib/sitemap], the number of escape sequences. *)
Definition escapeCodesKeysLen : Z := Z.of_nat (List.length escapeCodesKeys).

End Sitemap.
Import Sitemap.

(** ** Control flow *)

(** A computation that may loop: [None] is a run that has not returned
    within the fuel it was given. *)
Definition exec (A : Type) : Type := option (result A).

Definition ret {A : Type} (a : A) : exec A := Some (Ok a).
Definition throw {A : Type} (code : string) : exec A := Some (Throw code).
Definition lift {A : Type} (r : result A) : exec A := Some r.

Definition bind {A B : Type} (m : exec A) (k : A -> exec B) : exec B :=
  match m with
  | None => None
  | Some (Throw e) => Some (Throw e)
  | Some (Ok a) => k a
  end.

Notation "x <- m ;; k" := (bind m (fun x => k))
  (at level 61, m at next level, right associativity).

(** [for (let i = i0; i < len; i += 1) { body }], where the body may throw
    and may advance [i] itself: [body i] is the value of [i] when the body
    ends. *)
Fixpoint for_loop (fuel : nat) (len : Z) (body : Z -> result Z) (i : Z)
  : exec unit :=
  if i <? len then
    match fuel with
    | O => None
    | S fuel' =>
        match body i with
        | Throw e => throw e
        | Ok i' => for_loop fuel' len body (i' + 1)
        end
    end
  else ret tt.

(** [is(String, v) ? v.length : 0] *)
Definition lengthOf (v : val) : Z :=
  match v with
  | VStr s => strlen s
  | _ => 0
  end.

(** The bound of [i < n] for a destructured number: a comparison with
    a value that is not a number never holds. *)
Definition bound (v : val) : Z :=
  match v with
  | VNum n => n
  | _ => 0
  end.

Section Checkers.

Context {C : Chars} {P : Parser} {V : Validators}.

(** [checkURISyntax(uri)] *)
Definition checkURISyntax (uri : val) : result (object CheckResult) :=
  if negb (is_String uri) then Throw "URI_INVALID_TYPE"
  else
    let c := parseURI uri in
    let schemeLen := lengthOf (scheme c) in
    if negb (is_String (scheme c)) then Throw "URI_MISSING_SCHEME"
    else if schemeLen <=? 0 then Throw "URI_EMPTY_SCHEME"
    else if negb (is_String (path c)) then Throw "URI_MISSING_PATH"
    else if
      (if is_String (authority c) && (0 <? lengthOf (authority c))
       then negb (val_eqb (path c) (VStr "") || startsWith (path c) "/")
       else startsWith (path c) "//")
    then Throw "URI_INVALID_PATH"
    else if negb (exists_ (authority c)) && exists_ (authorityPunydecoded c)
    then Throw "URI_INVALID_HOST"
    else Ok (literal (mkResult c (VNum schemeLen) (VBool true))).

(** The body of the scheme loop of [checkURI]. *)
Definition schemeBody (scheme : val) (i : Z) : result Z :=
  if negb (isSchemeChar (js_at scheme i) (i =? 0))
  then Throw "URI_INVALID_SCHEME_CHAR"
  else Ok i.

(** The body of the userinfo loop of [checkURI]. *)
Definition userinfoBody (userinfo : val) (userinfoLen : Z) (i : Z)
  : result Z :=
  if negb (isUserinfoChar (js_at userinfo i))
  then Throw "URI_INVALID_USERINFO_CHAR"
  else
    match checkPercentEncoding userinfo (VNum i) (VNum userinfoLen) with
    | Throw e => Throw e
    | Ok offset => Ok (i + offset)
    end.

(** The inner loop [for (index < escapeCodesKeysLen)] over
    [escapeCodesKeys], which breaks at the first entry that stands at [i]:
    the [escapeOffset] it leaves, [None] when it stays [undefined]. *)
Fixpoint findEscape (keys : list string) (pathqf : val) (pathqfLen i : Z)
  : option Z :=
  match keys with
  | [] => None
  | escape :: rest =>
      let escapeLen := strlen escape in
      if (i + escapeLen <=? pathqfLen)
         && val_eqb (VStr escape)
              (match pathqf with
               | VStr s => VStr (js_substring s i (i + escapeLen))
               | _ => VUndefined
               end)
      then Some escapeLen
      else findEscape rest pathqf pathqfLen i
  end.

(** The body of the [pathqf] loop of [checkURI]. *)
Definition pathqfBody (checkSitemap : bool) (pathqf : val) (pathqfLen : Z)
  (i : Z) : result Z :=
  if negb (isURIChar (js_at pathqf i)) then Throw "URI_INVALID_CHAR"
  else
    match checkPercentEncoding pathqf (VNum i) (VNum pathqfLen) with
    | Throw e => Throw e
    | Ok offset =>
        let i := i + offset in
        if checkSitemap then
          if val_eqb (js_at pathqf i) (VStr "&") then
            match findEscape escapeCodesKeys pathqf pathqfLen i with
            | None => Throw "URI_INVALID_SITEMAP_CHAR"
            | Some escapeOffset => Ok (i + (escapeOffset - 1))
            end
          else if includes entitiesKeys (js_at pathqf i)
          then Throw "URI_INVALID_SITEMAP_CHAR"
          else Ok i
        else Ok i
    end.

(** The three scanning loops of [checkURI]; each runs on the fuel of its
    own bound, which is enough for it to end (see [checkURI_returns]). *)
Definition scanScheme (scheme : val) (schemeLen : Z) : exec unit :=
  for_loop (Z.to_nat schemeLen) schemeLen (schemeBody scheme) 0.

Definition scanUserinfo (userinfo : val) : exec unit :=
  let userinfoLen := lengthOf userinfo in
  for_loop (Z.to_nat userinfoLen) userinfoLen
    (userinfoBody userinfo userinfoLen) 0.

Definition scanPathqf (checkSitemap : bool) (pathqf : val) : exec unit :=
  let pathqfLen := lengthOf pathqf in
  for_loop (Z.to_nat pathqfLen) pathqfLen
    (pathqfBody checkSitemap pathqf pathqfLen) 0.

(** The block [if (exists(authority)) { ... }] of [checkURI]. *)
Definition checkAuthority (c : URIComponents) : exec unit :=
  if exists_ (authority c) then
    _ <- scanUserinfo (userinfo c) ;;
    if negb (isIP (host c)) && negb (isDomain (host c))
    then throw "URI_INVALID_HOST"
    else if exists_ (port c) && val_eqb (int (port c)) VUndefined
    then throw "URI_INVALID_PORT"
    else ret tt
  else ret tt.

(** [checkURI(uri, { sitemap })] *)
Definition checkURI (uri : val) (sitemap : val)
  : exec (object CheckResult) :=
  r <- lift (checkURISyntax uri) ;;
  let c := components (props r) in
  let checkSitemap := val_eqb sitemap (VBool true) in
  _ <- scanScheme (scheme c) (bound (schemeLen (props r))) ;;
  _ <- checkAuthority c ;;
  _ <- scanPathqf checkSitemap (pathqf c) ;;
  ret (literal (mkResult c VUndefined (VBool true))).

(** The [schemesToCheck] array [checkHttpURL] builds. *)
Definition schemesToCheck (https web : val) : list string :=
  if val_eqb https (VBool true) then ["https"]
  else if val_eqb web (VBool true) then ["http"; "https"]
  else ["http"].

(** [checkHttpURL(uri, { https, web, sitemap })] *)
Definition checkHttpURL (uri : val) (o : HttpOptions)
  : exec (object CheckResult) :=
  r <- checkURI uri (sitemap o) ;;
  let c := components (props r) in
  if negb (includes (schemesToCheck (https o) (web o)) (scheme c))
  then throw "URI_INVALID_SCHEME"
  else if negb (is_String (authority c))
  then throw "URI_MISSING_AUTHORITY"
  else ret (literal (mkResult c VUndefined (VBool true))).

Definition checkHttpsURL (uri : val) : exec (object CheckResult) :=
  checkHttpURL uri (mkOptions (VBool true) VUndefined VUndefined).

Definition checkHttpSitemapURL (uri : val) : exec (object CheckResult) :=
  checkHttpURL uri (mkOptions VUndefined VUndefined (VBool true)).

Definition checkHttpsSitemapURL (uri : val) : exec (object CheckResult) :=
  checkHttpURL uri (mkOptions (VBool true) VUndefined (VBool true)).

Definition checkWebURL (uri : val) : exec (object CheckResult) :=
  checkHttpURL uri (mkOptions VUndefined (VBool true) VUndefined).

Definition checkSitemapURL (uri : val) : exec (object CheckResult) :=
  checkHttpURL uri (mkOptions VUndefined (VBool true) (VBool true)).

(** [module.exports = Object.freeze({ ... })]: the one place where the
    module freezes an object. *)
Record Exports : Type := mkExports {
  export_checkPercentEncoding : val -> val -> val -> result Z;
  export_checkURISyntax : val -> result (object CheckResult);
  export_checkURI : val -> val -> exec (object CheckResult);
  export_checkHttpURL : val -> HttpOptions -> exec (object CheckResult);
  export_checkHttpsURL : val -> exec (object CheckResult);
  export_checkHttpSitemapURL : val -> exec (object CheckResult);
  export_checkHttpsSitemapURL : val -> exec (object CheckResult);
  export_checkWebURL : val -> exec (object CheckResult);
  export_checkSitemapURL : val -> exec (object CheckResult)
}.

Definition module_exports : object Exports :=
  Object_freeze
    (literal (mkExports checkPercentEncoding checkURISyntax checkURI
                checkHttpURL checkHttpsURL checkHttpSitemapURL
                checkHttpsSitemapURL checkWebURL checkSitemapURL)).

End Checkers.

(** ** Vocabulary of the statements *)

(** The positions a loop visits from [i]: [visits body len i k] when the
    loop, started at [i], begins an iteration at [k] (or stops there). *)
Inductive visits (body : Z -> result Z) (len : Z) : Z -> Z -> Prop :=
| visits_here (i : Z) : visits body len i i
| visits_next (i i' k : Z) :
    i < len -> body i = Ok i' -> visits body len (i' + 1) k ->
    visits body len i k.

(** The escape sequence [escape] stands in [pathqf] at position [i], inside
    the scan bound. *)
Definition matchesAt (pathqf : string) (pathqfLen i : Z) (escape : string)
  : Prop :=
  i + strlen escape <= pathqfLen
  /\ js_substring pathqf i (i + strlen escape) = escape.

(** The five escape sequences and the raw reserved characters other than
    the ampersand, as the specification lists them. *)
Definition fiveEscapes : list string :=
  ["&amp;"; "&lt;"; "&gt;"; "&quot;"; "&apos;"].

Definition rawReserved : list string := ["<"; ">"; dquote; "'"].

(** What the sitemap check refuses at position [j]: an ampersand that begins
    none of the five sequences, or a raw reserved character. *)
Definition sitemapViolation (pathqf : string) (pathqfLen j : Z) : Prop :=
  (str_at pathqf j = VStr "&"
   /\ forall escape, In escape fiveEscapes ->
                     ~ matchesAt pathqf pathqfLen j escape)
  \/ (exists c, str_at pathqf j = VStr c /\ In c rawReserved).

(** The five aliases of [checkHttpURL]. *)
Definition aliases {C : Chars} {P : Parser} {V : Validators}
  : list (val -> exec (object CheckResult)) :=
  [ checkHttpsURL; checkHttpSitemapURL; checkHttpsSitemapURL;
    checkWebURL; checkSitemapURL ].

(** The record of a successful check of [uri], as the code builds it: an
    object that is not frozen, with [valid] true and the components of the
    parse. *)
Definition successRecord {P : Parser} (uri : val) (r : object CheckResult)
  : Prop :=
  Object_isFrozen r = false
  /\ valid (props r) = VBool true
  /\ components (props r) = parseURI uri.

(** The enumerated failure kinds. *)
Definition errorKinds : list string :=
  [ "URI_INVALID_TYPE"; "URI_MISSING_SCHEME"; "URI_EMPTY_SCHEME";
    "URI_MISSING_PATH"; "URI_INVALID_PATH"; "URI_INVALID_HOST";
    "URI_INVALID_SCHEME_CHAR"; "URI_INVALID_USERINFO_CHAR";
    "URI_INVALID_PORT"; "URI_INVALID_CHAR"; "URI_INVALID_SITEMAP_CHAR";
    "URI_INVALID_PERCENT_ENCODING"; "URI_MISSING_AUTHORITY";
    "URI_INVALID_SCHEME" ].

(** The option presets of the aliases as the specification words them: three
    booleans, each false unless the preset sets it. *)
Definition preset (https web sitemap : bool) : HttpOptions :=
  mkOptions (VBool https) (VBool web) (VBool sitemap).

(** The schemes the options allow, as the specification words them: [https]
    when [https] is true; otherwise [http] or [https] when [web] is true;
    otherwise [http]. *)
Definition allowedScheme (o : HttpOptions) (scheme : val) : Prop :=
  (https o = VBool true -> scheme = VStr "https")
  /\ (https o <> VBool true -> web o = VBool true ->
      scheme = VStr "http" \/ scheme = VStr "https")
  /\ (https o <> VBool true -> web o <> VBool true -> scheme = VStr "http").

(** A parse whose raw authority is missing while a punydecoded one exists,
    with the given scheme and path. *)
Definition unreconciled (scheme path : val) : URIComponents :=
  mkComponents scheme VUndefined (VStr "exa mple.com") VUndefined
    VUndefined (VStr "exa mple.com") VUndefined path path
    VUndefined VUndefined.

(** A parser known by its answer on the one input of an example. *)
Definition answering (c : URIComponents) : Parser :=
  {| parseURI := fun _ => c |}.

(** ** Instances written from the specification

    The modules behind the three interfaces are not among the sources.  The
    instances below follow the specification's description of them and serve
    the concrete examples; the general theorems do not depend on them. *)
Module SpecModel.

(** *** Characters and string utilities *)

Definition code (c : ascii) : Z := Z.of_nat (nat_of_ascii c).

Definition between (lo hi : Z) (c : ascii) : bool :=
  (lo <=? code c) && (code c <=? hi).

Definition isLetter (c : ascii) : bool := between 65 90 c || between 97 122 c.
Definition isDigit (c : ascii) : bool := between 48 57 c.
Definition isHexDigit (c : ascii) : bool :=
  isDigit c || between 65 70 c || between 97 102 c.

(** Membership of a character in a set written as a string. *)
Definition oneOf (set : string) (c : ascii) : bool :=
  existsb (Ascii.eqb c) (list_ascii_of_string set).

(** A predicate on characters, applied to a value: it holds only for
    a string of exactly one character. *)
Definition onChar (p : ascii -> bool) (v : val) : bool :=
  match v with
  | VStr (String c EmptyString) => p c
  | _ => false
  end.

Definition take (n : nat) (s : string) : string := String.substring 0 n s.
Definition drop (n : nat) (s : string) : string :=
  String.substring n (String.length s - n) s.

(** Position of the first, and of the last, character satisfying [p]. *)
Fixpoint indexWhere (p : ascii -> bool) (s : string) : option nat :=
  match s with
  | EmptyString => None
  | String c s' =>
      if p c then Some O else option_map S (indexWhere p s')
  end.

Fixpoint lastIndexWhere (p : ascii -> bool) (s : string) : option nat :=
  match s with
  | EmptyString => None
  | String c s' =>
      match lastIndexWhere p s' with
      | Some k => Some (S k)
      | None => if p c then Some O else None
      end
  end.

(** [s.split(sep)] for a one-character separator. *)
Fixpoint split (sep : ascii) (s : string) : list string :=
  match s with
  | EmptyString => [EmptyString]
  | String c s' =>
      if Ascii.eqb c sep then EmptyString :: split sep s'
      else
        match split sep s' with
        | [] => [String c EmptyString]
        | w :: ws => String c w :: ws
        end
  end.

Definition join (sep : string) (l : list string) : string :=
  String.concat sep l.

Definition allChars (p : ascii -> bool) (s : string) : bool :=
  forallb p (list_ascii_of_string s).

(** *** 4.1 Character classifier *)

(** Unreserved: letters, digits, [- . _ ~]. *)
Definition unreserved (c : ascii) : bool :=
  isLetter c || isDigit c || oneOf "-._~" c.

(** Sub-delims: [! $ & ' ( ) * + , ; =]. *)
Definition subDelims (c : ascii) : bool := oneOf "!$&'()*+,;=" c.

(** Modelled from the spec: the four predicates of the missing
    [lib/checkers/chars].  A URI character is unreserved, sub-delims or one
    of [: @ / ?]; a scheme character is a letter at the start and otherwise
    a letter, a digit, [+], [-] or [.]; a percent-encoding character is
    a hex digit; a userinfo character is unreserved, sub-delims or [:]. *)
Definition specChars : Chars := {|
  isURIChar := onChar (fun c => unreserved c || subDelims c || oneOf ":@/?" c);
  isSchemeChar := fun v start =>
    onChar (fun c => if start then isLetter c
                     else isLetter c || isDigit c || oneOf "+-." c) v;
  isPercentEncodingChar := onChar isHexDigit;
  isUserinfoChar := onChar (fun c => unreserved c || subDelims c || oneOf ":" c)
|}.

(** *** 4.4 Punycode codec, as an interface *)

(** The two directions of the codec on one label; [None] is its failure. *)
Class Codec : Type := {
  encodeLabel : string -> option string;
  decodeLabel : string -> option string
}.

Definition isAscii (c : ascii) : bool := code c <? 128.

(** Modelled from the spec: the codec of the missing [lib/punycode], on the
    labels that have no extended part.  An all-ASCII label is encoded
    unchanged and a label without the [xn--] prefix is decoded unchanged.
    The extended arithmetic produces code points beyond one byte and is
    outside this development: on any other label this instance reports
    failure.  The examples use plain ASCII hosts only. *)
Definition asciiCodec : Codec := {|
  encodeLabel := fun l => if allChars isAscii l then Some l else None;
  decodeLabel := fun l => if String.prefix "xn--" l then None else Some l
|}.

(** *** 4.3 URI grammar parser *)

Section Parsing.

Context {K : Codec}.

(** Step 6: every label of a host that is not a bracketed literal goes
    through the decode direction; one failure leaves the whole
    undefined. *)
Fixpoint decodeLabels (labels : list string) : option (list string) :=
  match labels with
  | [] => Some []
  | l :: rest =>
      match decodeLabel l, decodeLabels rest with
      | Some l', Some rest' => Some (l' :: rest')
      | _, _ => None
      end
  end.

Definition punydecodeHost (host : string) : val :=
  if String.prefix "[" host then VStr host
  else
    match decodeLabels (split "." host) with
    | Some labels => VStr (join "." labels)
    | None => VUndefined
    end.

(** Step 3: userinfo is everything before the last [@]; the port follows
    the last [:] outside a bracketed literal, and the closing bracket of
    a literal ends the host. *)
Definition splitUserinfo (a : string) : val * string :=
  match lastIndexWhere (Ascii.eqb "@") a with
  | Some k => (VStr (take k a), drop (S k) a)
  | None => (VUndefined, a)
  end.

Definition splitHostPort (hp : string) : string * val :=
  if String.prefix "[" hp then
    match indexWhere (Ascii.eqb "]") hp with
    | Some k =>
        let after := drop (S k) hp in
        if String.prefix ":" after
        then (take (S k) hp, VStr (drop 1 after))
        else (take (S k) hp, VUndefined)
    | None => (hp, VUndefined)
    end
  else
    match lastIndexWhere (Ascii.eqb ":") hp with
    | Some k => (take k hp, VStr (drop (S k) hp))
    | None => (hp, VUndefined)
    end.

(** [a + b] where an absent [a] contributes nothing. *)
Definition withPrefix (a : val) (sep : string) (rest : string) : string :=
  match a with
  | VStr s => s ++ sep ++ rest
  | _ => rest
  end.

Definition withSuffix (rest : string) (sep : string) (a : val) : string :=
  match a with
  | VStr s => rest ++ sep ++ s
  | _ => rest
  end.

(** Modelled from the spec: the seven steps of the grammar parser of the
    missing [lib/parser], on the characters of [uri].  Where the string has
    no colon the scheme is undefined and the later steps read the whole
    string. *)
Definition parseString (uri : string) : URIComponents :=
  (* 1. scheme: the prefix up to the first colon *)
  let '(scheme, rest) :=
    match indexWhere (Ascii.eqb ":") uri with
    | Some k => (VStr (take k uri), drop (S k) uri)
    | None => (VUndefined, uri)
    end in
  (* 2. authority: after a double slash, up to the next of / ? # *)
  let '(authority, rest) :=
    if String.prefix "//" rest then
      let r := drop 2 rest in
      match indexWhere (oneOf "/?#") r with
      | Some k => (VStr (take k r), drop k r)
      | None => (VStr r, EmptyString)
      end
    else (VUndefined, rest) in
  (* 4. path, query, fragment *)
  let '(path, rest) :=
    match indexWhere (oneOf "?#") rest with
    | Some k => (take k rest, drop k rest)
    | None => (rest, EmptyString)
    end in
  let '(query, rest) :=
    if String.prefix "?" rest then
      let r := drop 1 rest in
      match indexWhere (Ascii.eqb "#") r with
      | Some k => (VStr (take k r), drop k r)
      | None => (VStr r, EmptyString)
      end
    else (VUndefined, rest) in
  let fragment :=
    if String.prefix "#" rest then VStr (drop 1 rest) else VUndefined in
  (* 5. pathqf *)
  let pathqf := withSuffix (withSuffix path "?" query) "#" fragment in
  (* 3, 6, 7. the inside of the authority *)
  match authority with
  | VStr a =>
      let '(userinfo, hp) := splitUserinfo a in
      let '(host, port) := splitHostPort hp in
      let hostPunydecoded := punydecodeHost host in
      let authorityPunydecoded :=
        match hostPunydecoded with
        | VStr h => VStr (withPrefix userinfo "@" (withSuffix h ":" port))
        | _ => VUndefined
        end in
      mkComponents scheme authority authorityPunydecoded userinfo
        (VStr host) hostPunydecoded port (VStr path) (VStr pathqf)
        query fragment
  | _ =>
      mkComponents scheme VUndefined VUndefined VUndefined VUndefined
        VUndefined VUndefined (VStr path) (VStr pathqf) query fragment
  end.

(** Modelled from the spec: [parseURI] of the missing [lib/parser].  It
    follows the seven steps of the grammar parser and never throws; a value
    that is not a string has no component. *)
Definition specParser : Parser := {|
  parseURI := fun uri =>
    match uri with
    | VStr s => parseString s
    | _ =>
        mkComponents VUndefined VUndefined VUndefined VUndefined
          VUndefined VUndefined VUndefined VUndefined VUndefined
          VUndefined VUndefined
    end
|}.

End Parsing.

(** *** 4.5 IP validator *)

(** The value of a string of decimal digits. *)
Definition decimal (s : string) : Z :=
  fold_left (fun acc c => 10 * acc + (code c - 48)) (list_ascii_of_string s) 0.

Definition nonEmpty (s : string) : bool := negb (String.eqb s EmptyString).

(** One decimal group of a dotted quad: digits only, not empty, no leading
    zero, at most 255. *)
Definition isOctet (g : string) : bool :=
  nonEmpty g && allChars isDigit g
  && (String.eqb g "0" || negb (String.prefix "0" g))
  && (strlen g <=? 3) && (decimal g <=? 255).

Definition isIPv4 (s : string) : bool :=
  let groups := split "." s in
  (Z.of_nat (List.length groups) =? 4) && forallb isOctet groups.

(** One group of an IPv6 address: one to four hex digits. *)
Definition isHextet (g : string) : bool :=
  (1 <=? strlen g) && (strlen g <=? 4) && allChars isHexDigit g.

(** The number of sixteen-bit groups a colon-separated run stands for, when
    every group in it is well formed; a dotted quad may close the run and
    stands for two groups. *)
Fixpoint groupCount (allowQuad : bool) (groups : list string) : option Z :=
  match groups with
  | [] => Some 0
  | [g] =>
      if isHextet g then Some 1
      else if allowQuad && isIPv4 g then Some 2
      else None
  | g :: rest =>
      if isHextet g then option_map (Z.add 1) (groupCount allowQuad rest)
      else None
  end.

Definition groupsOf (s : string) : list string :=
  if nonEmpty s then split ":" s else [].

(** Position of the first [::] marker. *)
Fixpoint markerIndex (s : string) : option nat :=
  match s with
  | EmptyString => None
  | String c s' =>
      if String.prefix "::" s then Some O else option_map S (markerIndex s')
  end.

(** An IPv6 address as the specification words it: one to eight groups (a
    closing dotted quad standing for two), at most one [::] marker, and
    an optional zone that is not empty. *)
Definition isIPv6 (s : string) : bool :=
  let '(addr, zoneOk) :=
    match indexWhere (Ascii.eqb "%") s with
    | Some k => (take k s, nonEmpty (drop (S k) s))
    | None => (s, true)
    end in
  let groups :=
    match markerIndex addr with
    | None => groupCount true (split ":" addr)
    | Some k =>
        match markerIndex (drop (S k) addr) with
        | Some _ => None
        | None =>
            match groupCount false (groupsOf (take k addr)),
                  groupCount true (groupsOf (drop (S (S k)) addr)) with
            | Some a, Some b => Some (a + b)
            | _, _ => None
            end
        end
    end in
  zoneOk &&
  match groups with
  | Some n => (1 <=? n) && (n <=? 8)
  | None => false
  end.

(** Modelled from the spec: [isIP] of the missing [lib/ip].  A value is
    an IP when it is a dotted quad of four decimal groups [0 .. 255]
    without leading zeros, or one to eight colon-separated groups of one to
    four hex digits with at most one [::] marker, an optional closing
    dotted quad and an optional non-empty [%zone]. *)
Definition specIsIP (v : val) : bool :=
  match v with
  | VStr s => isIPv4 s || isIPv6 s
  | _ => false
  end.

(** *** 4.6 Domain validator *)

Section Domains.

Context {K : Codec}.

Definition succeeds (r : option string) : bool :=
  match r with Some _ => true | None => false end.

Definition lastChar (s : string) : option ascii :=
  String.get (String.length s - 1) s.

Definition isHyphen (c : option ascii) : bool :=
  match c with Some c => Ascii.eqb c "-" | None => false end.

Definition isLabel (l : string) : bool :=
  (1 <=? strlen l) && (strlen l <=? 63)
  && (if allChars isAscii l then
        allChars (fun c => isLetter c || isDigit c || Ascii.eqb c "-") l
        && negb (isHyphen (String.get 0 l))
        && negb (isHyphen (lastChar l))
        && (if String.prefix "xn--" l then succeeds (decodeLabel l) else true)
      else succeeds (encodeLabel l)).

(** Modelled from the spec: [isDomain] of the missing [lib/domain].  A
    domain is at most 253 characters long; each of its dot-separated
    labels has 1 to 63 characters, all alphanumeric or [-], with no [-]
    first or last; a label with non-ASCII characters must encode, and
    a label prefixed [xn--] must decode. *)
Definition specIsDomain (v : val) : bool :=
  match v with
  | VStr s => (strlen s <=? 253) && forallb isLabel (split "." s)
  | _ => false
  end.

(** Modelled from the spec: [cast.int] of the missing [lib/helpers].
    A port is an integer when it is a non-empty string of
    decimal digits; anything else casts to [undefined]. *)
Definition specInt (v : val) : val :=
  match v with
  | VNum n => VNum n
  | VStr s => if nonEmpty s && allChars isDigit s then VNum (decimal s)
              else VUndefined
  | _ => VUndefined
  end.

Definition specValidators : Validators := {|
  isIP := specIsIP;
  isDomain := specIsDomain;
  int := specInt
|}.

End Domains.

(** The instances the examples run on. *)
Definition asciiParser : Parser := @specParser asciiCodec.
Definition asciiValidators : Validators := @specValidators asciiCodec.

End SpecModel.

(** ** Vocabulary of the further properties *)

(** Position [j] of [s] holds one of the two characters that follow
    a percent sign and is accepted as a percent-encoding character. *)
Definition inTriplet {C : Chars} (s : string) (j : Z) : Prop :=
  isPercentEncodingChar (str_at s j) = true
  /\ (str_at s (j - 1) = VStr "%" \/ str_at s (j - 2) = VStr "%").

(** At position [j] of [pathqf] no entity is left unescaped: an ampersand
    there begins one of the five sequences, and the character is none of
    the raw reserved ones. *)
Definition escapedAt (pathqf : string) (j : Z) : Prop :=
  (str_at pathqf j = VStr "&" ->
   exists escape, In escape fiveEscapes
                  /\ matchesAt pathqf (strlen pathqf) j escape)
  /\ (forall c, str_at pathqf j = VStr c -> ~ In c rawReserved).

(** How the scan in sitemap mode has passed over position [j] of a [pathqf]
    it accepted: as a character it checked (one that is no percent sign and
    leaves no entity unescaped, or a percent sign that begins a triplet), as
    one of the two characters of a triplet (the second of which the sitemap
    check looked at), or as a character inside an escape sequence that it
    skipped. *)
Definition sitemapScanned {C : Chars} (s : string) (j : Z) : Prop :=
  (isURIChar (str_at s j) = true
   /\ ((str_at s j <> VStr "%" /\ escapedAt s j)
       \/ (str_at s j = VStr "%" /\ triplet s j (strlen s))))
  \/ (isPercentEncodingChar (str_at s j) = true
      /\ (str_at s (j - 1) = VStr "%"
          \/ (str_at s (j - 2) = VStr "%" /\ escapedAt s j)))
  \/ (exists L escape,
         0 <= L /\ In escape fiveEscapes
         /\ matchesAt s (strlen s) L escape
         /\ L < j < L + strlen escape).

(** A classifier that also takes the percent sign as a URI character and as
    a userinfo character, so that percent-encodings can be accepted at all;
    used in examples. *)
Definition withPercent (C : Chars) : Chars := {|
  isURIChar := fun v => val_eqb v (VStr "%") || isURIChar v;
  isSchemeChar := isSchemeChar;
  isPercentEncodingChar := isPercentEncodingChar;
  isUserinfoChar := fun v => val_eqb v (VStr "%") || isUserinfoChar v
|}.

(** The options as the code reads them: each key counts as set only when it
    is the boolean [true]. *)
Definition asBooleans (o : HttpOptions) : HttpOptions :=
  preset (val_eqb (https o) (VBool true))
         (val_eqb (web o) (VBool true))
         (val_eqb (sitemap o) (VBool true)).

(** * Properties *)

(** ** Values and strings *)

Lemma val_eqb_eq (a b : val) : val_eqb a b = true <-> a = b.
Proof.
  destruct a, b; simpl; split; intro H;
    try discriminate; try reflexivity; try congruence.
  - apply Bool.eqb_prop in H. now subst.
  - injection H as ->. apply Bool.eqb_reflx.
  - apply Z.eqb_eq in H. now subst.
  - injection H as ->. apply Z.eqb_refl.
  - apply String.eqb_eq in H. now subst.
  - injection H as ->. apply String.eqb_refl.
Qed.

Lemma val_eqb_neq (a b : val) : val_eqb a b = false <-> a <> b.
Proof.
  split.
  - intros H E. apply val_eqb_eq in E. congruence.
  - intro H. destruct (val_eqb a b) eqn:E; [|reflexivity].
    apply val_eqb_eq in E. contradiction.
Qed.

Lemma includes_In (l : list string) (v : val) :
  includes l v = true <-> exists k, In k l /\ v = VStr k.
Proof.
  unfold includes. rewrite existsb_exists. split.
  - intros (k & Hk & E). apply val_eqb_eq in E. exists k. auto.
  - intros (k & Hk & ->). exists k. split; [exact Hk|]. now apply val_eqb_eq.
Qed.

Lemma strlen_nonneg (s : string) : 0 <= strlen s.
Proof. unfold strlen. lia. Qed.

Lemma str_at_empty (i : Z) : str_at "" i = VUndefined.
Proof.
  unfold str_at, strlen. simpl.
  destruct (0 <=? i), (i <? 0); reflexivity.
Qed.

(** A character is read inside the string only. *)
Lemma str_at_in_range (s : string) (j : Z) (c : string) :
  str_at s j = VStr c -> 0 <= j < strlen s.
Proof.
  unfold str_at. destruct (0 <=? j) eqn:A; [|discriminate].
  destruct (j <? strlen s) eqn:B; [|discriminate].
  apply Z.leb_le in A. apply Z.ltb_lt in B. lia.
Qed.

(** ** checkPercentEncoding *)

Section PercentEncodingFacts.

Context {C : Chars}.

(** Inside its preconditions the validator reads the given index and
    bound. *)
Lemma checkPercentEncoding_in_bounds (s : string) (i len : Z) :
  0 <= i -> i < len ->
  checkPercentEncoding (VStr s) (VNum i) (VNum len) =
    if val_eqb (str_at s i) (VStr "%") then
      if i + 2 <? len then
        if negb (isPercentEncodingChar (str_at s (i + 1))) then
          Throw "URI_INVALID_PERCENT_ENCODING"
        else if negb (isPercentEncodingChar (str_at s (i + 2))) then
          Throw "URI_INVALID_PERCENT_ENCODING"
        else Ok 2
      else Throw "URI_INVALID_PERCENT_ENCODING"
    else Ok 0.
Proof.
  intros Hi Hlen. unfold checkPercentEncoding, scanBound, scanIndex.
  replace (0 <=? len) with true by (symmetry; apply Z.leb_le; lia).
  replace (i <? len) with true by (symmetry; apply Z.ltb_lt; lia).
  replace (0 <? len) with true by (symmetry; apply Z.ltb_lt; lia).
  reflexivity.
Qed.

Lemma checkPercentEncoding_other (s : string) (i len : Z) :
  0 <= i -> i < len -> str_at s i <> VStr "%" ->
  checkPercentEncoding (VStr s) (VNum i) (VNum len) = Ok 0.
Proof.
  intros Hi Hlen Hc. rewrite checkPercentEncoding_in_bounds by assumption.
  apply val_eqb_neq in Hc. now rewrite Hc.
Qed.

Lemma checkPercentEncoding_percent (s : string) (i len : Z) :
  0 <= i -> i < len -> str_at s i = VStr "%" ->
  (checkPercentEncoding (VStr s) (VNum i) (VNum len) = Ok 2
   <-> triplet s i len)
  /\ (~ triplet s i len ->
      checkPercentEncoding (VStr s) (VNum i) (VNum len)
      = Throw "URI_INVALID_PERCENT_ENCODING").
Proof.
  intros Hi Hlen Hc. rewrite checkPercentEncoding_in_bounds by assumption.
  apply val_eqb_eq in Hc. rewrite Hc. unfold triplet.
  destruct (i + 2 <? len) eqn:Hb;
    [apply Z.ltb_lt in Hb | apply Z.ltb_ge in Hb].
  - destruct (isPercentEncodingChar (str_at s (i + 1))) eqn:H1;
      destruct (isPercentEncodingChar (str_at s (i + 2))) eqn:H2; simpl;
      repeat split; try discriminate; try reflexivity; try assumption;
      try (intros (_ & A & B); discriminate);
      intro H; exfalso; apply H; auto.
  - split; [split; [discriminate | intros (A & _); lia] | reflexivity].
Qed.

(** The offset is 0 or 2, whatever the arguments. *)
Lemma checkPercentEncoding_offset (str index stringLen : val) (o : Z) :
  checkPercentEncoding str index stringLen = Ok o -> o = 0 \/ o = 2.
Proof.
  unfold checkPercentEncoding. destruct str; try discriminate.
  repeat match goal with
         | |- context [if ?b then _ else _] => destruct b
         end; intro H; inversion H; auto.
Qed.

(** Every error of the validator has the one code. *)
Lemma checkPercentEncoding_code (str index stringLen : val) (e : string) :
  checkPercentEncoding str index stringLen = Throw e ->
  e = "URI_INVALID_PERCENT_ENCODING".
Proof.
  unfold checkPercentEncoding. destruct str; try (intro H; now inversion H).
  repeat match goal with
         | |- context [if ?b then _ else _] => destruct b
         end; intro H; inversion H; auto.
Qed.

(** The value returned, for arguments of any shape, in terms of the bound
    and the position the validator settles on. *)
Lemma checkPercentEncoding_value (s : string) (index stringLen : val) :
  (scanBound s stringLen = 0
   \/ str_at s (scanIndex index (scanBound s stringLen)) <> VStr "%" ->
   checkPercentEncoding (VStr s) index stringLen = Ok 0)
  /\ (0 < scanBound s stringLen ->
      str_at s (scanIndex index (scanBound s stringLen)) = VStr "%" ->
      (checkPercentEncoding (VStr s) index stringLen = Ok 2
       <-> triplet s (scanIndex index (scanBound s stringLen))
             (scanBound s stringLen))
      /\ (~ triplet s (scanIndex index (scanBound s stringLen))
             (scanBound s stringLen) ->
          checkPercentEncoding (VStr s) index stringLen
          = Throw "URI_INVALID_PERCENT_ENCODING")).
Proof.
  unfold checkPercentEncoding.
  set (len := scanBound s stringLen). set (i := scanIndex index len).
  split.
  - intros [H0 | Hc].
    + rewrite H0. reflexivity.
    + apply val_eqb_neq in Hc. rewrite Hc. now rewrite andb_false_r.
  - intros Hlen Hc.
    replace (0 <? len) with true by (symmetry; apply Z.ltb_lt; lia).
    apply val_eqb_eq in Hc. rewrite Hc. cbn [andb]. unfold triplet.
    destruct (i + 2 <? len) eqn:Hb;
      [apply Z.ltb_lt in Hb | apply Z.ltb_ge in Hb].
    + destruct (isPercentEncodingChar (str_at s (i + 1))) eqn:H1;
        destruct (isPercentEncodingChar (str_at s (i + 2))) eqn:H2; simpl;
        repeat split; try discriminate; try reflexivity; try assumption;
        try (intros (_ & A & B); discriminate);
        intro H; exfalso; apply H; auto.
    + split; [split; [discriminate | intros (A & _); lia] | reflexivity].
Qed.

End PercentEncodingFacts.

(** C1.  For [0 <= i < len <= s.length]: a character other than [%] at [i]
    gives offset 0; a [%] at [i] gives offset 2 exactly when two more
    characters lie inside the bound and both are percent-encoding (hex)
    characters, and otherwise throws [URI_INVALID_PERCENT_ENCODING].  With
    the hex-digit classifier it throws on [%], [%A], [%GG], [%2G] and
    returns 2 on [%20] and on [%C3%BC] at indices 0 and 3. *)
Theorem C1_checkPercentEncoding_contract :
  (forall (C : Chars) (s : string) (i len : Z),
      0 <= i -> i < len -> len <= strlen s ->
      (str_at s i <> VStr "%" ->
       checkPercentEncoding (VStr s) (VNum i) (VNum len) = Ok 0)
      /\ (str_at s i = VStr "%" ->
          (checkPercentEncoding (VStr s) (VNum i) (VNum len) = Ok 2
           <-> triplet s i len)
          /\ (~ triplet s i len ->
              checkPercentEncoding (VStr s) (VNum i) (VNum len)
              = Throw "URI_INVALID_PERCENT_ENCODING")))
  /\ (let check := @checkPercentEncoding SpecModel.specChars in
      let fails := Throw "URI_INVALID_PERCENT_ENCODING" in
      check (VStr "%") (VNum 0) (VNum 1) = fails
      /\ check (VStr "%A") (VNum 0) (VNum 2) = fails
      /\ check (VStr "%GG") (VNum 0) (VNum 3) = fails
      /\ check (VStr "%2G") (VNum 0) (VNum 3) = fails
      /\ check (VStr "%20") (VNum 0) (VNum 3) = Ok 2
      /\ check (VStr "%C3%BC") (VNum 0) (VNum 6) = Ok 2
      /\ check (VStr "%C3%BC") (VNum 3) (VNum 6) = Ok 2
      /\ check (VStr "%") VUndefined VUndefined = fails
      /\ check (VStr "%A") VUndefined VUndefined = fails
      /\ check (VStr "%GG") VUndefined VUndefined = fails
      /\ check (VStr "%2G") VUndefined VUndefined = fails
      /\ check (VStr "%20") VUndefined VUndefined = Ok 2
      /\ check (VStr "%C3%BC") VUndefined VUndefined = Ok 2).
Proof.
  split.
  - intros C s i len Hi Hlen _. split.
    + now apply checkPercentEncoding_other.
    + now apply checkPercentEncoding_percent.
  - cbv zeta. repeat split; reflexivity.
Qed.

Lemma C1_witness :
  0 <= 3 /\ 3 < 6 /\ 6 <= strlen "%C3%BC"
  /\ str_at "%C3%BC" 3 = VStr "%"
  /\ @triplet SpecModel.specChars "%C3%BC" 3 6
  /\ @checkPercentEncoding SpecModel.specChars
       (VStr "%C3%BC") (VNum 3) (VNum 6) = Ok 2.
Proof.
  assert (B1 : 0 <= 3) by lia.
  assert (B2 : 3 < 6) by lia.
  assert (B3 : 6 <= strlen "%C3%BC") by (vm_compute; discriminate).
  assert (T : @triplet SpecModel.specChars "%C3%BC" 3 6)
    by (repeat split).
  refine (conj B1 (conj B2 (conj B3 (conj eq_refl (conj T _))))).
  exact (proj2 (proj1 (proj2 (proj1 C1_checkPercentEncoding_contract
                                 SpecModel.specChars "%C3%BC" 3 6 B1 B2 B3)
                               eq_refl)) T).
Defined.

(** C9.  Outside its preconditions the validator still answers.  A first
    argument that is not a string throws [URI_INVALID_PERCENT_ENCODING].
    An index that is not a number, or is not below the bound, is read as 0,
    so the answer is the one for position 0: offset 0 when the bound is 0
    or the first character is not [%]; for a [%] there and a positive
    bound, offset 2 exactly when two percent-encoding characters follow
    inside the bound, and [URI_INVALID_PERCENT_ENCODING] otherwise.  A bound
    that is not a number, or is negative, is read as the length of the
    string, so the answer is the one for the whole string at the position
    read: offset 0 off a [%], offset 2 exactly on a triplet that ends
    inside the string, the error otherwise.  With both replaced the answer
    depends on the string alone.  The empty string gives offset 0.  With
    the hex-digit classifier, [%20] with index 9 and bound [null] gives 2
    and [%zz] with the same arguments throws. *)
Theorem C9_checkPercentEncoding_argument_shapes :
  forall (C : Chars),
    (forall v index stringLen,
        is_String v = false ->
        checkPercentEncoding v index stringLen
        = Throw "URI_INVALID_PERCENT_ENCODING")
    /\ (forall s index stringLen,
           is_Number index = false
           \/ (exists n, index = VNum n /\ scanBound s stringLen <= n) ->
           scanIndex index (scanBound s stringLen) = 0
           /\ checkPercentEncoding (VStr s) index stringLen
              = checkPercentEncoding (VStr s) (VNum 0) stringLen
           /\ (scanBound s stringLen = 0 \/ str_at s 0 <> VStr "%" ->
               checkPercentEncoding (VStr s) index stringLen = Ok 0)
           /\ (0 < scanBound s stringLen -> str_at s 0 = VStr "%" ->
               (checkPercentEncoding (VStr s) index stringLen = Ok 2
                <-> triplet s 0 (scanBound s stringLen))
               /\ (~ triplet s 0 (scanBound s stringLen) ->
                   checkPercentEncoding (VStr s) index stringLen
                   = Throw "URI_INVALID_PERCENT_ENCODING")))
    /\ (forall s index stringLen,
           is_Number stringLen = false
           \/ (exists n, stringLen = VNum n /\ n < 0) ->
           scanBound s stringLen = strlen s
           /\ checkPercentEncoding (VStr s) index stringLen
              = checkPercentEncoding (VStr s) index (VNum (strlen s))
           /\ (str_at s (scanIndex index (strlen s)) <> VStr "%" ->
               checkPercentEncoding (VStr s) index stringLen = Ok 0)
           /\ (str_at s (scanIndex index (strlen s)) = VStr "%" ->
               (checkPercentEncoding (VStr s) index stringLen = Ok 2
                <-> triplet s (scanIndex index (strlen s)) (strlen s))
               /\ (~ triplet s (scanIndex index (strlen s)) (strlen s) ->
                   checkPercentEncoding (VStr s) index stringLen
                   = Throw "URI_INVALID_PERCENT_ENCODING")))
    /\ (forall s index stringLen,
           is_Number index = false
           \/ (exists n, index = VNum n /\ strlen s <= n) ->
           is_Number stringLen = false
           \/ (exists n, stringLen = VNum n /\ n < 0) ->
           (str_at s 0 <> VStr "%" ->
            checkPercentEncoding (VStr s) index stringLen = Ok 0)
           /\ (str_at s 0 = VStr "%" ->
               (checkPercentEncoding (VStr s) index stringLen = Ok 2
                <-> triplet s 0 (strlen s))
               /\ (~ triplet s 0 (strlen s) ->
                   checkPercentEncoding (VStr s) index stringLen
                   = Throw "URI_INVALID_PERCENT_ENCODING")))
    /\ (forall index stringLen,
           checkPercentEncoding (VStr "") index stringLen = Ok 0)
    /\ (let check := @checkPercentEncoding SpecModel.specChars in
        let fails := Throw "URI_INVALID_PERCENT_ENCODING" in
        check (VStr "%20") (VNum 9) VNull = Ok 2
        /\ check (VStr "%zz") (VNum 9) VNull = fails
        /\ check (VStr "%2") (VNum 9) VNull = fails
        /\ check (VStr "a%20") (VNum 9) VNull = Ok 0
        /\ check (VStr "%20") (VStr "1") (VNum 3) = Ok 2
        /\ check (VStr "%20") (VNum 3) (VNum 3) = Ok 2
        /\ check (VStr "%20") (VNum 3) (VNum 0) = Ok 0
        /\ check (VStr "a%20") (VNum 1) (VNum (-1)) = Ok 2
        /\ check (VStr "a%2") (VNum 1) (VStr "4") = fails
        /\ check (VStr "a%20") (VNum 0) VUndefined = Ok 0
        /\ check (VNum 7) (VNum 0) (VNum 1) = fails
        /\ check VUndefined VUndefined VUndefined = fails
        /\ check VNull (VNum 0) (VNum 0) = fails).
Proof.
  intro C.
  assert (Hidx : forall s index stringLen,
             is_Number index = false
             \/ (exists n, index = VNum n /\ scanBound s stringLen <= n) ->
             scanIndex index (scanBound s stringLen) = 0).
  { intros s index stringLen [Hn | (n & -> & Hn)].
    - destruct index; try reflexivity. discriminate.
    - unfold scanIndex.
      replace (n <? scanBound s stringLen) with false
        by (symmetry; apply Z.ltb_ge; lia).
      reflexivity. }
  assert (Hbnd : forall s stringLen,
             is_Number stringLen = false
             \/ (exists n, stringLen = VNum n /\ n < 0) ->
             scanBound s stringLen = strlen s).
  { intros s stringLen [Hn | (n & -> & Hn)].
    - destruct stringLen; try reflexivity. discriminate.
    - unfold scanBound.
      replace (0 <=? n) with false by (symmetry; apply Z.leb_gt; lia).
      reflexivity. }
  split; [|split; [|split; [|split; [|split]]]].
  - intros v index stringLen Hv. destruct v; try reflexivity. discriminate.
  - intros s index stringLen H.
    pose proof (Hidx s index stringLen H) as Hi.
    pose proof (checkPercentEncoding_value s index stringLen) as [V0 V2].
    rewrite Hi in V0, V2.
    split; [exact Hi|]. split; [|split; [exact V0 | exact V2]].
    unfold checkPercentEncoding. rewrite Hi. unfold scanIndex.
    destruct (0 <? scanBound s stringLen); reflexivity.
  - intros s index stringLen H.
    pose proof (Hbnd s stringLen H) as Hb.
    pose proof (checkPercentEncoding_value s index stringLen) as [V0 V2].
    rewrite Hb in V0, V2.
    split; [exact Hb|]. split; [|split].
    + unfold checkPercentEncoding. rewrite Hb.
      replace (scanBound s (VNum (strlen s))) with (strlen s); [reflexivity|].
      unfold scanBound. pose proof (strlen_nonneg s).
      replace (0 <=? strlen s) with true by (symmetry; apply Z.leb_le; lia).
      reflexivity.
    + intro Hc. apply V0. now right.
    + intro Hc. apply V2; [|exact Hc].
      apply str_at_in_range in Hc. lia.
  - intros s index stringLen Hi Hb.
    pose proof (Hbnd s stringLen Hb) as Eb.
    assert (Ei : scanIndex index (scanBound s stringLen) = 0).
    { apply Hidx. rewrite Eb. exact Hi. }
    pose proof (checkPercentEncoding_value s index stringLen) as [V0 V2].
    rewrite Ei, Eb in V0, V2.
    split.
    + intro Hc. apply V0. now right.
    + intro Hc. apply V2; [|exact Hc].
      apply str_at_in_range in Hc. lia.
  - intros index stringLen. unfold checkPercentEncoding.
    rewrite str_at_empty. simpl. now rewrite andb_false_r.
  - cbv zeta. repeat split; reflexivity.
Qed.

Lemma C9_witness :
  is_String (VNum 7) = false
  /\ @checkPercentEncoding SpecModel.specChars (VNum 7) (VNum 0) (VNum 1)
     = Throw "URI_INVALID_PERCENT_ENCODING"
  /\ strlen "%20" <= 9
  /\ is_Number VNull = false
  /\ str_at "%20" 0 = VStr "%"
  /\ @triplet SpecModel.specChars "%20" 0 (strlen "%20")
  /\ @checkPercentEncoding SpecModel.specChars (VStr "%20") (VNum 9) VNull
     = Ok 2.
Proof.
  assert (B : strlen "%20" <= 9) by (vm_compute; discriminate).
  assert (T : @triplet SpecModel.specChars "%20" 0 (strlen "%20"))
    by (repeat split).
  refine (conj eq_refl (conj _ (conj B (conj eq_refl (conj eq_refl
            (conj T _)))))).
  - exact (proj1 (C9_checkPercentEncoding_argument_shapes SpecModel.specChars)
             (VNum 7) (VNum 0) (VNum 1) eq_refl).
  - exact (proj2 (proj1 (proj2 (proj1 (proj2 (proj2 (proj2
             (C9_checkPercentEncoding_argument_shapes SpecModel.specChars))))
             "%20" (VNum 9) VNull
             (or_intror (ex_intro _ 9 (conj eq_refl B)))
             (or_introl eq_refl))
             eq_refl)) T).
Defined.

(** ** Loops *)

Section Loops.

Variables (body : Z -> result Z) (len : Z).

(** A loop whose body never moves [i] backwards ends within [len - i]
    iterations. *)
Lemma for_loop_returns :
  (forall i i', i < len -> body i = Ok i' -> i <= i') ->
  forall (fuel : nat) (i : Z),
    len - i <= Z.of_nat fuel ->
    exists r, for_loop fuel len body i = Some r.
Proof.
  intros Hmono fuel. induction fuel as [|fuel IH]; intros i Hfuel; simpl.
  - destruct (i <? len) eqn:E; [apply Z.ltb_lt in E; lia|].
    now exists (Ok tt).
  - destruct (i <? len) eqn:E; [apply Z.ltb_lt in E | now exists (Ok tt)].
    destruct (body i) as [i'|e] eqn:Hb; [|now exists (Throw e)].
    apply IH. specialize (Hmono i i' E Hb). lia.
Qed.

(** A loop all of whose iterations succeed returns. *)
Lemma for_loop_passes (i0 : Z) :
  (forall i, i0 <= i -> i < len -> exists i', body i = Ok i' /\ i <= i') ->
  forall (fuel : nat) (i : Z),
    i0 <= i -> len - i <= Z.of_nat fuel ->
    for_loop fuel len body i = ret tt.
Proof.
  intros Hall fuel. induction fuel as [|fuel IH]; intros i Hi Hfuel; simpl.
  - destruct (i <? len) eqn:E; [apply Z.ltb_lt in E; lia | reflexivity].
  - destruct (i <? len) eqn:E; [apply Z.ltb_lt in E | reflexivity].
    destruct (Hall i Hi E) as (i' & -> & Hle). apply IH; lia.
Qed.

(** An error of the loop is the error of the body at a visited position. *)
Lemma for_loop_throw_inv (fuel : nat) (i : Z) (e : string) :
  for_loop fuel len body i = Some (Throw e) ->
  exists k, visits body len i k /\ k < len /\ body k = Throw e.
Proof.
  revert i. induction fuel as [|fuel IH]; intros i; simpl;
    destruct (i <? len) eqn:E; try discriminate.
  apply Z.ltb_lt in E. destruct (body i) as [i'|e'] eqn:Hb.
  - intro H. destruct (IH _ H) as (k & Hv & Hk & Hbk).
    exists k. split; [|auto]. eapply visits_next; eauto.
  - intro H. injection H as ->. exists i. split; [constructor | auto].
Qed.

(** When the loop returns, the body succeeded at every visited position. *)
Lemma for_loop_ok_inv (fuel : nat) (i k : Z) :
  for_loop fuel len body i = Some (Ok tt) ->
  visits body len i k -> k < len -> exists k', body k = Ok k'.
Proof.
  intros H Hv. revert fuel H.
  induction Hv as [i | i i' k Hi Hb Hv IH]; intros fuel H Hk.
  - destruct fuel; simpl in H;
      replace (i <? len) with true in H by (symmetry; apply Z.ltb_lt; lia);
      try discriminate.
    destruct (body i) as [k'|e]; [now exists k' | discriminate].
  - destruct fuel; simpl in H;
      replace (i <? len) with true in H by (symmetry; apply Z.ltb_lt; lia);
      try discriminate.
    rewrite Hb in H. eapply IH; eauto.
Qed.

(** The loop reports the first error on its way. *)
Lemma for_loop_throw_at (fuel : nat) (i k : Z) (e : string) :
  visits body len i k -> k < len -> body k = Throw e ->
  for_loop fuel len body i <> None ->
  for_loop fuel len body i = Some (Throw e).
Proof.
  intros Hv. revert fuel.
  induction Hv as [i | i i' k Hi Hb Hv IH]; intros fuel Hk Hbk Hsome.
  - destruct fuel; simpl in *;
      replace (i <? len) with true in * by (symmetry; apply Z.ltb_lt; lia);
      try congruence.
    now rewrite Hbk.
  - destruct fuel; simpl in *;
      replace (i <? len) with true in * by (symmetry; apply Z.ltb_lt; lia);
      try congruence.
    rewrite Hb in *. now apply IH.
Qed.

End Loops.

(** ** checkURISyntax *)

Section SyntaxFacts.

Context {P : Parser}.

(** What a successful syntax check establishes, and the object it
    returns. *)
Lemma checkURISyntax_ok_inv (uri : val) (r : object CheckResult) :
  checkURISyntax uri = Ok r ->
  let c := parseURI uri in
  is_String uri = true
  /\ is_String (scheme c) = true
  /\ 0 < lengthOf (scheme c)
  /\ is_String (path c) = true
  /\ r = literal (mkResult c (VNum (lengthOf (scheme c))) (VBool true)).
Proof.
  unfold checkURISyntax.
  destruct (is_String uri); simpl; [|discriminate].
  destruct (is_String (scheme (parseURI uri))); simpl; [|discriminate].
  destruct (lengthOf (scheme (parseURI uri)) <=? 0) eqn:L; [discriminate|].
  destruct (is_String (path (parseURI uri))); simpl; [|discriminate].
  apply Z.leb_gt in L.
  repeat match goal with
         | |- context [if ?b then _ else _] => destruct b
         end; intro H; inversion H; auto.
Qed.

(** With a non-empty scheme and a string path, the first two stages pass
    and the slash rule decides. *)
Lemma checkURISyntax_past_scheme (uri sch p : string) :
  let c := parseURI (VStr uri) in
  scheme c = VStr sch -> sch <> "" -> path c = VStr p ->
  checkURISyntax (VStr uri) =
    if (if is_String (authority c) && (0 <? lengthOf (authority c))
        then negb (val_eqb (path c) (VStr "") || startsWith (path c) "/")
        else startsWith (path c) "//")
    then Throw "URI_INVALID_PATH"
    else if negb (exists_ (authority c)) && exists_ (authorityPunydecoded c)
    then Throw "URI_INVALID_HOST"
    else Ok (literal (mkResult c (VNum (lengthOf (scheme c))) (VBool true))).
Proof.
  intros c Hs Hne Hp. unfold checkURISyntax. fold c. rewrite Hs, Hp. simpl.
  replace (strlen sch <=? 0) with false; [reflexivity|].
  symmetry. apply Z.leb_gt. unfold strlen.
  destruct sch; [contradiction | simpl; lia].
Qed.

Lemma strlen_pos_iff (a : string) : 0 < strlen a <-> a <> "".
Proof.
  unfold strlen. destruct a; simpl; split; intro H;
    try lia; try congruence; try discriminate.
Qed.

End SyntaxFacts.

(** C2, as the code has it.  For a parse with a non-empty scheme and a string
    path: when the authority is a non-empty string, [checkURISyntax] throws
    [URI_INVALID_PATH] exactly when the path is neither empty nor starts
    with [/] (so a path that starts with [//] is accepted); when the
    authority is absent or empty, it throws [URI_INVALID_PATH] exactly when
    the path starts with [//]. *)
Theorem C2_path_slash_rule :
  forall (P : Parser) (uri sch p : string),
    let c := parseURI (VStr uri) in
    scheme c = VStr sch -> sch <> "" -> path c = VStr p ->
    (forall a, authority c = VStr a -> a <> "" ->
       (checkURISyntax (VStr uri) = Throw "URI_INVALID_PATH"
        <-> p <> "" /\ String.prefix "/" p = false))
    /\ ((forall a, authority c = VStr a -> a = "") ->
        (checkURISyntax (VStr uri) = Throw "URI_INVALID_PATH"
         <-> String.prefix "//" p = true)).
Proof.
  intros P uri sch p c Hs Hne Hp.
  rewrite (checkURISyntax_past_scheme uri sch p Hs Hne Hp). fold c.
  rewrite Hp. split.
  - intros a Ha Hane. rewrite Ha. simpl.
    replace (0 <? strlen a) with true
      by (symmetry; apply Z.ltb_lt; now apply strlen_pos_iff).
    simpl. destruct (String.eqb p "") eqn:E1; simpl.
    + apply String.eqb_eq in E1. split; [discriminate | tauto].
    + apply String.eqb_neq in E1.
      destruct (String.prefix "/" p) eqn:E2; simpl.
      * split; [discriminate | intros (_ & F); discriminate].
      * tauto.
  - intros Ha.
    assert (G : is_String (authority c) && (0 <? lengthOf (authority c))
                = false).
    { destruct (authority c) as [| | | |a] eqn:E; try reflexivity. simpl.
      rewrite (Ha a eq_refl). reflexivity. }
    rewrite G. simpl. destruct (String.prefix "//" p) eqn:E2.
    + tauto.
    + split; [|discriminate].
      destruct (negb (exists_ (authority c)) && exists_ (authorityPunydecoded c));
        discriminate.
Qed.

Lemma C2_witness :
  let c := @parseURI SpecModel.asciiParser (VStr "a:////x") in
  scheme c = VStr "a" /\ "a" <> "" /\ path c = VStr "//x"
  /\ (forall a, authority c = VStr a -> a = "")
  /\ @checkURISyntax SpecModel.asciiParser (VStr "a:////x")
     = Throw "URI_INVALID_PATH".
Proof.
  assert (Hne : "a" <> "") by discriminate.
  assert (Ha : forall a,
             authority (@parseURI SpecModel.asciiParser (VStr "a:////x"))
             = VStr a -> a = "")
    by (intros a H; vm_compute in H; now inversion H).
  refine (conj eq_refl (conj Hne (conj eq_refl (conj Ha _)))).
  exact (proj2 (proj2 (C2_path_slash_rule SpecModel.asciiParser
                         "a:////x" "a" "//x" eq_refl Hne eq_refl) Ha)
           eq_refl).
Defined.

(** C2 as worded fails: with the authority [example.com] present, the path
    [//foo] begins with two slashes and the syntax check accepts it. *)
Lemma C2_counterexample :
  let uri := VStr "http://example.com//foo" in
  let c := @parseURI SpecModel.asciiParser uri in
  scheme c = VStr "http"
  /\ authority c = VStr "example.com"
  /\ path c = VStr "//foo"
  /\ @checkURISyntax SpecModel.asciiParser uri
     = Ok (literal (mkResult c (VNum 4) (VBool true)))
  /\ @checkURISyntax SpecModel.asciiParser uri <> Throw "URI_INVALID_PATH".
Proof.
  cbv zeta. repeat split; try reflexivity. vm_compute. discriminate.
Qed.

(** C3, as the code has it.  For a parse with a non-empty scheme and
    a string path that does not start with [//]: when the parser gives no
    authority but gives a punydecoded authority, [checkURISyntax] throws
    [URI_INVALID_HOST].  And whenever [checkURISyntax] throws
    [URI_INVALID_HOST], the parser gave no authority and gave a punydecoded
    authority. *)
Theorem C3_unreconciled_authority :
  forall (P : Parser),
    (forall (uri sch p : string),
        let c := parseURI (VStr uri) in
        scheme c = VStr sch -> sch <> "" ->
        path c = VStr p -> String.prefix "//" p = false ->
        exists_ (authority c) = false ->
        exists_ (authorityPunydecoded c) = true ->
        checkURISyntax (VStr uri) = Throw "URI_INVALID_HOST")
    /\ (forall (uri : val),
           checkURISyntax uri = Throw "URI_INVALID_HOST" ->
           exists_ (authority (parseURI uri)) = false
           /\ exists_ (authorityPunydecoded (parseURI uri)) = true).
Proof.
  intro P. split.
  - intros uri sch p c Hs Hne Hp Hpre Ha Hd.
    rewrite (checkURISyntax_past_scheme uri sch p Hs Hne Hp). fold c.
    assert (G : is_String (authority c) = false)
      by (destruct (authority c); try reflexivity; discriminate).
    rewrite G, Hp, Ha, Hd. simpl. now rewrite Hpre.
  - intros uri. unfold checkURISyntax.
    repeat match goal with
           | |- context [if negb (exists_ ?a) && exists_ ?b then _ else _] =>
               destruct (exists_ a) eqn:?, (exists_ b) eqn:?; simpl
           | |- context [if ?b then _ else _] => destruct b
           end; intro H; try discriminate H; auto.
Qed.

Lemma C3_witness :
  let P := answering (unreconciled (VStr "http") (VStr "/")) in
  let c := @parseURI P (VStr "http://exa mple.com/") in
  scheme c = VStr "http" /\ "http" <> "" /\ path c = VStr "/"
  /\ String.prefix "//" "/" = false
  /\ exists_ (authority c) = false
  /\ exists_ (authorityPunydecoded c) = true
  /\ @checkURISyntax P (VStr "http://exa mple.com/")
     = Throw "URI_INVALID_HOST".
Proof.
  assert (Hne : "http" <> "") by discriminate.
  refine (conj eq_refl (conj Hne (conj eq_refl (conj eq_refl
            (conj eq_refl (conj eq_refl _)))))).
  exact (proj1 (C3_unreconciled_authority
                  (answering (unreconciled (VStr "http") (VStr "/"))))
           "http://exa mple.com/" "http" "/"
           eq_refl Hne eq_refl eq_refl eq_refl eq_refl).
Defined.

(** C3 as worded fails: the parse has no authority and has a punydecoded
    authority, yet a missing scheme is reported first, and so is a path that
    starts with two slashes. *)
Lemma C3_counterexample :
  let P := answering (unreconciled VUndefined (VStr "")) in
  let c := @parseURI P (VStr "//exa mple.com") in
  let P' := answering (unreconciled (VStr "http") (VStr "//x")) in
  let c' := @parseURI P' (VStr "http://exa mple.com//x") in
  (exists_ (authority c) = false
   /\ exists_ (authorityPunydecoded c) = true
   /\ @checkURISyntax P (VStr "//exa mple.com") = Throw "URI_MISSING_SCHEME"
   /\ @checkURISyntax P (VStr "//exa mple.com") <> Throw "URI_INVALID_HOST")
  /\ (exists_ (authority c') = false
      /\ exists_ (authorityPunydecoded c') = true
      /\ @checkURISyntax P' (VStr "http://exa mple.com//x")
         = Throw "URI_INVALID_PATH"
      /\ @checkURISyntax P' (VStr "http://exa mple.com//x")
         <> Throw "URI_INVALID_HOST").
Proof.
  cbv zeta. repeat split; try reflexivity; vm_compute; discriminate.
Qed.

(** ** checkURI: loop bodies and termination *)

Lemma lengthOf_nonneg (v : val) : 0 <= lengthOf v.
Proof. destruct v; simpl; try lia. apply strlen_nonneg. Qed.

Lemma fuel_enough (n : Z) : n - 0 <= Z.of_nat (Z.to_nat n).
Proof. lia. Qed.

Lemma escapeCodesKeys_length (escape : string) :
  In escape escapeCodesKeys -> 4 <= strlen escape <= 6.
Proof.
  simpl. intros [<-|[<-|[<-|[<-|[<-|[]]]]]]; vm_compute; split; discriminate.
Qed.

Section BodyFacts.

Context {C : Chars}.

Lemma schemeBody_ok (scheme : val) (i i' : Z) :
  schemeBody scheme i = Ok i' -> i' = i.
Proof.
  unfold schemeBody. destruct (negb _); intro H; now inversion H.
Qed.

Lemma userinfoBody_mono (userinfo : val) (len i i' : Z) :
  userinfoBody userinfo len i = Ok i' -> i <= i'.
Proof.
  unfold userinfoBody. destruct (negb _); [discriminate|].
  destruct (checkPercentEncoding _ _ _) as [o|] eqn:E; [|discriminate].
  intro H. inversion H. apply checkPercentEncoding_offset in E. lia.
Qed.

(** The inner loop leaves the length of a table entry that stands at
    [i]. *)
Lemma findEscape_some (keys : list string) (s : string) (len i n : Z) :
  findEscape keys (VStr s) len i = Some n ->
  exists escape,
    In escape keys /\ matchesAt s len i escape /\ n = strlen escape.
Proof.
  induction keys as [|k keys IH]; simpl; [discriminate|].
  destruct (i + strlen k <=? len) eqn:E1; simpl.
  - destruct (String.eqb k (js_substring s i (i + strlen k))) eqn:E2.
    + intro H. inversion H. exists k. repeat split; auto.
      * apply Z.leb_le in E1. exact E1.
      * apply String.eqb_eq in E2. now symmetry.
    + intro H. destruct (IH H) as (e & ? & ? & ?). exists e. auto.
  - intro H. destruct (IH H) as (e & ? & ? & ?). exists e. auto.
Qed.

(** It leaves [escapeOffset] undefined exactly when no table entry stands
    at [i]. *)
Lemma findEscape_none (keys : list string) (s : string) (len i : Z) :
  findEscape keys (VStr s) len i = None <->
  (forall escape, In escape keys -> ~ matchesAt s len i escape).
Proof.
  induction keys as [|k keys IH]; simpl.
  - split; [intros _ e [] | reflexivity].
  - destruct (i + strlen k <=? len) eqn:E1; simpl.
    + destruct (String.eqb k (js_substring s i (i + strlen k))) eqn:E2.
      * split; [discriminate|]. intro H. exfalso. apply (H k); [now left|].
        split; [now apply Z.leb_le|].
        apply String.eqb_eq in E2. now symmetry.
      * rewrite IH. split.
        -- intros H e [<-|He]; [|now apply H].
           intros (_ & M). apply String.eqb_neq in E2. congruence.
        -- intros H e He. apply H. now right.
    + rewrite IH. split.
      * intros H e [<-|He]; [|now apply H].
        intros (M & _). apply Z.leb_gt in E1. lia.
      * intros H e He. apply H. now right.
Qed.

Lemma findEscape_not_string (keys : list string) (v : val) (len i : Z) :
  is_String v = false -> findEscape keys v len i = None.
Proof.
  intro Hv. induction keys as [|k keys IH]; simpl; [reflexivity|].
  destruct v; try discriminate Hv; simpl; now rewrite andb_false_r.
Qed.

Lemma pathqfBody_mono (cs : bool) (pathqf : val) (len i i' : Z) :
  pathqfBody cs pathqf len i = Ok i' -> i <= i'.
Proof.
  unfold pathqfBody. destruct (negb _); [discriminate|].
  destruct (checkPercentEncoding _ _ _) as [o|] eqn:E; [|discriminate].
  apply checkPercentEncoding_offset in E.
  destruct cs; [|intro H; inversion H; lia].
  destruct (val_eqb (js_at pathqf (i + o)) (VStr "&")).
  - destruct (findEscape escapeCodesKeys pathqf len (i + o)) as [n|] eqn:F;
      [|discriminate].
    intro H. inversion H. subst i'.
    destruct pathqf as [| | | |s];
      try (rewrite findEscape_not_string in F by reflexivity; discriminate).
    apply findEscape_some in F. destruct F as (e & He & _ & ->).
    apply escapeCodesKeys_length in He. lia.
  - destruct (includes entitiesKeys _); [discriminate|].
    intro H. inversion H. lia.
Qed.

Lemma scanScheme_returns (scheme : val) (len : Z) :
  exists r, scanScheme scheme len = Some r.
Proof.
  apply for_loop_returns; [|apply fuel_enough].
  intros i i' _ H. apply schemeBody_ok in H. lia.
Qed.

Lemma scanUserinfo_returns (userinfo : val) :
  exists r, scanUserinfo userinfo = Some r.
Proof.
  apply for_loop_returns; [|apply fuel_enough].
  intros i i' _ H. now apply userinfoBody_mono in H.
Qed.

Lemma scanPathqf_returns (cs : bool) (pathqf : val) :
  exists r, scanPathqf cs pathqf = Some r.
Proof.
  apply for_loop_returns; [|apply fuel_enough].
  intros i i' _ H. now apply pathqfBody_mono in H.
Qed.

End BodyFacts.

Section URIFacts.

Context {C : Chars} {P : Parser} {V : Validators}.

Lemma checkAuthority_returns (c : URIComponents) :
  exists r, checkAuthority c = Some r.
Proof.
  unfold checkAuthority. destruct (exists_ (authority c)); [|now eexists].
  destruct (scanUserinfo_returns (userinfo c)) as ([[]|e] & ->); simpl.
  - repeat match goal with
           | |- context [if ?b then _ else _] => destruct b
           end; now eexists.
  - now eexists.
Qed.

(** [checkURI] returns or throws on every input: none of its loops runs
    out of fuel. *)
Theorem checkURI_returns (uri sitemap : val) :
  exists r, checkURI uri sitemap = Some r.
Proof.
  unfold checkURI, lift. destruct (checkURISyntax uri) as [r0|e]; simpl;
    [|now eexists].
  destruct (scanScheme_returns (scheme (components (props r0)))
              (bound (schemeLen (props r0)))) as ([[]|e] & ->); simpl;
    [|now eexists].
  destruct (checkAuthority_returns (components (props r0)))
    as ([[]|e] & ->); simpl; [|now eexists].
  destruct (scanPathqf_returns (val_eqb sitemap (VBool true))
              (pathqf (components (props r0)))) as ([[]|e] & ->); simpl;
    now eexists.
Qed.

Theorem checkHttpURL_returns (uri : val) (o : HttpOptions) :
  exists r, checkHttpURL uri o = Some r.
Proof.
  unfold checkHttpURL.
  destruct (checkURI_returns uri (sitemap o)) as ([r|e] & ->); simpl;
    [|now eexists].
  repeat match goal with
         | |- context [if ?b then _ else _] => destruct b
         end; now eexists.
Qed.

(** The stages a successful [checkURI] went through, and its result. *)
Lemma checkURI_ok_inv (uri sitemap : val) (r : object CheckResult) :
  checkURI uri sitemap = Some (Ok r) ->
  let c := parseURI uri in
  checkURISyntax uri
    = Ok (literal (mkResult c (VNum (lengthOf (scheme c))) (VBool true)))
  /\ scanScheme (scheme c) (lengthOf (scheme c)) = ret tt
  /\ checkAuthority c = ret tt
  /\ scanPathqf (val_eqb sitemap (VBool true)) (pathqf c) = ret tt
  /\ r = literal (mkResult c VUndefined (VBool true)).
Proof.
  unfold checkURI, lift.
  destruct (checkURISyntax uri) as [r0|e] eqn:E0; simpl; [|discriminate].
  destruct (checkURISyntax_ok_inv _ _ E0) as (_ & _ & _ & _ & ->). simpl.
  destruct (scanScheme _ _) as [[[]|e]|]; simpl; try discriminate.
  destruct (checkAuthority _) as [[[]|e]|]; simpl; try discriminate.
  destruct (scanPathqf _ _) as [[[]|e]|]; simpl; try discriminate.
  intro H. inversion H. repeat split.
Qed.

(** [checkURI] from a syntax result on: the pipeline after the first
    stage. *)
Lemma checkURI_after_syntax (uri sitemap : val) (r0 : object CheckResult) :
  checkURISyntax uri = Ok r0 ->
  let c := parseURI uri in
  checkURI uri sitemap =
    (_ <- scanScheme (scheme c) (lengthOf (scheme c)) ;;
     _ <- checkAuthority c ;;
     _ <- scanPathqf (val_eqb sitemap (VBool true)) (pathqf c) ;;
     ret (literal (mkResult c VUndefined (VBool true)))).
Proof.
  intros E0 c. unfold checkURI, lift. rewrite E0.
  destruct (checkURISyntax_ok_inv _ _ E0) as (_ & _ & _ & _ & ->).
  reflexivity.
Qed.

End URIFacts.

(** ** checkURI: the scans on valid characters *)

Section ScanFacts.

Context {C : Chars}.

(** Every scheme character valid: the scheme loop passes. *)
Lemma scanScheme_valid (scheme : val) :
  (forall i, 0 <= i < lengthOf scheme ->
             isSchemeChar (js_at scheme i) (i =? 0) = true) ->
  scanScheme scheme (lengthOf scheme) = ret tt.
Proof.
  intro H. unfold scanScheme.
  apply (for_loop_passes _ _ 0); [|lia|apply fuel_enough].
  intros i Hi Hlen. exists i. unfold schemeBody.
  rewrite H by lia. split; [reflexivity | lia].
Qed.

(** Every userinfo character valid and every [%] beginning a triplet: the
    userinfo loop passes. *)
Lemma scanUserinfo_valid (userinfo : val) :
  (forall i, 0 <= i < lengthOf userinfo ->
             isUserinfoChar (js_at userinfo i) = true) ->
  (forall u i, userinfo = VStr u -> 0 <= i < strlen u ->
               str_at u i = VStr "%" -> triplet u i (strlen u)) ->
  scanUserinfo userinfo = ret tt.
Proof.
  intros Hc Hp. unfold scanUserinfo.
  apply (for_loop_passes _ _ 0); [|lia|apply fuel_enough].
  intros i Hi Hlen. unfold userinfoBody. rewrite Hc by lia. simpl.
  destruct userinfo as [| | | |u]; simpl in Hlen; try lia.
  cbn [lengthOf].
  destruct (val_eqb (str_at u i) (VStr "%")) eqn:E.
  - apply val_eqb_eq in E.
    destruct (checkPercentEncoding_percent u i (strlen u) Hi Hlen E)
      as (Hok & _).
    rewrite (proj2 Hok) by (apply (Hp u i); auto; lia).
    exists (i + 2). split; [reflexivity | lia].
  - apply val_eqb_neq in E.
    rewrite (checkPercentEncoding_other u i (strlen u) Hi Hlen E).
    exists (i + 0). split; [reflexivity | lia].
Qed.

End ScanFacts.

Section HostFacts.

Context {C : Chars} {P : Parser} {V : Validators}.

(** Past the syntax check, the scheme loop and the userinfo loop, a host
    that is neither an IP nor a domain is reported. *)
Lemma checkURI_invalid_host (uri sitemap : val) (r : object CheckResult) :
  checkURISyntax uri = Ok r ->
  let c := parseURI uri in
  scanScheme (scheme c) (lengthOf (scheme c)) = ret tt ->
  exists_ (authority c) = true ->
  scanUserinfo (userinfo c) = ret tt ->
  isIP (host c) = false -> isDomain (host c) = false ->
  checkURI uri sitemap = Some (Throw "URI_INVALID_HOST").
Proof.
  intros E0 c Hs Ha Hu Hip Hdom.
  rewrite (checkURI_after_syntax uri sitemap r E0). fold c.
  rewrite Hs. simpl. unfold checkAuthority.
  rewrite Ha, Hu. simpl. rewrite Hip, Hdom. reflexivity.
Qed.

End HostFacts.

(** With the classifier of the specification a [%] is not a userinfo
    character, so a userinfo of valid characters holds no triplet to
    check. *)
Lemma specChars_percent_not_userinfo :
  @isUserinfoChar SpecModel.specChars (VStr "%") = false.
Proof. reflexivity. Qed.

(** C4.  For a uri that passes [checkURISyntax], whose scheme has only valid
    scheme characters, whose authority is present and whose userinfo has only
    valid userinfo characters: when the host satisfies neither [isIP] nor
    [isDomain], [checkURI] throws [URI_INVALID_HOST].  The validators answer
    with a boolean; the error is raised by [checkURI].  For an arbitrary
    classifier the valid userinfo characters include, as in the userinfo
    scan, that a [%] among them begins a triplet; with the classifier of the
    specification, where [%] is no userinfo character, validity of each
    character is all there is to ask. *)
Theorem C4_host_neither_ip_nor_domain :
  (forall (C : Chars) (P : Parser) (V : Validators)
          (uri sitemap : val) (r : object CheckResult),
      checkURISyntax uri = Ok r ->
      let c := parseURI uri in
      (forall i, 0 <= i < lengthOf (scheme c) ->
                 isSchemeChar (js_at (scheme c) i) (i =? 0) = true) ->
      exists_ (authority c) = true ->
      (forall i, 0 <= i < lengthOf (userinfo c) ->
                 isUserinfoChar (js_at (userinfo c) i) = true) ->
      (forall u i, userinfo c = VStr u -> 0 <= i < strlen u ->
                   str_at u i = VStr "%" -> triplet u i (strlen u)) ->
      isIP (host c) = false ->
      isDomain (host c) = false ->
      checkURI uri sitemap = Some (Throw "URI_INVALID_HOST"))
  /\ (forall (P : Parser) (V : Validators)
             (uri sitemap : val) (r : object CheckResult),
         checkURISyntax uri = Ok r ->
         let c := parseURI uri in
         (forall i, 0 <= i < lengthOf (scheme c) ->
                    @isSchemeChar SpecModel.specChars
                      (js_at (scheme c) i) (i =? 0) = true) ->
         exists_ (authority c) = true ->
         (forall i, 0 <= i < lengthOf (userinfo c) ->
                    @isUserinfoChar SpecModel.specChars
                      (js_at (userinfo c) i) = true) ->
         isIP (host c) = false ->
         isDomain (host c) = false ->
         @checkURI SpecModel.specChars P V uri sitemap
         = Some (Throw "URI_INVALID_HOST")).
Proof.
  split.
  - intros C P V uri sm r E0 c Hs Ha Hu Hp Hip Hdom.
    apply (checkURI_invalid_host uri sm r E0); try assumption.
    + now apply scanScheme_valid.
    + now apply scanUserinfo_valid.
  - intros P V uri sm r E0 c Hs Ha Hu Hip Hdom.
    apply (checkURI_invalid_host uri sm r E0); try assumption.
    + now apply scanScheme_valid.
    + apply scanUserinfo_valid; [assumption|].
      intros u i Eu Hi Hpct. exfalso. subst c.
      assert (Hc := Hu i). rewrite Eu in Hc. cbn [lengthOf js_at] in Hc.
      rewrite Hpct, specChars_percent_not_userinfo in Hc.
      specialize (Hc Hi). discriminate Hc.
Qed.

Lemma C4_witness :
  let uri := VStr "http://user@exa mple.com/" in
  let c := @parseURI SpecModel.asciiParser uri in
  userinfo c = VStr "user"
  /\ host c = VStr "exa mple.com"
  /\ @isIP SpecModel.asciiValidators (host c) = false
  /\ @isDomain SpecModel.asciiValidators (host c) = false
  /\ @checkURI SpecModel.specChars SpecModel.asciiParser
       SpecModel.asciiValidators uri VUndefined
     = Some (Throw "URI_INVALID_HOST").
Proof.
  refine (conj eq_refl (conj eq_refl (conj eq_refl (conj eq_refl _)))).
  refine (proj2 C4_host_neither_ip_nor_domain
            SpecModel.asciiParser SpecModel.asciiValidators
            (VStr "http://user@exa mple.com/") VUndefined _ eq_refl
            _ eq_refl _ eq_refl eq_refl).
  - intros i Hi. change (0 <= i < 4) in Hi.
    assert (D : i = 0 \/ i = 1 \/ i = 2 \/ i = 3) by lia.
    destruct D as [->|[->|[->| ->]]]; reflexivity.
  - intros i Hi. change (0 <= i < 4) in Hi.
    assert (D : i = 0 \/ i = 1 \/ i = 2 \/ i = 3) by lia.
    destruct D as [->|[->|[->| ->]]]; reflexivity.
Defined.

(** ** checkHttpURL and its aliases *)

Section HttpFacts.

Context {C : Chars} {P : Parser} {V : Validators}.

(** [schemesToCheck.includes(scheme)] decides the allowed set. *)
Lemma includes_schemesToCheck (o : HttpOptions) (sch : val) :
  includes (schemesToCheck (https o) (web o)) sch = true
  <-> allowedScheme o sch.
Proof.
  rewrite includes_In. unfold schemesToCheck, allowedScheme.
  destruct (val_eqb (https o) (VBool true)) eqn:Eh;
    [apply val_eqb_eq in Eh | apply val_eqb_neq in Eh].
  - split.
    + intros (k & [<-|[]] & ->). repeat split; congruence.
    + intros (H & _). exists "https". split; [now left | now apply H].
  - destruct (val_eqb (web o) (VBool true)) eqn:Ew;
      [apply val_eqb_eq in Ew | apply val_eqb_neq in Ew].
    + split.
      * intros (k & [<-|[<-|[]]] & ->); repeat split; try congruence; auto.
      * intros (_ & H & _). destruct (H Eh Ew) as [->| ->].
        -- exists "http". split; [now left | reflexivity].
        -- exists "https". split; [right; now left | reflexivity].
    + split.
      * intros (k & [<-|[]] & ->). repeat split; congruence.
      * intros (_ & _ & H). exists "http". split; [now left | now apply H].
Qed.

(** [checkHttpURL] after [checkURI]. *)
Lemma checkHttpURL_after_checkURI (uri : val) (o : HttpOptions)
  (r' : object CheckResult) :
  checkURI uri (sitemap o) = Some (Ok r') ->
  let c := components (props r') in
  checkHttpURL uri o =
    if negb (includes (schemesToCheck (https o) (web o)) (scheme c))
    then throw "URI_INVALID_SCHEME"
    else if negb (is_String (authority c))
    then throw "URI_MISSING_AUTHORITY"
    else ret (literal (mkResult c VUndefined (VBool true))).
Proof. intros H c. unfold checkHttpURL. rewrite H. reflexivity. Qed.

Lemma checkHttpURL_propagates (uri : val) (o : HttpOptions) (e : string) :
  checkURI uri (sitemap o) = Some (Throw e) ->
  checkHttpURL uri o = Some (Throw e).
Proof. intros H. unfold checkHttpURL. rewrite H. reflexivity. Qed.

Lemma checkHttpURL_ok_inv (uri : val) (o : HttpOptions)
  (r : object CheckResult) :
  checkHttpURL uri o = Some (Ok r) ->
  exists r',
    checkURI uri (sitemap o) = Some (Ok r')
    /\ includes (schemesToCheck (https o) (web o))
         (scheme (components (props r'))) = true
    /\ is_String (authority (components (props r'))) = true
    /\ r = literal (mkResult (components (props r')) VUndefined (VBool true)).
Proof.
  unfold checkHttpURL.
  destruct (checkURI uri (sitemap o)) as [[r'|e]|]; simpl; try discriminate.
  destruct (includes _ _) eqn:Ei; simpl; [|discriminate].
  destruct (is_String _) eqn:Ea; simpl; [|discriminate].
  intro H. inversion H. exists r'. repeat split; assumption.
Qed.

(** Only the comparisons [=== true] of the options matter. *)
Lemma checkHttpURL_options (uri : val) (o o' : HttpOptions) :
  val_eqb (https o) (VBool true) = val_eqb (https o') (VBool true) ->
  val_eqb (web o) (VBool true) = val_eqb (web o') (VBool true) ->
  val_eqb (sitemap o) (VBool true) = val_eqb (sitemap o') (VBool true) ->
  checkHttpURL uri o = checkHttpURL uri o'.
Proof.
  intros Hh Hw Hs.
  unfold checkHttpURL, checkURI, schemesToCheck. now rewrite Hh, Hw, Hs.
Qed.

End HttpFacts.

(** C5.  [checkHttpURL(uri, opts)] succeeds exactly when
    [checkURI(uri, { sitemap })] succeeds, the scheme is in the allowed set
    and the authority is a string; after a successful [checkURI] a scheme
    outside the set throws [URI_INVALID_SCHEME] and, the scheme being
    allowed, a missing authority throws [URI_MISSING_AUTHORITY]; an error of
    [checkURI] is passed on.  [checkURISyntax] accepts [mailto:] and
    [checkHttpURL] rejects it with [URI_INVALID_SCHEME]. *)
Theorem C5_checkHttpURL_contract :
  (forall (C : Chars) (P : Parser) (V : Validators)
          (uri : val) (o : HttpOptions),
      (forall r,
          checkHttpURL uri o = Some (Ok r)
          <-> exists r',
              checkURI uri (sitemap o) = Some (Ok r')
              /\ allowedScheme o (scheme (components (props r')))
              /\ is_String (authority (components (props r'))) = true
              /\ r = literal (mkResult (components (props r'))
                                VUndefined (VBool true)))
      /\ (forall r',
             checkURI uri (sitemap o) = Some (Ok r') ->
             ~ allowedScheme o (scheme (components (props r'))) ->
             checkHttpURL uri o = Some (Throw "URI_INVALID_SCHEME"))
      /\ (forall r',
             checkURI uri (sitemap o) = Some (Ok r') ->
             allowedScheme o (scheme (components (props r'))) ->
             is_String (authority (components (props r'))) = false ->
             checkHttpURL uri o = Some (Throw "URI_MISSING_AUTHORITY"))
      /\ (forall e,
             checkURI uri (sitemap o) = Some (Throw e) ->
             checkHttpURL uri o = Some (Throw e)))
  /\ (forall (V : Validators) (o : HttpOptions),
         (exists r, @checkURISyntax SpecModel.asciiParser (VStr "mailto:")
                    = Ok r)
         /\ @checkHttpURL SpecModel.specChars SpecModel.asciiParser V
              (VStr "mailto:") o
            = Some (Throw "URI_INVALID_SCHEME")).
Proof.
  split.
  - intros C P V uri o. repeat apply conj.
    + intro r. split.
      * intro H. apply checkHttpURL_ok_inv in H.
        destruct H as (r' & H1 & H2 & H3 & H4). exists r'.
        rewrite <- includes_schemesToCheck. auto.
      * intros (r' & H1 & H2 & H3 & ->).
        rewrite (checkHttpURL_after_checkURI uri o r' H1).
        apply includes_schemesToCheck in H2. now rewrite H2, H3.
    + intros r' H1 H2. rewrite (checkHttpURL_after_checkURI uri o r' H1).
      rewrite <- includes_schemesToCheck in H2.
      apply not_true_is_false in H2. now rewrite H2.
    + intros r' H1 H2 H3. rewrite (checkHttpURL_after_checkURI uri o r' H1).
      apply includes_schemesToCheck in H2. now rewrite H2, H3.
    + intros e. apply checkHttpURL_propagates.
  - intros V o. split; [eexists; reflexivity|].
    unfold checkHttpURL, schemesToCheck.
    destruct (val_eqb (https o) (VBool true));
      destruct (val_eqb (web o) (VBool true)); reflexivity.
Qed.

Lemma C5_witness :
  let uri := VStr "http://example.com" in
  let c := @parseURI SpecModel.asciiParser uri in
  @checkURI SpecModel.specChars SpecModel.asciiParser
    SpecModel.asciiValidators uri (sitemap noOptions)
  = Some (Ok (literal (mkResult c VUndefined (VBool true))))
  /\ allowedScheme noOptions (scheme c)
  /\ is_String (authority c) = true
  /\ @checkHttpURL SpecModel.specChars SpecModel.asciiParser
       SpecModel.asciiValidators uri noOptions
     = Some (Ok (literal (mkResult c VUndefined (VBool true)))).
Proof.
  assert (A : allowedScheme noOptions
                (scheme (@parseURI SpecModel.asciiParser
                           (VStr "http://example.com")))).
  { unfold allowedScheme. repeat apply conj; intros;
      try discriminate; try reflexivity. }
  refine (conj eq_refl (conj A (conj eq_refl _))).
  apply (proj2 (proj1 (proj1 C5_checkHttpURL_contract SpecModel.specChars
                         SpecModel.asciiParser SpecModel.asciiValidators
                         (VStr "http://example.com") noOptions) _)).
  eexists. split; [reflexivity|]. split; [exact A|]. split; reflexivity.
Defined.

(** C6.  Each alias is [checkHttpURL] under its option preset: it returns the
    same record or throws the same error, whether the keys the preset leaves
    out are absent or false. *)
Theorem C6_aliases_are_presets :
  forall (C : Chars) (P : Parser) (V : Validators) (uri : val),
    (checkHttpsURL uri
     = checkHttpURL uri (mkOptions (VBool true) VUndefined VUndefined)
     /\ checkHttpsURL uri = checkHttpURL uri (preset true false false))
    /\ (checkHttpSitemapURL uri
        = checkHttpURL uri (mkOptions VUndefined VUndefined (VBool true))
        /\ checkHttpSitemapURL uri = checkHttpURL uri (preset false false true))
    /\ (checkHttpsSitemapURL uri
        = checkHttpURL uri (mkOptions (VBool true) VUndefined (VBool true))
        /\ checkHttpsSitemapURL uri = checkHttpURL uri (preset true false true))
    /\ (checkWebURL uri
        = checkHttpURL uri (mkOptions VUndefined (VBool true) VUndefined)
        /\ checkWebURL uri = checkHttpURL uri (preset false true false))
    /\ (checkSitemapURL uri
        = checkHttpURL uri (mkOptions VUndefined (VBool true) (VBool true))
        /\ checkSitemapURL uri = checkHttpURL uri (preset false true true)).
Proof.
  intros C P V uri.
  repeat apply conj; try reflexivity;
    apply checkHttpURL_options; reflexivity.
Qed.

(** C10.  With [https] and [web] both true the allowed schemes are [https]
    alone, not the union with the [web] preset: a successful
    [checkHttpURL] has scheme [https], and a uri that [checkURI] accepts
    with scheme [http] throws [URI_INVALID_SCHEME]. *)
Theorem C10_https_takes_precedence :
  forall (C : Chars) (P : Parser) (V : Validators) (uri sm : val),
    let both := mkOptions (VBool true) (VBool true) sm in
    schemesToCheck (https both) (web both) = ["https"]
    /\ includes (schemesToCheck (https both) (web both)) (VStr "http") = false
    /\ (forall r,
           checkHttpURL uri both = Some (Ok r) ->
           scheme (components (props r)) = VStr "https")
    /\ (forall r,
           checkURI uri sm = Some (Ok r) ->
           scheme (components (props r)) = VStr "http" ->
           checkHttpURL uri both = Some (Throw "URI_INVALID_SCHEME")).
Proof.
  intros C P V uri sm both. repeat apply conj; try reflexivity.
  - intros r H. apply checkHttpURL_ok_inv in H.
    destruct H as (r' & _ & H & _ & ->). simpl.
    apply includes_In in H. destruct H as (k & [<-|[]] & ->). reflexivity.
  - intros r H Hs.
    rewrite (checkHttpURL_after_checkURI uri both r H). now rewrite Hs.
Qed.

Lemma C10_witness :
  let uri := VStr "http://example.com/" in
  let c := @parseURI SpecModel.asciiParser uri in
  @checkURI SpecModel.specChars SpecModel.asciiParser
    SpecModel.asciiValidators uri VUndefined
  = Some (Ok (literal (mkResult c VUndefined (VBool true))))
  /\ scheme c = VStr "http"
  /\ @checkHttpURL SpecModel.specChars SpecModel.asciiParser
       SpecModel.asciiValidators uri
       (mkOptions (VBool true) (VBool true) VUndefined)
     = Some (Throw "URI_INVALID_SCHEME").
Proof.
  refine (conj eq_refl (conj eq_refl _)).
  exact (proj2 (proj2 (proj2 (C10_https_takes_precedence SpecModel.specChars
                                SpecModel.asciiParser SpecModel.asciiValidators
                                (VStr "http://example.com/") VUndefined)))
           _ eq_refl eq_refl).
Defined.

(** ** Results and error codes *)

Section CodeFacts.

Context {C : Chars} {P : Parser} {V : Validators}.

Lemma checkURISyntax_codes (uri : val) (e : string) :
  checkURISyntax uri = Throw e -> In e errorKinds.
Proof.
  unfold checkURISyntax.
  repeat match goal with
         | |- context [if ?b then _ else _] => destruct b
         end; intro H; inversion H; simpl; tauto.
Qed.

Lemma scanScheme_codes (scheme : val) (len : Z) (e : string) :
  scanScheme scheme len = Some (Throw e) -> e = "URI_INVALID_SCHEME_CHAR".
Proof.
  intro H. apply for_loop_throw_inv in H. destruct H as (k & _ & _ & H).
  unfold schemeBody in H. destruct (negb _); now inversion H.
Qed.

Lemma scanUserinfo_codes (userinfo : val) (e : string) :
  scanUserinfo userinfo = Some (Throw e) ->
  e = "URI_INVALID_USERINFO_CHAR" \/ e = "URI_INVALID_PERCENT_ENCODING".
Proof.
  intro H. apply for_loop_throw_inv in H. destruct H as (k & _ & _ & H).
  unfold userinfoBody in H. destruct (negb _); [inversion H; auto|].
  destruct (checkPercentEncoding _ _ _) eqn:E; inversion H. subst.
  right. eapply checkPercentEncoding_code; eauto.
Qed.

Lemma scanPathqf_codes (cs : bool) (pathqf : val) (e : string) :
  scanPathqf cs pathqf = Some (Throw e) ->
  e = "URI_INVALID_CHAR" \/ e = "URI_INVALID_PERCENT_ENCODING"
  \/ (cs = true /\ e = "URI_INVALID_SITEMAP_CHAR").
Proof.
  intro H. apply for_loop_throw_inv in H. destruct H as (k & _ & _ & H).
  unfold pathqfBody in H. destruct (negb _); [inversion H; auto|].
  destruct (checkPercentEncoding _ _ _) eqn:E.
  - destruct cs; [|discriminate].
    repeat match type of H with
           | context [if ?b then _ else _] => destruct b
           | context [match ?o with Some _ => _ | None => _ end] =>
               destruct o
           end; inversion H; auto.
  - inversion H. subst. right. left.
    eapply checkPercentEncoding_code; eauto.
Qed.

Lemma checkAuthority_codes (c : URIComponents) (e : string) :
  checkAuthority c = Some (Throw e) -> In e errorKinds.
Proof.
  unfold checkAuthority. destruct (exists_ (authority c)); [|discriminate].
  destruct (scanUserinfo (userinfo c)) as [[[]|e']|] eqn:E; simpl;
    try discriminate.
  - repeat match goal with
           | |- context [if ?b then _ else _] => destruct b
           end; intro H; inversion H; simpl; tauto.
  - intro H. inversion H. subst.
    destruct (scanUserinfo_codes _ _ E) as [-> | ->]; simpl; tauto.
Qed.

Lemma checkURI_codes (uri sitemap : val) (e : string) :
  checkURI uri sitemap = Some (Throw e) -> In e errorKinds.
Proof.
  unfold checkURI, lift.
  destruct (checkURISyntax uri) as [r0|e0] eqn:E0; simpl.
  - destruct (scanScheme _ _) as [[[]|e1]|] eqn:E1; simpl; try discriminate.
    + destruct (checkAuthority _) as [[[]|e2]|] eqn:E2; simpl;
        try discriminate.
      * destruct (scanPathqf _ _) as [[[]|e3]|] eqn:E3; simpl;
          try discriminate.
        intro H. inversion H. subst.
        destruct (scanPathqf_codes _ _ _ E3) as [-> | [-> | (_ & ->)]];
          simpl; tauto.
      * intro H. inversion H. subst. eapply checkAuthority_codes; eauto.
    + intro H. inversion H. subst.
      rewrite (scanScheme_codes _ _ _ E1). simpl; tauto.
  - intro H. inversion H. subst. eapply checkURISyntax_codes; eauto.
Qed.

Lemma checkHttpURL_codes (uri : val) (o : HttpOptions) (e : string) :
  checkHttpURL uri o = Some (Throw e) -> In e errorKinds.
Proof.
  unfold checkHttpURL.
  destruct (checkURI uri (sitemap o)) as [[r'|e']|] eqn:E; simpl;
    try discriminate.
  - repeat match goal with
           | |- context [if ?b then _ else _] => destruct b
           end; intro H; inversion H; simpl; tauto.
  - intro H. inversion H. subst. eapply checkURI_codes; eauto.
Qed.

End CodeFacts.

(** C8, as the code has it.  A checker that succeeds returns an object
    literal, which is not frozen, whose [valid] is [true] and whose
    components are those of the parse; a checker that fails throws an error
    whose code is one of the enumerated kinds, and returns no record.  Every
    call does one or the other.  The frozen object of the module is its
    export table. *)
Theorem C8_success_record_or_error :
  forall (C : Chars) (P : Parser) (V : Validators)
         (uri sm : val) (o : HttpOptions),
    ((forall r, checkURISyntax uri = Ok r -> successRecord uri r)
     /\ (forall r, checkURI uri sm = Some (Ok r) -> successRecord uri r)
     /\ (forall r, checkHttpURL uri o = Some (Ok r) -> successRecord uri r)
     /\ (forall check r, In check aliases ->
                         check uri = Some (Ok r) -> successRecord uri r))
    /\ ((forall e, checkURISyntax uri = Throw e -> In e errorKinds)
        /\ (forall e, checkURI uri sm = Some (Throw e) -> In e errorKinds)
        /\ (forall e, checkHttpURL uri o = Some (Throw e) -> In e errorKinds)
        /\ (forall check e, In check aliases ->
                            check uri = Some (Throw e) -> In e errorKinds))
    /\ ((exists r, checkURI uri sm = Some r)
        /\ (exists r, checkHttpURL uri o = Some r)
        /\ (forall check, In check aliases -> exists r, check uri = Some r))
    /\ Object_isFrozen module_exports = true.
Proof.
  intros C P V uri sm o.
  assert (Hhttp : forall o' r,
             checkHttpURL uri o' = Some (Ok r) -> successRecord uri r).
  { intros o' r H. apply checkHttpURL_ok_inv in H.
    destruct H as (r' & H & _ & _ & ->). apply checkURI_ok_inv in H.
    destruct H as (_ & _ & _ & _ & ->). repeat split. }
  repeat apply conj.
  - intros r H. apply checkURISyntax_ok_inv in H.
    destruct H as (_ & _ & _ & _ & ->). repeat split.
  - intros r H. apply checkURI_ok_inv in H.
    destruct H as (_ & _ & _ & _ & ->). repeat split.
  - apply Hhttp.
  - intros check r Hin. simpl in Hin.
    destruct Hin as [<-|[<-|[<-|[<-|[<-|[]]]]]]; apply Hhttp.
  - apply checkURISyntax_codes.
  - apply checkURI_codes.
  - apply checkHttpURL_codes.
  - intros check e Hin. simpl in Hin.
    destruct Hin as [<-|[<-|[<-|[<-|[<-|[]]]]]]; apply checkHttpURL_codes.
  - apply checkURI_returns.
  - apply checkHttpURL_returns.
  - intros check Hin. simpl in Hin.
    destruct Hin as [<-|[<-|[<-|[<-|[<-|[]]]]]]; apply checkHttpURL_returns.
  - reflexivity.
Qed.

Lemma C8_witness :
  let uri := VStr "http://example.com/" in
  let r := literal (mkResult (@parseURI SpecModel.asciiParser uri)
                      VUndefined (VBool true)) in
  @checkHttpURL SpecModel.specChars SpecModel.asciiParser
    SpecModel.asciiValidators uri noOptions = Some (Ok r)
  /\ @successRecord SpecModel.asciiParser uri r.
Proof.
  refine (conj eq_refl _).
  exact (proj1 (proj2 (proj2 (proj1 (C8_success_record_or_error
                                       SpecModel.specChars
                                       SpecModel.asciiParser
                                       SpecModel.asciiValidators
                                       (VStr "http://example.com/")
                                       VUndefined noOptions))))
           _ eq_refl).
Defined.

(** C8 as worded fails: the record [checkURISyntax] returns for [mailto:] is
    not frozen, and neither is the one [checkHttpURL] returns for
    [http://example.com/]. *)
Lemma C8_counterexample :
  (exists r,
      @checkURISyntax SpecModel.asciiParser (VStr "mailto:") = Ok r
      /\ valid (props r) = VBool true
      /\ Object_isFrozen r = false)
  /\ (exists r,
         @checkHttpURL SpecModel.specChars SpecModel.asciiParser
           SpecModel.asciiValidators (VStr "http://example.com/") noOptions
         = Some (Ok r)
         /\ valid (props r) = VBool true
         /\ Object_isFrozen r = false).
Proof.
  split; eexists; (split; [reflexivity|]); split; reflexivity.
Qed.

(** ** The sitemap check *)

Section SitemapFacts.

Context {C : Chars}.

(** One iteration of the [pathqf] loop in sitemap mode, once the character
    check and the percent-encoding check have passed. *)
Lemma pathqfBody_sitemap (s : string) (len i offset : Z) :
  isURIChar (str_at s i) = true ->
  checkPercentEncoding (VStr s) (VNum i) (VNum len) = Ok offset ->
  pathqfBody true (VStr s) len i =
    if val_eqb (str_at s (i + offset)) (VStr "&") then
      match findEscape escapeCodesKeys (VStr s) len (i + offset) with
      | None => Throw "URI_INVALID_SITEMAP_CHAR"
      | Some escapeOffset => Ok (i + offset + (escapeOffset - 1))
      end
    else if includes entitiesKeys (str_at s (i + offset))
    then Throw "URI_INVALID_SITEMAP_CHAR"
    else Ok (i + offset).
Proof.
  intros Hc Hp. unfold pathqfBody. cbn [js_at]. now rewrite Hc, Hp.
Qed.

Lemma pathqfBody_ampersand_match (s : string) (len i offset : Z) :
  isURIChar (str_at s i) = true ->
  checkPercentEncoding (VStr s) (VNum i) (VNum len) = Ok offset ->
  str_at s (i + offset) = VStr "&" ->
  (exists escape, In escape fiveEscapes
                  /\ matchesAt s len (i + offset) escape) ->
  exists escape,
    In escape fiveEscapes /\ matchesAt s len (i + offset) escape
    /\ pathqfBody true (VStr s) len i
       = Ok (i + offset + (strlen escape - 1)).
Proof.
  intros Hc Hp Ha (e & He & Hm).
  rewrite (pathqfBody_sitemap s len i offset Hc Hp), Ha.
  replace (val_eqb (VStr "&") (VStr "&")) with true by reflexivity.
  destruct (findEscape escapeCodesKeys (VStr s) len (i + offset))
    as [n|] eqn:F.
  - apply findEscape_some in F. destruct F as (e' & He' & Hm' & ->).
    exists e'. auto.
  - exfalso. exact (proj1 (findEscape_none _ _ _ _) F e He Hm).
Qed.

Lemma pathqfBody_ampersand_no_match (s : string) (len i offset : Z) :
  isURIChar (str_at s i) = true ->
  checkPercentEncoding (VStr s) (VNum i) (VNum len) = Ok offset ->
  str_at s (i + offset) = VStr "&" ->
  (forall escape, In escape fiveEscapes ->
                  ~ matchesAt s len (i + offset) escape) ->
  pathqfBody true (VStr s) len i = Throw "URI_INVALID_SITEMAP_CHAR".
Proof.
  intros Hc Hp Ha Hno.
  rewrite (pathqfBody_sitemap s len i offset Hc Hp), Ha.
  replace (val_eqb (VStr "&") (VStr "&")) with true by reflexivity.
  now rewrite (proj2 (findEscape_none escapeCodesKeys s len (i + offset)) Hno).
Qed.

Lemma pathqfBody_raw_reserved (s : string) (len i offset : Z) (c : string) :
  isURIChar (str_at s i) = true ->
  checkPercentEncoding (VStr s) (VNum i) (VNum len) = Ok offset ->
  str_at s (i + offset) = VStr c -> In c rawReserved ->
  pathqfBody true (VStr s) len i = Throw "URI_INVALID_SITEMAP_CHAR".
Proof.
  intros Hc Hp Ha Hraw.
  rewrite (pathqfBody_sitemap s len i offset Hc Hp), Ha.
  simpl in Hraw. destruct Hraw as [<-|[<-|[<-|[<-|[]]]]]; reflexivity.
Qed.

(** What a successful iteration in sitemap mode establishes. *)
Lemma pathqfBody_sitemap_ok_inv (s : string) (len i i' : Z) :
  pathqfBody true (VStr s) len i = Ok i' ->
  isURIChar (str_at s i) = true
  /\ exists offset,
      checkPercentEncoding (VStr s) (VNum i) (VNum len) = Ok offset
      /\ (str_at s (i + offset) = VStr "&" ->
          exists escape, In escape fiveEscapes
                         /\ matchesAt s len (i + offset) escape
                         /\ i' = i + offset + (strlen escape - 1))
      /\ (forall c, str_at s (i + offset) = VStr c -> ~ In c rawReserved).
Proof.
  unfold pathqfBody. cbn [js_at].
  destruct (isURIChar (str_at s i)); cbn [negb]; [|discriminate].
  destruct (checkPercentEncoding (VStr s) (VNum i) (VNum len))
    as [offset|]; [|discriminate].
  intro H. split; [reflexivity|]. exists offset. split; [reflexivity|].
  destruct (val_eqb (str_at s (i + offset)) (VStr "&")) eqn:Ea.
  - apply val_eqb_eq in Ea.
    destruct (findEscape escapeCodesKeys (VStr s) len (i + offset))
      as [n|] eqn:F; [|discriminate].
    apply findEscape_some in F. destruct F as (e & He & Hm & ->).
    inversion H. split.
    + intros _. exists e. auto.
    + intros c Hc. rewrite Ea in Hc. inversion Hc. subst c.
      simpl. intros [F|[F|[F|[F|[]]]]]; discriminate F.
  - apply val_eqb_neq in Ea.
    destruct (includes entitiesKeys (str_at s (i + offset))) eqn:Ei;
      [discriminate|].
    split; [intro F; contradiction|].
    intros c Hc Hraw. rewrite Hc in Ei.
    simpl in Hraw. destruct Hraw as [<-|[<-|[<-|[<-|[]]]]]; discriminate Ei.
Qed.

End SitemapFacts.

Section SitemapScan.

Context {C : Chars} {P : Parser} {V : Validators}.

(** An error of the [pathqf] loop at a visited position is the error of
    [checkURI], once the earlier stages have passed. *)
Lemma checkURI_pathqf_throw (uri sm : val) (r0 : object CheckResult)
  (i : Z) (e : string) :
  checkURISyntax uri = Ok r0 ->
  let c := parseURI uri in
  let len := lengthOf (pathqf c) in
  let body := pathqfBody (val_eqb sm (VBool true)) (pathqf c) len in
  scanScheme (scheme c) (lengthOf (scheme c)) = ret tt ->
  checkAuthority c = ret tt ->
  visits body len 0 i -> i < len -> body i = Throw e ->
  checkURI uri sm = Some (Throw e).
Proof.
  intros E0 c len body Hs Ha Hv Hi Hb.
  rewrite (checkURI_after_syntax uri sm r0 E0). fold c.
  rewrite Hs, Ha. simpl.
  assert (H : scanPathqf (val_eqb sm (VBool true)) (pathqf c)
              = Some (Throw e)).
  { unfold scanPathqf. fold len. fold body.
    apply (for_loop_throw_at body len _ 0 i e Hv Hi Hb).
    destruct (scanPathqf_returns (val_eqb sm (VBool true)) (pathqf c))
      as (r & Hr).
    unfold scanPathqf in Hr. fold len in Hr. fold body in Hr.
    rewrite Hr. discriminate. }
  now rewrite H.
Qed.

(** When [checkURI] succeeds, every iteration of the [pathqf] loop
    succeeded. *)
Lemma checkURI_pathqf_ok (uri sm : val) (r : object CheckResult) (i : Z) :
  checkURI uri sm = Some (Ok r) ->
  let c := parseURI uri in
  let len := lengthOf (pathqf c) in
  let body := pathqfBody (val_eqb sm (VBool true)) (pathqf c) len in
  visits body len 0 i -> i < len -> exists i', body i = Ok i'.
Proof.
  intros H c len body Hv Hi. apply checkURI_ok_inv in H.
  destruct H as (_ & _ & _ & H & _).
  exact (for_loop_ok_inv body len _ 0 i H Hv Hi).
Qed.

End SitemapScan.

(** C7, as the code has it.  In sitemap mode, at a position the [pathqf] scan
    visits and whose character passes the URI-character and
    percent-encoding checks: an ampersand under the index must begin one of
    the five escape sequences, matched in the table at that position, and
    the scan then resumes after the sequence; an ampersand beginning none of
    them, or a raw reserved character, makes [checkURI] throw
    [URI_INVALID_SITEMAP_CHAR].  A successful check met no such character.
    [checkSitemapURL] rejects [http://example.com/a&b] with that code and
    accepts [http://example.com/a&amp;b]. *)
Theorem C7_sitemap_entities :
  (forall (C : Chars) (s : string) (i offset : Z),
      isURIChar (str_at s i) = true ->
      checkPercentEncoding (VStr s) (VNum i) (VNum (strlen s)) = Ok offset ->
      (str_at s (i + offset) = VStr "&" ->
       (exists escape, In escape fiveEscapes
                       /\ matchesAt s (strlen s) (i + offset) escape) ->
       exists escape,
         In escape fiveEscapes
         /\ matchesAt s (strlen s) (i + offset) escape
         /\ pathqfBody true (VStr s) (strlen s) i
            = Ok (i + offset + (strlen escape - 1)))
      /\ (sitemapViolation s (strlen s) (i + offset) ->
          pathqfBody true (VStr s) (strlen s) i
          = Throw "URI_INVALID_SITEMAP_CHAR"))
  /\ (forall (C : Chars) (P : Parser) (V : Validators)
             (uri : val) (r0 : object CheckResult) (s : string)
             (i offset : Z),
         checkURISyntax uri = Ok r0 ->
         let c := parseURI uri in
         pathqf c = VStr s ->
         scanScheme (scheme c) (lengthOf (scheme c)) = ret tt ->
         checkAuthority c = ret tt ->
         visits (pathqfBody true (VStr s) (strlen s)) (strlen s) 0 i ->
         i < strlen s ->
         isURIChar (str_at s i) = true ->
         checkPercentEncoding (VStr s) (VNum i) (VNum (strlen s))
         = Ok offset ->
         sitemapViolation s (strlen s) (i + offset) ->
         checkURI uri (VBool true) = Some (Throw "URI_INVALID_SITEMAP_CHAR"))
  /\ (forall (C : Chars) (P : Parser) (V : Validators)
             (uri : val) (r : object CheckResult) (s : string) (i : Z),
         checkURI uri (VBool true) = Some (Ok r) ->
         pathqf (parseURI uri) = VStr s ->
         visits (pathqfBody true (VStr s) (strlen s)) (strlen s) 0 i ->
         i < strlen s ->
         exists offset,
           checkPercentEncoding (VStr s) (VNum i) (VNum (strlen s))
           = Ok offset
           /\ ~ sitemapViolation s (strlen s) (i + offset))
  /\ (@checkSitemapURL SpecModel.specChars SpecModel.asciiParser
        SpecModel.asciiValidators (VStr "http://example.com/a&b")
      = Some (Throw "URI_INVALID_SITEMAP_CHAR")
      /\ exists r,
          @checkSitemapURL SpecModel.specChars SpecModel.asciiParser
            SpecModel.asciiValidators (VStr "http://example.com/a&amp;b")
          = Some (Ok r)).
Proof.
  repeat apply conj.
  - intros C s i offset Hc Hp. split.
    + now apply pathqfBody_ampersand_match.
    + intros [(Ha & Hno) | (c & Ha & Hraw)].
      * now apply (pathqfBody_ampersand_no_match s (strlen s) i offset).
      * now apply (pathqfBody_raw_reserved s (strlen s) i offset c).
  - intros C P V uri r0 s i offset E0 c Hq Hs Hau Hv Hi Hc Hp Hviol.
    apply (checkURI_pathqf_throw uri (VBool true) r0 i _ E0 Hs Hau);
      fold c; rewrite Hq; cbn [lengthOf val_eqb Bool.eqb]; try assumption.
    destruct Hviol as [(Ha & Hno) | (ch & Ha & Hraw)].
    + now apply (pathqfBody_ampersand_no_match s (strlen s) i offset).
    + now apply (pathqfBody_raw_reserved s (strlen s) i offset ch).
  - intros C P V uri r s i Hok Hq Hv Hi.
    destruct (checkURI_pathqf_ok uri (VBool true) r i Hok) as (i' & Hb).
    + rewrite Hq. exact Hv.
    + rewrite Hq. exact Hi.
    + rewrite Hq in Hb. cbn [lengthOf val_eqb Bool.eqb] in Hb.
      apply pathqfBody_sitemap_ok_inv in Hb.
      destruct Hb as (_ & offset & Hp & Hamp & Hraw).
      exists offset. split; [exact Hp|].
      intros [(Ha & Hno) | (ch & Ha & Hr)].
      * destruct (Hamp Ha) as (e & He & Hm & _). exact (Hno e He Hm).
      * exact (Hraw ch Ha Hr).
  - reflexivity.
  - eexists. reflexivity.
Qed.

Lemma C7_witness :
  let uri := VStr "http://example.com/a&b" in
  let c := @parseURI SpecModel.asciiParser uri in
  pathqf c = VStr "/a&b"
  /\ str_at "/a&b" 2 = VStr "&"
  /\ sitemapViolation "/a&b" 4 2
  /\ @checkURI SpecModel.specChars SpecModel.asciiParser
       SpecModel.asciiValidators uri (VBool true)
     = Some (Throw "URI_INVALID_SITEMAP_CHAR").
Proof.
  assert (Hviol : sitemapViolation "/a&b" 4 2).
  { left. split; [reflexivity|]. intros e He (Hlen & _).
    apply escapeCodesKeys_length in He. lia. }
  refine (conj eq_refl (conj eq_refl (conj Hviol _))).
  refine (proj1 (proj2 C7_sitemap_entities) SpecModel.specChars
            SpecModel.asciiParser SpecModel.asciiValidators
            (VStr "http://example.com/a&b") _ "/a&b" 2 0
            eq_refl eq_refl eq_refl eq_refl _ _ eq_refl eq_refl Hviol).
  - apply (visits_next _ _ 0 0 2); [reflexivity | reflexivity |].
    apply (visits_next _ _ 1 1 2); [reflexivity | reflexivity |].
    apply visits_here.
  - reflexivity.
Defined.

(** C7 as worded fails for a raw [<]: in sitemap mode it is refused by the
    URI-character check, with [URI_INVALID_CHAR], before the sitemap check
    sees it; a raw ['] does reach the sitemap check. *)
Lemma C7_counterexample :
  let uri := VStr "http://example.com/a<b" in
  pathqf (@parseURI SpecModel.asciiParser uri) = VStr "/a<b"
  /\ str_at "/a<b" 2 = VStr "<"
  /\ In "<" rawReserved
  /\ @checkSitemapURL SpecModel.specChars SpecModel.asciiParser
       SpecModel.asciiValidators uri
     = Some (Throw "URI_INVALID_CHAR")
  /\ @checkSitemapURL SpecModel.specChars SpecModel.asciiParser
       SpecModel.asciiValidators uri
     <> Some (Throw "URI_INVALID_SITEMAP_CHAR")
  /\ @checkSitemapURL SpecModel.specChars SpecModel.asciiParser
       SpecModel.asciiValidators (VStr "http://example.com/a'b")
     = Some (Throw "URI_INVALID_SITEMAP_CHAR").
Proof.
  cbv zeta. repeat apply conj; try reflexivity.
  - simpl. auto.
  - vm_compute. discriminate.
Qed.

(** * Further properties of the checkers *)

(** ** More on loops and strings *)

Section MoreLoops.

Variables (body : Z -> result Z) (len : Z).

(** When the loop returns, a property that each successful iteration
    establishes for the positions it consumes holds on all of them. *)
Lemma for_loop_covers (Q : Z -> Prop) (i0 : Z) :
  (forall i i', i0 <= i -> i < len -> body i = Ok i' ->
                i <= i' /\ forall j, i <= j <= i' -> Q j) ->
  forall (fuel : nat) (i : Z),
    i0 <= i -> for_loop fuel len body i = ret tt ->
    forall j, i <= j < len -> Q j.
Proof.
  intros Hstep fuel. induction fuel as [|fuel IH]; intros i Hi H j Hj;
    simpl in H.
  - replace (i <? len) with true in H by (symmetry; apply Z.ltb_lt; lia).
    discriminate.
  - replace (i <? len) with true in H by (symmetry; apply Z.ltb_lt; lia).
    destruct (body i) as [i'|e] eqn:Hb; [|discriminate].
    destruct (Hstep i i' Hi ltac:(lia) Hb) as (Hle & Hq).
    destruct (Z_le_gt_dec j i') as [Hin|Hout].
    + apply Hq. lia.
    + apply (IH (i' + 1)); [lia | exact H | lia].
Qed.

End MoreLoops.

(** Two bodies that agree give the same loop. *)
Lemma for_loop_ext (body body' : Z -> result Z) (len : Z) :
  (forall i, i < len -> body i = body' i) ->
  forall (fuel : nat) (i : Z),
    for_loop fuel len body i = for_loop fuel len body' i.
Proof.
  intros Heq fuel. induction fuel as [|fuel IH]; intro i; simpl.
  - reflexivity.
  - destruct (i <? len) eqn:E; [|reflexivity].
    apply Z.ltb_lt in E. rewrite <- (Heq i E).
    destruct (body i); [apply IH | reflexivity].
Qed.

Lemma str_at_get (s : string) (i : Z) :
  0 <= i -> str_at s i =
            match String.get (Z.to_nat i) s with
            | Some c => VStr (String c EmptyString)
            | None => VUndefined
            end.
Proof.
  intro Hi. unfold str_at.
  replace (0 <=? i) with true by (symmetry; apply Z.leb_le; lia). simpl.
  destruct (i <? strlen s) eqn:E; [reflexivity|].
  apply Z.ltb_ge in E. unfold strlen in E.
  destruct (String.get (Z.to_nat i) s) eqn:G; [|reflexivity].
  exfalso.
  assert (Hn : (String.length s <= Z.to_nat i)%nat) by lia.
  clear E Hi. revert s G Hn. generalize (Z.to_nat i) as n.
  induction n as [|n IH]; intros [|c s] G Hn; simpl in *;
    try discriminate; try lia.
  apply (IH s G). lia.
Qed.

(** The characters of a sequence that stands at [k] are the characters of
    the string from [k] on. *)
Lemma matchesAt_chars (s : string) (k : Z) (escape : string) (p : Z) :
  0 <= k -> matchesAt s (strlen s) k escape ->
  0 <= p < strlen escape ->
  str_at s (k + p) = str_at escape p.
Proof.
  intros Hk (Hlen & Hsub) Hp.
  rewrite !str_at_get by lia.
  unfold js_substring in Hsub. pose proof (strlen_nonneg escape) as He.
  replace (Z.max 0 (Z.min k (strlen s))) with k in Hsub by lia.
  replace (Z.max 0 (Z.min (k + strlen escape) (strlen s)))
    with (k + strlen escape) in Hsub by lia.
  replace (Z.min k (k + strlen escape)) with k in Hsub by lia.
  replace (Z.max k (k + strlen escape) - k) with (strlen escape) in Hsub
    by lia.
  assert (G : String.get (Z.to_nat p) escape
              = String.get (Z.to_nat p + Z.to_nat k) s).
  { rewrite <- Hsub at 1. apply String.substring_correct1.
    unfold strlen in *. lia. }
  rewrite G.
  replace (Z.to_nat p + Z.to_nat k)%nat with (Z.to_nat (k + p)) by lia.
  reflexivity.
Qed.

(** ** checkPercentEncoding, whatever its arguments *)

Lemma scanBound_nonneg (s : string) (stringLen : val) :
  0 <= scanBound s stringLen.
Proof.
  unfold scanBound. pose proof (strlen_nonneg s).
  destruct stringLen; try lia.
  destruct (0 <=? n) eqn:E; [apply Z.leb_le in E|]; lia.
Qed.

Lemma scanIndex_below (index : val) (len : Z) :
  0 < len -> scanIndex index len < len.
Proof.
  intro H. unfold scanIndex. destruct index; try lia.
  destruct (n <? len) eqn:E; [apply Z.ltb_lt in E|]; lia.
Qed.

(** X1.  An offset of 2 is returned only for a percent sign at the position
    read, followed inside the bound by two characters the classifier
    accepts; an offset of 0 only when the bound is 0 or the character read
    is no percent sign.  Either way the position read plus the offset stays
    below a positive bound, so the caller's index remains inside it. *)
Theorem X1_checkPercentEncoding_offset_in_bounds :
  forall (C : Chars) (s : string) (index stringLen : val) (o : Z),
    checkPercentEncoding (VStr s) index stringLen = Ok o ->
    let len := scanBound s stringLen in
    let i := scanIndex index len in
    ((o = 2 /\ str_at s i = VStr "%" /\ triplet s i len)
     \/ (o = 0 /\ (len = 0 \/ str_at s i <> VStr "%")))
    /\ (0 < len -> i + o < len).
Proof.
  intros C s index stringLen o H len i.
  pose proof (scanBound_nonneg s stringLen) as Hlen. fold len in Hlen.
  unfold checkPercentEncoding in H. fold len in H. fold i in H.
  destruct (0 <? len) eqn:E0; simpl in H.
  - apply Z.ltb_lt in E0.
    pose proof (scanIndex_below index len E0) as Hi. fold i in Hi.
    destruct (val_eqb (str_at s i) (VStr "%")) eqn:Ec.
    + apply val_eqb_eq in Ec.
      destruct (i + 2 <? len) eqn:E2; [apply Z.ltb_lt in E2|discriminate].
      destruct (isPercentEncodingChar (str_at s (i + 1))) eqn:H1;
        simpl in H; [|discriminate].
      destruct (isPercentEncodingChar (str_at s (i + 2))) eqn:H2;
        simpl in H; [|discriminate].
      inversion H. subst o. split; [|lia].
      left. repeat split; assumption.
    + apply val_eqb_neq in Ec. inversion H. subst o.
      split; [right; auto | lia].
  - apply Z.ltb_ge in E0. inversion H. subst o.
    split; [right; split; [reflexivity | left; lia] | lia].
Qed.

Lemma X1_witness :
  @checkPercentEncoding SpecModel.specChars (VStr "a%41") (VNum 1) VUndefined
  = Ok 2
  /\ scanIndex (VNum 1) (scanBound "a%41" VUndefined) + 2
     < scanBound "a%41" VUndefined.
Proof.
  refine (conj eq_refl _).
  exact (proj2 (X1_checkPercentEncoding_offset_in_bounds SpecModel.specChars
                  "a%41" (VNum 1) VUndefined 2 eq_refl) eq_refl).
Defined.

(** X2.  The validator throws only on a percent sign: with a bound of 0, or
    with a negative index, it returns 0 for every string, also one that
    begins with a percent sign; and whenever it throws on a string, the
    character at the position read is a percent sign. *)
Theorem X2_checkPercentEncoding_throws_only_on_percent :
  forall (C : Chars) (s : string) (index stringLen : val),
    (scanBound s stringLen = 0 ->
     checkPercentEncoding (VStr s) index stringLen = Ok 0)
    /\ (forall n, index = VNum n -> n < 0 ->
                  checkPercentEncoding (VStr s) index stringLen = Ok 0)
    /\ (forall e, checkPercentEncoding (VStr s) index stringLen = Throw e ->
                  str_at s (scanIndex index (scanBound s stringLen))
                  = VStr "%").
Proof.
  intros C s index stringLen. repeat apply conj.
  - intro H0. unfold checkPercentEncoding. rewrite H0. reflexivity.
  - intros n -> Hn. unfold checkPercentEncoding, scanIndex.
    pose proof (scanBound_nonneg s stringLen) as Hlen.
    replace (n <? scanBound s stringLen) with true
      by (symmetry; apply Z.ltb_lt; lia).
    replace (str_at s n) with VUndefined.
    + now rewrite andb_false_r.
    + unfold str_at.
      replace (0 <=? n) with false by (symmetry; apply Z.leb_gt; lia).
      reflexivity.
  - intros e. unfold checkPercentEncoding.
    destruct (0 <? scanBound s stringLen); simpl; [|discriminate].
    destruct (val_eqb _ (VStr "%")) eqn:Ec; [|discriminate].
    intros _. now apply val_eqb_eq.
Qed.

Lemma X2_witness :
  scanBound "%zz" (VNum 0) = 0
  /\ @checkPercentEncoding SpecModel.specChars (VStr "%zz") (VNum 0) (VNum 0)
     = Ok 0
  /\ @checkPercentEncoding SpecModel.specChars (VStr "%zz") (VNum (-1)) VNull
     = Ok 0.
Proof.
  refine (conj eq_refl (conj _ _)).
  - exact (proj1 (X2_checkPercentEncoding_throws_only_on_percent
                    SpecModel.specChars "%zz" (VNum 0) (VNum 0)) eq_refl).
  - refine (proj1 (proj2 (X2_checkPercentEncoding_throws_only_on_percent
                            SpecModel.specChars "%zz" (VNum (-1)) VNull))
              (-1) eq_refl _).
    lia.
Defined.

(** ** Which stage throws which code *)

Section StageCodes.

Context {C : Chars} {P : Parser} {V : Validators}.

Lemma checkURISyntax_throw_inv (uri : val) (e : string) :
  checkURISyntax uri = Throw e ->
  In e [ "URI_INVALID_TYPE"; "URI_MISSING_SCHEME"; "URI_EMPTY_SCHEME";
         "URI_MISSING_PATH"; "URI_INVALID_PATH"; "URI_INVALID_HOST" ].
Proof.
  unfold checkURISyntax.
  repeat match goal with
         | |- context [if ?b then _ else _] => destruct b
         end; intro H; inversion H; simpl; tauto.
Qed.

Lemma checkAuthority_throw_inv (c : URIComponents) (e : string) :
  checkAuthority c = Some (Throw e) ->
  exists_ (authority c) = true
  /\ In e [ "URI_INVALID_USERINFO_CHAR"; "URI_INVALID_PERCENT_ENCODING";
            "URI_INVALID_HOST"; "URI_INVALID_PORT" ].
Proof.
  unfold checkAuthority. destruct (exists_ (authority c)); [|discriminate].
  intro H. split; [reflexivity|]. revert H.
  destruct (scanUserinfo (userinfo c)) as [[[]|e']|] eqn:E; simpl;
    try discriminate.
  - repeat match goal with
           | |- context [if ?b then _ else _] => destruct b
           end; intro H; inversion H; simpl; tauto.
  - intro H. inversion H. subst.
    destruct (scanUserinfo_codes _ _ E) as [-> | ->]; simpl; tauto.
Qed.

(** An error of [checkURI] is an error of the syntax check, or one of the
    codes of its own stages after the syntax check has passed. *)
Lemma checkURI_throw_inv (uri sm : val) (e : string) :
  checkURI uri sm = Some (Throw e) ->
  checkURISyntax uri = Throw e
  \/ ((exists r0, checkURISyntax uri = Ok r0)
      /\ (In e [ "URI_INVALID_SCHEME_CHAR"; "URI_INVALID_USERINFO_CHAR";
                 "URI_INVALID_PERCENT_ENCODING"; "URI_INVALID_HOST";
                 "URI_INVALID_PORT"; "URI_INVALID_CHAR" ]
          \/ (sm = VBool true /\ e = "URI_INVALID_SITEMAP_CHAR"))).
Proof.
  unfold checkURI, lift.
  destruct (checkURISyntax uri) as [r0|e0] eqn:E0; simpl.
  - intro H. right. split; [now exists r0|]. revert H.
    destruct (scanScheme _ _) as [[[]|e1]|] eqn:E1; simpl; try discriminate.
    + destruct (checkAuthority _) as [[[]|e2]|] eqn:E2; simpl;
        try discriminate.
      * destruct (scanPathqf _ _) as [[[]|e3]|] eqn:E3; simpl;
          try discriminate.
        intro H. inversion H. subst.
        destruct (scanPathqf_codes _ _ _ E3) as [-> | [-> | (Hs & ->)]].
        -- left. simpl. tauto.
        -- left. simpl. tauto.
        -- right. split; [now apply val_eqb_eq | reflexivity].
      * intro H. inversion H. subst.
        apply checkAuthority_throw_inv in E2. destruct E2 as (_ & E2).
        left. simpl in *. tauto.
    + intro H. inversion H. subst.
      rewrite (scanScheme_codes _ _ _ E1). left. simpl. tauto.
  - intro H. inversion H. now left.
Qed.

Lemma checkHttpURL_throw_inv (uri : val) (o : HttpOptions) (e : string) :
  checkHttpURL uri o = Some (Throw e) ->
  checkURI uri (sitemap o) = Some (Throw e)
  \/ ((exists r, checkURI uri (sitemap o) = Some (Ok r))
      /\ (e = "URI_INVALID_SCHEME" \/ e = "URI_MISSING_AUTHORITY")).
Proof.
  unfold checkHttpURL.
  destruct (checkURI uri (sitemap o)) as [[r|e']|]; simpl; try discriminate.
  - intro H. right. split; [now exists r|]. revert H.
    repeat match goal with
           | |- context [if ?b then _ else _] => destruct b
           end; intro H; inversion H; auto.
  - intro H. inversion H. now left.
Qed.

Lemma checkURI_propagates (uri sm : val) (e : string) :
  checkURISyntax uri = Throw e -> checkURI uri sm = Some (Throw e).
Proof. intro H. unfold checkURI, lift. now rewrite H. Qed.

End StageCodes.

(** X3.  The first three stages of [checkURISyntax], in their order: it
    throws [URI_INVALID_TYPE] exactly for a value that is not a string; for
    a string it throws [URI_MISSING_SCHEME] exactly when the parsed scheme
    is not a string, [URI_EMPTY_SCHEME] exactly when it is the empty string,
    and [URI_MISSING_PATH] exactly when the scheme is a non-empty string
    and the parsed path is not a string. *)
Theorem X3_checkURISyntax_scheme_and_path_errors :
  forall (P : Parser) (uri : val),
    let c := parseURI uri in
    (checkURISyntax uri = Throw "URI_INVALID_TYPE" <-> is_String uri = false)
    /\ (is_String uri = true ->
        (checkURISyntax uri = Throw "URI_MISSING_SCHEME"
         <-> is_String (scheme c) = false)
        /\ (checkURISyntax uri = Throw "URI_EMPTY_SCHEME"
            <-> scheme c = VStr "")
        /\ (checkURISyntax uri = Throw "URI_MISSING_PATH"
            <-> (exists sch, scheme c = VStr sch /\ sch <> "")
                /\ is_String (path c) = false)).
Proof.
  intros P uri c. unfold checkURISyntax. fold c.
  destruct (is_String uri); cbn [negb].
  2:{ split; [tauto | discriminate]. }
  destruct (scheme c) as [| | | |sch] eqn:Es; cbn [is_String negb lengthOf].
  1-4: split; [split; discriminate|]; intros _; repeat split;
       try discriminate; try reflexivity;
       intros ((sch & F & _) & _); discriminate F.
  destruct (strlen sch <=? 0) eqn:El;
    [apply Z.leb_le in El | apply Z.leb_gt in El].
  - assert (sch = "").
    { destruct sch; [reflexivity|]. unfold strlen in El. simpl in El. lia. }
    subst sch. split; [split; discriminate|]. intros _.
    repeat split; try discriminate; try reflexivity.
    intros ((sch & F & Hne) & _). inversion F. congruence.
  - assert (Hne : sch <> "") by (now apply strlen_pos_iff).
    destruct (is_String (path c)) eqn:Ep; cbn [negb].
    + assert (G : forall e, In e ["URI_INVALID_TYPE"; "URI_MISSING_SCHEME"; "URI_EMPTY_SCHEME"; "URI_MISSING_PATH"] ->
          (if if is_String (authority c) && (0 <? lengthOf (authority c))
      then negb (val_eqb (path c) (VStr "") || startsWith (path c) "/")
      else startsWith (path c) "//"
   then Throw "URI_INVALID_PATH"
   else
    if negb (exists_ (authority c)) && exists_ (authorityPunydecoded c)
    then Throw "URI_INVALID_HOST"
    else Ok (literal {| components := c; schemeLen := VNum (strlen sch); valid := VBool true |})) <> Throw e).
      { intros e He.
        repeat match goal with
               | |- context [if ?b then _ else _] => destruct b
               end; simpl in He;
          intro F; inversion F; subst; intuition discriminate. }
      assert (G' : forall e (Q : Prop),
                 In e ["URI_INVALID_TYPE"; "URI_MISSING_SCHEME";
                       "URI_EMPTY_SCHEME"; "URI_MISSING_PATH"] ->
                 _ = Throw e -> Q)
        by (intros e Q He F; exfalso; exact (G e He F)).
      split.
      { split; [apply G'; simpl; tauto | discriminate]. }
      intros _. split; [|split].
      * split; [apply G'; simpl; tauto | discriminate].
      * split; [apply G'; simpl; tauto | intro F; inversion F; congruence].
      * split; [apply G'; simpl; tauto | intros (_ & F); discriminate F].
    + split; [split; discriminate|]. intros _.
      repeat split; try discriminate; try reflexivity.
      * intro F; inversion F; congruence.
      * now exists sch.
Qed.

Lemma X3_witness :
  is_String (VStr ":x") = true
  /\ @checkURISyntax SpecModel.asciiParser (VStr ":x")
     = Throw "URI_EMPTY_SCHEME".
Proof.
  refine (conj eq_refl _).
  exact (proj2 (proj1 (proj2 (proj2 (X3_checkURISyntax_scheme_and_path_errors
                                       SpecModel.asciiParser (VStr ":x"))
                                eq_refl)))
           eq_refl).
Defined.

(** X4.  The five codes that only the syntax check raises pass through the
    layers unchanged and come from nowhere else: for each of them,
    [checkURI] and [checkHttpURL] (so every alias) throw it exactly when
    [checkURISyntax] throws it, whatever the options. *)
Theorem X4_syntax_errors_through_the_layers :
  forall (C : Chars) (P : Parser) (V : Validators)
         (uri sm : val) (o : HttpOptions) (e : string),
    In e [ "URI_INVALID_TYPE"; "URI_MISSING_SCHEME"; "URI_EMPTY_SCHEME";
           "URI_MISSING_PATH"; "URI_INVALID_PATH" ] ->
    (checkURI uri sm = Some (Throw e) <-> checkURISyntax uri = Throw e)
    /\ (checkHttpURL uri o = Some (Throw e) <-> checkURISyntax uri = Throw e).
Proof.
  intros C P V uri sm o e He.
  assert (Huri : forall sm', checkURI uri sm' = Some (Throw e)
                             <-> checkURISyntax uri = Throw e).
  { intro sm'. split; [|apply checkURI_propagates].
    intro H. apply checkURI_throw_inv in H.
    destruct H as [H | (_ & [H | (_ & H)])]; [exact H | |];
      exfalso; simpl in He, H;
      repeat match goal with
             | D : _ \/ _ |- _ => destruct D
             end; try contradiction; subst; discriminate. }
  split; [apply Huri|].
  rewrite <- (Huri (sitemap o)). split; [|apply checkHttpURL_propagates].
  intro H. apply checkHttpURL_throw_inv in H.
  destruct H as [H | (_ & [H | H])]; [exact H | |];
    exfalso; simpl in He;
    repeat match goal with
           | D : _ \/ _ |- _ => destruct D
           end; try contradiction; subst; discriminate.
Qed.

Lemma X4_witness :
  @checkURISyntax SpecModel.asciiParser (VStr "no-colon")
  = Throw "URI_MISSING_SCHEME"
  /\ @checkSitemapURL SpecModel.specChars SpecModel.asciiParser
       SpecModel.asciiValidators (VStr "no-colon")
     = Some (Throw "URI_MISSING_SCHEME").
Proof.
  refine (conj eq_refl _).
  refine (proj2 (proj2 (X4_syntax_errors_through_the_layers
                          SpecModel.specChars SpecModel.asciiParser
                          SpecModel.asciiValidators (VStr "no-colon")
                          VUndefined
                          (mkOptions VUndefined (VBool true) (VBool true))
                          "URI_MISSING_SCHEME" _)) eq_refl).
  simpl. tauto.
Defined.

(** X5.  What the stages never throw: [checkURI] never throws
    [URI_INVALID_SCHEME] nor [URI_MISSING_AUTHORITY]; [checkURISyntax] never
    throws a character, port, percent-encoding or sitemap code; and
    [URI_INVALID_SITEMAP_CHAR] is thrown by [checkURI] and [checkHttpURL]
    only when the sitemap option is the boolean [true]. *)
Theorem X5_codes_a_stage_never_throws :
  forall (C : Chars) (P : Parser) (V : Validators)
         (uri sm : val) (o : HttpOptions),
    (checkURI uri sm <> Some (Throw "URI_INVALID_SCHEME")
     /\ checkURI uri sm <> Some (Throw "URI_MISSING_AUTHORITY"))
    /\ (forall e,
           In e [ "URI_INVALID_SCHEME_CHAR"; "URI_INVALID_USERINFO_CHAR";
                  "URI_INVALID_PORT"; "URI_INVALID_CHAR";
                  "URI_INVALID_SITEMAP_CHAR"; "URI_INVALID_PERCENT_ENCODING";
                  "URI_MISSING_AUTHORITY"; "URI_INVALID_SCHEME" ] ->
           checkURISyntax uri <> Throw e)
    /\ (checkURI uri sm = Some (Throw "URI_INVALID_SITEMAP_CHAR") ->
        sm = VBool true)
    /\ (checkHttpURL uri o = Some (Throw "URI_INVALID_SITEMAP_CHAR") ->
        sitemap o = VBool true).
Proof.
  intros C P V uri sm o.
  assert (Hsm : forall sm', checkURI uri sm'
                            = Some (Throw "URI_INVALID_SITEMAP_CHAR") ->
                            sm' = VBool true).
  { intros sm' H. apply checkURI_throw_inv in H.
    destruct H as [H | (_ & [H | (H & _)])]; [| |exact H]; exfalso.
    - apply checkURISyntax_throw_inv in H. simpl in H.
      repeat match goal with
             | D : _ \/ _ |- _ => destruct D
             end; try contradiction; discriminate.
    - simpl in H.
      repeat match goal with
             | D : _ \/ _ |- _ => destruct D
             end; try contradiction; discriminate. }
  repeat apply conj.
  - intro H. apply checkURI_throw_inv in H.
    destruct H as [H | (_ & [H | (_ & H)])];
      [apply checkURISyntax_throw_inv in H| |]; simpl in H;
      repeat match goal with
             | D : _ \/ _ |- _ => destruct D
             end; try contradiction; discriminate.
  - intro H. apply checkURI_throw_inv in H.
    destruct H as [H | (_ & [H | (_ & H)])];
      [apply checkURISyntax_throw_inv in H| |]; simpl in H;
      repeat match goal with
             | D : _ \/ _ |- _ => destruct D
             end; try contradiction; discriminate.
  - intros e He H. apply checkURISyntax_throw_inv in H. simpl in He, H.
    repeat match goal with
           | D : _ \/ _ |- _ => destruct D
           end; try contradiction; subst; discriminate.
  - apply Hsm.
  - intro H. apply checkHttpURL_throw_inv in H.
    destruct H as [H | (_ & [H | H])]; [now apply Hsm | |]; discriminate.
Qed.

Lemma X5_witness :
  @checkURI SpecModel.specChars SpecModel.asciiParser
    SpecModel.asciiValidators (VStr "http://example.com/a'b") (VBool true)
  = Some (Throw "URI_INVALID_SITEMAP_CHAR")
  /\ VBool true = VBool true.
Proof.
  refine (conj eq_refl _).
  exact (proj1 (proj2 (proj2 (X5_codes_a_stage_never_throws
                                SpecModel.specChars SpecModel.asciiParser
                                SpecModel.asciiValidators
                                (VStr "http://example.com/a'b") (VBool true)
                                noOptions)))
           eq_refl).
Defined.

(** ** Options *)

(** X6.  The options are compared with [=== true]: any other value of
    a key, truthy or not, counts as unset.  [checkHttpURL] on given options
    is [checkHttpURL] on the three booleans that say which keys are the
    boolean [true], and [checkURI] likewise for its sitemap option. *)
Theorem X6_options_are_compared_strictly :
  forall (C : Chars) (P : Parser) (V : Validators)
         (uri sm : val) (o : HttpOptions),
    checkHttpURL uri o = checkHttpURL uri (asBooleans o)
    /\ checkURI uri sm = checkURI uri (VBool (val_eqb sm (VBool true)))
    /\ (forall v w, v <> VBool true -> w <> VBool true ->
                    checkHttpURL uri (mkOptions v w sm)
                    = checkHttpURL uri (mkOptions VUndefined VUndefined sm)).
Proof.
  intros C P V uri sm o.
  assert (E : forall x, val_eqb (VBool (val_eqb x (VBool true))) (VBool true)
                        = val_eqb x (VBool true))
    by (intro x; simpl; now destruct (val_eqb x (VBool true))).
  repeat apply conj.
  - apply checkHttpURL_options; simpl; symmetry; apply E.
  - unfold checkURI. now rewrite E.
  - intros v w Hv Hw. apply val_eqb_neq in Hv, Hw.
    apply checkHttpURL_options; simpl; auto.
Qed.

Lemma X6_witness :
  VNum 1 <> VBool true /\ VStr "true" <> VBool true
  /\ @checkHttpURL SpecModel.specChars SpecModel.asciiParser
       SpecModel.asciiValidators (VStr "https://example.com/")
       (mkOptions (VNum 1) (VStr "true") VUndefined)
     = @checkHttpURL SpecModel.specChars SpecModel.asciiParser
         SpecModel.asciiValidators (VStr "https://example.com/") noOptions.
Proof.
  assert (H1 : VNum 1 <> VBool true) by discriminate.
  assert (H2 : VStr "true" <> VBool true) by discriminate.
  refine (conj H1 (conj H2 _)).
  exact (proj2 (proj2 (X6_options_are_compared_strictly
                         SpecModel.specChars SpecModel.asciiParser
                         SpecModel.asciiValidators
                         (VStr "https://example.com/") VUndefined noOptions))
           (VNum 1) (VStr "true") H1 H2).
Defined.

(** ** The authority block *)

Section AuthorityFacts.

Context {C : Chars} {P : Parser} {V : Validators}.

Lemma checkAuthority_ok_inv (c : URIComponents) :
  checkAuthority c = ret tt ->
  exists_ (authority c) = true ->
  scanUserinfo (userinfo c) = ret tt
  /\ (isIP (host c) = true \/ isDomain (host c) = true)
  /\ (exists_ (port c) = true -> int (port c) <> VUndefined).
Proof.
  unfold checkAuthority. intros H Ha. rewrite Ha in H.
  destruct (scanUserinfo (userinfo c)) as [[[]|e]|]; simpl in H;
    try discriminate.
  split; [reflexivity|].
  destruct (isIP (host c)) eqn:Hip; destruct (isDomain (host c)) eqn:Hd;
    simpl in H; try discriminate; (split; [auto|]);
    intro Hp; rewrite Hp in H; simpl in H;
    destruct (val_eqb (int (port c)) VUndefined) eqn:Ei;
    try discriminate; now apply val_eqb_neq.
Qed.

Lemma checkAuthority_absent (c : URIComponents) :
  exists_ (authority c) = false -> checkAuthority c = ret tt.
Proof. intro H. unfold checkAuthority. now rewrite H. Qed.

(** The slash rule and the authority test that a successful syntax check
    has passed. *)
Lemma checkURISyntax_ok_path (uri : val) (r : object CheckResult) :
  checkURISyntax uri = Ok r ->
  let c := parseURI uri in
  (if is_String (authority c) && (0 <? lengthOf (authority c))
   then val_eqb (path c) (VStr "") || startsWith (path c) "/"
   else negb (startsWith (path c) "//")) = true
  /\ negb (exists_ (authority c)) && exists_ (authorityPunydecoded c)
     = false.
Proof.
  unfold checkURISyntax.
  destruct (negb (is_String uri)); [discriminate|].
  destruct (negb (is_String (scheme (parseURI uri)))); [discriminate|].
  destruct (lengthOf (scheme (parseURI uri)) <=? 0); [discriminate|].
  destruct (negb (is_String (path (parseURI uri)))); [discriminate|].
  destruct (is_String (authority (parseURI uri))
            && (0 <? lengthOf (authority (parseURI uri)))).
  - destruct (val_eqb _ _ || startsWith _ "/"); simpl; [|discriminate].
    destruct (negb _ && _); [discriminate|]. auto.
  - destruct (startsWith _ "//"); simpl; [discriminate|].
    destruct (negb _ && _); [discriminate|]. auto.
Qed.

End AuthorityFacts.

(** X7.  A uri whose parse has no authority is never shown to the host
    validators nor to the port cast: [checkURI] gives the same answer
    whatever [isIP], [isDomain] and [int] are, and never throws
    [URI_INVALID_HOST], [URI_INVALID_PORT] or [URI_INVALID_USERINFO_CHAR]
    once the syntax check has passed. *)
Theorem X7_no_authority_no_host_validation :
  forall (C : Chars) (P : Parser) (V V' : Validators) (uri sm : val),
    exists_ (authority (parseURI uri)) = false ->
    @checkURI C P V uri sm = @checkURI C P V' uri sm
    /\ (forall r0 e,
           checkURISyntax uri = Ok r0 ->
           @checkURI C P V uri sm = Some (Throw e) ->
           In e [ "URI_INVALID_SCHEME_CHAR"; "URI_INVALID_CHAR";
                  "URI_INVALID_PERCENT_ENCODING";
                  "URI_INVALID_SITEMAP_CHAR" ]).
Proof.
  intros C P V V' uri sm Ha.
  assert (Hnorm : forall W : Validators,
             @checkURI C P W uri sm =
               match checkURISyntax uri with
               | Throw e => Some (Throw e)
               | Ok _ =>
                   _ <- scanScheme (scheme (parseURI uri))
                          (lengthOf (scheme (parseURI uri))) ;;
                   _ <- scanPathqf (val_eqb sm (VBool true))
                          (pathqf (parseURI uri)) ;;
                   ret (literal (mkResult (parseURI uri) VUndefined
                                   (VBool true)))
               end).
  { intro W. destruct (checkURISyntax uri) as [r0|e] eqn:E0.
    - rewrite (@checkURI_after_syntax C P W uri sm r0 E0).
      rewrite (@checkAuthority_absent C W _ Ha).
      destruct (scanScheme _ _) as [[[]|e]|]; reflexivity.
    - now apply checkURI_propagates. }
  split; [now rewrite !Hnorm|].
  intros r0 e E0. rewrite Hnorm, E0.
  destruct (scanScheme _ _) as [[[]|e1]|] eqn:E1; simpl; try discriminate.
  - destruct (scanPathqf _ _) as [[[]|e3]|] eqn:E3; simpl; try discriminate.
    intro H. inversion H. subst.
    destruct (scanPathqf_codes _ _ _ E3) as [-> | [-> | (_ & ->)]];
      simpl; tauto.
  - intro H. inversion H. subst.
    rewrite (scanScheme_codes _ _ _ E1). simpl. tauto.
Qed.

Lemma X7_witness :
  exists_ (authority (@parseURI SpecModel.asciiParser (VStr "urn:isbn:1")))
  = false
  /\ @checkURI SpecModel.specChars SpecModel.asciiParser
       SpecModel.asciiValidators (VStr "urn:isbn:1") VUndefined
     = @checkURI SpecModel.specChars SpecModel.asciiParser
         {| isIP := fun _ => false; isDomain := fun _ => false;
            int := fun _ => VUndefined |}
         (VStr "urn:isbn:1") VUndefined.
Proof.
  refine (conj eq_refl _).
  exact (proj1 (X7_no_authority_no_host_validation
                  SpecModel.specChars SpecModel.asciiParser
                  SpecModel.asciiValidators
                  {| isIP := fun _ => false; isDomain := fun _ => false;
                     int := fun _ => VUndefined |}
                  (VStr "urn:isbn:1") VUndefined eq_refl)).
Defined.

(** X8.  What a successful [checkHttpURL] (so any alias) guarantees about
    the parse: the scheme is exactly [http] or [https]; the authority is
    a string; the host was accepted by [isIP] or by [isDomain]; a port that
    is present casts to an integer; and the path is a string that is empty
    or starts with [/] when the authority is not empty, and does not start
    with [//] when it is. *)
Theorem X8_checkHttpURL_success_guarantees :
  forall (C : Chars) (P : Parser) (V : Validators)
         (uri : val) (o : HttpOptions) (r : object CheckResult),
    checkHttpURL uri o = Some (Ok r) ->
    let c := parseURI uri in
    (scheme c = VStr "http" \/ scheme c = VStr "https")
    /\ (exists a, authority c = VStr a)
    /\ (isIP (host c) = true \/ isDomain (host c) = true)
    /\ (exists_ (port c) = true -> int (port c) <> VUndefined)
    /\ (exists p,
           path c = VStr p
           /\ (0 < lengthOf (authority c) ->
               p = "" \/ String.prefix "/" p = true)
           /\ (lengthOf (authority c) = 0 -> String.prefix "//" p = false)).
Proof.
  intros C P V uri o r H c.
  apply checkHttpURL_ok_inv in H. destruct H as (r' & Huri & Hs & Ha & _).
  apply checkURI_ok_inv in Huri.
  destruct Huri as (Hsyn & _ & Hauth & _ & ->). simpl in Hs, Ha.
  fold c in Hs, Ha, Hauth.
  assert (Hex : exists_ (authority c) = true)
    by (destruct (authority c); try discriminate; reflexivity).
  destruct (checkAuthority_ok_inv c Hauth Hex) as (_ & Hhost & Hport).
  destruct (checkURISyntax_ok_inv _ _ Hsyn) as (_ & _ & _ & Hp & _).
  destruct (checkURISyntax_ok_path _ _ Hsyn) as (Hrule & _).
  fold c in Hp, Hrule.
  repeat apply conj; try assumption.
  - apply includes_In in Hs. destruct Hs as (k & Hk & ->).
    unfold schemesToCheck in Hk.
    destruct (val_eqb (https o) (VBool true));
      [|destruct (val_eqb (web o) (VBool true))]; simpl in Hk;
      intuition (subst; auto).
  - destruct (authority c); try discriminate. now eexists.
  - destruct (path c) as [| | | |p] eqn:Ep; try discriminate.
    exists p. rewrite Ha in Hrule. simpl in Hrule. repeat apply conj.
    + reflexivity.
    + intro Hlen.
      replace (0 <? lengthOf (authority c)) with true in Hrule
        by (symmetry; apply Z.ltb_lt; lia).
      apply orb_true_iff in Hrule. destruct Hrule as [E|E]; [left|now right].
      now apply String.eqb_eq in E.
    + intro Hlen. rewrite Hlen in Hrule. simpl in Hrule.
      now apply negb_true_iff in Hrule.
Qed.

Lemma X8_witness :
  let uri := VStr "https://example.com:8080/a" in
  let c := @parseURI SpecModel.asciiParser uri in
  @checkWebURL SpecModel.specChars SpecModel.asciiParser
    SpecModel.asciiValidators uri
  = Some (Ok (literal (mkResult c VUndefined (VBool true))))
  /\ (@isIP SpecModel.asciiValidators (host c) = true
      \/ @isDomain SpecModel.asciiValidators (host c) = true)
  /\ port c = VStr "8080".
Proof.
  refine (conj eq_refl (conj _ eq_refl)).
  exact (proj1 (proj2 (proj2 (X8_checkHttpURL_success_guarantees
                                SpecModel.specChars SpecModel.asciiParser
                                SpecModel.asciiValidators
                                (VStr "https://example.com:8080/a")
                                (mkOptions VUndefined (VBool true) VUndefined)
                                _ eq_refl)))).
Defined.

(** ** The scheme loop *)

Lemma visits_ge (body : Z -> result Z) (len i k : Z) :
  (forall a a', body a = Ok a' -> a <= a') ->
  visits body len i k -> i <= k.
Proof.
  intros Hmono Hv. induction Hv as [i | i i' k Hi Hb Hv IH]; [lia|].
  apply Hmono in Hb. lia.
Qed.

Section SchemeFacts.

Context {C : Chars}.

(** The scheme loop passes exactly when every character is accepted, the
    first one as a start character. *)
Lemma scanScheme_ok_iff (scheme : val) :
  scanScheme scheme (lengthOf scheme) = ret tt
  <-> (forall i, 0 <= i < lengthOf scheme ->
                 isSchemeChar (js_at scheme i) (i =? 0) = true).
Proof.
  split; [|apply scanScheme_valid].
  intros H i Hi. unfold scanScheme in H.
  refine (for_loop_covers (schemeBody scheme) (lengthOf scheme)
            (fun j => isSchemeChar (js_at scheme j) (j =? 0) = true) 0
            _ _ 0 ltac:(lia) H i Hi).
  intros a a' _ _ Hb. unfold schemeBody in Hb.
  destruct (isSchemeChar (js_at scheme a) (a =? 0)) eqn:E; simpl in Hb;
    [|discriminate].
  inversion Hb. subst a'. split; [lia|].
  intros j Hj. now replace j with a by lia.
Qed.

Lemma scanScheme_throw_iff (scheme : val) :
  scanScheme scheme (lengthOf scheme)
  = Some (Throw "URI_INVALID_SCHEME_CHAR")
  <-> (exists i, 0 <= i < lengthOf scheme
                 /\ isSchemeChar (js_at scheme i) (i =? 0) = false).
Proof.
  split.
  - intro H. unfold scanScheme in H. apply for_loop_throw_inv in H.
    destruct H as (k & Hv & Hk & Hb). exists k.
    apply visits_ge in Hv;
      [|intros a a' Ha; apply schemeBody_ok in Ha; lia].
    split; [lia|]. unfold schemeBody in Hb.
    destruct (isSchemeChar (js_at scheme k) (k =? 0)); [discriminate|].
    reflexivity.
  - intros (i & Hi & Hbad).
    destruct (scanScheme_returns scheme (lengthOf scheme)) as ([[]|e] & Hr).
    + exfalso. pose proof (proj1 (scanScheme_ok_iff scheme) Hr i Hi) as Hg.
      rewrite Hg in Hbad. discriminate.
    + rewrite Hr. now rewrite (scanScheme_codes _ _ _ Hr).
Qed.

End SchemeFacts.

(** X9.  The scheme check of [checkURI] is exact and comes first after the
    syntax check: once [checkURISyntax] has passed, [checkURI] throws
    [URI_INVALID_SCHEME_CHAR] exactly when some character of the scheme is
    refused by [isSchemeChar], the character at index 0 being tested as
    a start character and every other one as a following character;
    whatever the authority and the path hold. *)
Theorem X9_scheme_character_check_is_exact :
  forall (C : Chars) (P : Parser) (V : Validators)
         (uri sm : val) (r0 : object CheckResult),
    checkURISyntax uri = Ok r0 ->
    let sch := scheme (parseURI uri) in
    checkURI uri sm = Some (Throw "URI_INVALID_SCHEME_CHAR")
    <-> (exists i, 0 <= i < lengthOf sch
                   /\ isSchemeChar (js_at sch i) (i =? 0) = false).
Proof.
  intros C P V uri sm r0 E0 sch.
  rewrite <- scanScheme_throw_iff. fold sch.
  rewrite (checkURI_after_syntax uri sm r0 E0). fold sch.
  destruct (scanScheme sch (lengthOf sch)) as [[[]|e]|] eqn:Es; simpl.
  - split; [|discriminate].
    destruct (checkAuthority (parseURI uri)) as [[[]|e2]|] eqn:E2; simpl;
      try discriminate.
    + destruct (scanPathqf _ _) as [[[]|e3]|] eqn:E3; simpl;
        try discriminate.
      intro H. inversion H. subst. exfalso.
      destruct (scanPathqf_codes _ _ _ E3) as [F | [F | (_ & F)]];
        discriminate F.
    + intro H. inversion H. subst. exfalso.
      apply checkAuthority_throw_inv in E2. destruct E2 as (_ & E2).
      simpl in E2. intuition discriminate.
  - split; intro H; inversion H; reflexivity.
  - split; discriminate.
Qed.

Lemma X9_witness :
  let uri := VStr "1http://example.com/" in
  (exists r0, @checkURISyntax SpecModel.asciiParser uri = Ok r0)
  /\ @isSchemeChar SpecModel.specChars
       (js_at (scheme (@parseURI SpecModel.asciiParser uri)) 0) (0 =? 0)
     = false
  /\ @checkURI SpecModel.specChars SpecModel.asciiParser
       SpecModel.asciiValidators uri VUndefined
     = Some (Throw "URI_INVALID_SCHEME_CHAR").
Proof.
  refine (conj (ex_intro _ _ eq_refl) (conj eq_refl _)).
  refine (proj2 (X9_scheme_character_check_is_exact
                   SpecModel.specChars SpecModel.asciiParser
                   SpecModel.asciiValidators (VStr "1http://example.com/")
                   VUndefined _ eq_refl) _).
  exists 0. split; [vm_compute; split; [discriminate | reflexivity]|].
  reflexivity.
Defined.

(** ** What the scans have accepted *)

Section AcceptedFacts.

Context {C : Chars}.

(** Inside its bounds the validator returns 0 off a percent sign and 2 on
    a triplet. *)
Lemma checkPercentEncoding_ok_cases (s : string) (i len o : Z) :
  0 <= i -> i < len ->
  checkPercentEncoding (VStr s) (VNum i) (VNum len) = Ok o ->
  (o = 0 /\ str_at s i <> VStr "%")
  \/ (o = 2 /\ str_at s i = VStr "%" /\ triplet s i len).
Proof.
  intros Hi Hlen H.
  destruct (val_eqb (str_at s i) (VStr "%")) eqn:E.
  - apply val_eqb_eq in E. right.
    destruct (checkPercentEncoding_percent s i len Hi Hlen E) as (Hiff & Hno).
    destruct (checkPercentEncoding_offset _ _ _ _ H) as [-> | ->].
    + exfalso. rewrite checkPercentEncoding_in_bounds in H by assumption.
      apply val_eqb_eq in E. rewrite E in H.
      repeat match type of H with
             | context [if ?b then _ else _] => destruct b
             end; discriminate.
    + split; [reflexivity|]. split; [exact E|]. now apply Hiff.
  - apply val_eqb_neq in E. left.
    rewrite (checkPercentEncoding_other s i len Hi Hlen E) in H.
    inversion H. auto.
Qed.

(** The positions the plain scan of [pathqf] has accepted. *)
Lemma scanPathqf_plain_accepted (s : string) :
  scanPathqf false (VStr s) = ret tt ->
  forall j, 0 <= j < strlen s ->
            isURIChar (str_at s j) = true \/ inTriplet s j.
Proof.
  intros H j Hj. unfold scanPathqf in H. cbn [lengthOf] in H.
  refine (for_loop_covers _ _
            (fun j => isURIChar (str_at s j) = true \/ inTriplet s j) 0
            _ _ 0 ltac:(lia) H j Hj).
  intros i i' Hi Hlen Hb. unfold pathqfBody in Hb. cbn [js_at] in Hb.
  destruct (isURIChar (str_at s i)) eqn:Hc; cbn [negb] in Hb; [|discriminate].
  destruct (checkPercentEncoding (VStr s) (VNum i) (VNum (strlen s)))
    as [o|] eqn:Hp; [|discriminate].
  inversion Hb. subst i'.
  destruct (checkPercentEncoding_ok_cases s i _ o Hi Hlen Hp)
    as [(-> & _) | (-> & Hpct & (Hb2 & H1 & H2))].
  - split; [lia|]. intros k Hk. replace k with i by lia. now left.
  - split; [lia|]. intros k Hk.
    assert (D : k = i \/ k = i + 1 \/ k = i + 2) by lia.
    destruct D as [-> | [-> | ->]].
    + now left.
    + right. split; [exact H1|]. left.
      now replace (i + 1 - 1) with i by lia.
    + right. split; [exact H2|]. right.
      now replace (i + 2 - 2) with i by lia.
Qed.

(** The positions the userinfo scan has accepted. *)
Lemma scanUserinfo_accepted (u : string) :
  scanUserinfo (VStr u) = ret tt ->
  forall j, 0 <= j < strlen u ->
            isUserinfoChar (str_at u j) = true \/ inTriplet u j.
Proof.
  intros H j Hj. unfold scanUserinfo in H. cbn [lengthOf] in H.
  refine (for_loop_covers _ _
            (fun j => isUserinfoChar (str_at u j) = true \/ inTriplet u j) 0
            _ _ 0 ltac:(lia) H j Hj).
  intros i i' Hi Hlen Hb. unfold userinfoBody in Hb. cbn [js_at] in Hb.
  destruct (isUserinfoChar (str_at u i)) eqn:Hc; cbn [negb] in Hb;
    [|discriminate].
  destruct (checkPercentEncoding (VStr u) (VNum i) (VNum (strlen u)))
    as [o|] eqn:Hp; [|discriminate].
  inversion Hb. subst i'.
  destruct (checkPercentEncoding_ok_cases u i _ o Hi Hlen Hp)
    as [(-> & _) | (-> & Hpct & (Hb2 & H1 & H2))].
  - split; [lia|]. intros k Hk. replace k with i by lia. now left.
  - split; [lia|]. intros k Hk.
    assert (D : k = i \/ k = i + 1 \/ k = i + 2) by lia.
    destruct D as [-> | [-> | ->]].
    + now left.
    + right. split; [exact H1|]. left.
      now replace (i + 1 - 1) with i by lia.
    + right. split; [exact H2|]. right.
      now replace (i + 2 - 2) with i by lia.
Qed.

End AcceptedFacts.

(** X10.  What [checkURI] has accepted when it succeeds without the sitemap
    option: every character of [pathqf] is a URI character or one of the
    two characters after a percent sign that the classifier accepts as
    a percent-encoding character; and, the authority being present, every
    character of a userinfo string is a userinfo character or such
    a percent-encoding character. *)
Theorem X10_accepted_characters :
  forall (C : Chars) (P : Parser) (V : Validators)
         (uri sm : val) (r : object CheckResult),
    checkURI uri sm = Some (Ok r) ->
    sm <> VBool true ->
    let c := parseURI uri in
    (forall s j, pathqf c = VStr s -> 0 <= j < strlen s ->
                 isURIChar (str_at s j) = true \/ inTriplet s j)
    /\ (exists_ (authority c) = true ->
        forall u j, userinfo c = VStr u -> 0 <= j < strlen u ->
                    isUserinfoChar (str_at u j) = true \/ inTriplet u j).
Proof.
  intros C P V uri sm r H Hsm c. apply checkURI_ok_inv in H.
  destruct H as (_ & _ & Hauth & Hpq & _). fold c in Hauth, Hpq.
  apply val_eqb_neq in Hsm. rewrite Hsm in Hpq. split.
  - intros s j Es Hj. rewrite Es in Hpq.
    now apply scanPathqf_plain_accepted.
  - intros Ha u j Eu Hj.
    destruct (checkAuthority_ok_inv c Hauth Ha) as (Hu & _).
    rewrite Eu in Hu. now apply scanUserinfo_accepted.
Qed.

Lemma X10_witness :
  let uri := VStr "http://us:er@example.com/a?b=c" in
  let c := @parseURI SpecModel.asciiParser uri in
  VUndefined <> VBool true
  /\ userinfo c = VStr "us:er"
  /\ (@isUserinfoChar SpecModel.specChars (str_at "us:er" 2) = true
      \/ @inTriplet SpecModel.specChars "us:er" 2).
Proof.
  assert (H : VUndefined <> VBool true) by discriminate.
  refine (conj H (conj eq_refl _)).
  refine (proj2 (X10_accepted_characters
                   SpecModel.specChars SpecModel.asciiParser
                   SpecModel.asciiValidators
                   (VStr "http://us:er@example.com/a?b=c") VUndefined
                   _ eq_refl H) eq_refl "us:er" 2 eq_refl _).
  vm_compute. split; [discriminate | reflexivity].
Defined.

(** ** What the scan in sitemap mode has accepted *)

(** After its ampersand an escape sequence holds letters and a semicolon:
    no percent sign, no ampersand, no raw reserved character. *)
Lemma escape_tail (escape : string) (p : Z) :
  In escape fiveEscapes -> 1 <= p < strlen escape ->
  exists c, str_at escape p = VStr c
            /\ In c ["a"; "m"; "p"; "l"; "t"; "g"; "q"; "u"; "o"; "s"; ";"].
Proof.
  intros He Hp. simpl in He.
  destruct He as [<-|[<-|[<-|[<-|[<-|[]]]]]];
    match type of Hp with
    | _ <= _ < strlen ?e =>
        let n := eval vm_compute in (strlen e) in
        change (strlen e) with n in Hp
    end;
    assert (D : p = 1 \/ p = 2 \/ p = 3 \/ p = 4 \/ p = 5) by lia;
    destruct D as [->|[->|[->|[->| ->]]]]; try lia;
    eexists; (split; [reflexivity | simpl; tauto]).
Qed.

Lemma rawReserved_entities (c : string) :
  In c rawReserved -> In c entitiesKeys.
Proof. simpl. tauto. Qed.

Section SitemapAccepted.

Context {C : Chars}.

(** A successful iteration in sitemap mode, in full. *)
Lemma pathqfBody_sitemap_ok_full (s : string) (i i' : Z) :
  0 <= i -> i < strlen s ->
  pathqfBody true (VStr s) (strlen s) i = Ok i' ->
  isURIChar (str_at s i) = true
  /\ exists o,
      ((o = 0 /\ str_at s i <> VStr "%")
       \/ (o = 2 /\ str_at s i = VStr "%" /\ triplet s i (strlen s)))
      /\ escapedAt s (i + o)
      /\ (i' = i + o
          \/ exists escape,
              In escape fiveEscapes
              /\ matchesAt s (strlen s) (i + o) escape
              /\ i' = i + o + (strlen escape - 1)).
Proof.
  intros Hi Hlen Hb.
  assert (Hc : isURIChar (str_at s i) = true).
  { unfold pathqfBody in Hb. cbn [js_at] in Hb.
    destruct (isURIChar (str_at s i)); [reflexivity | discriminate]. }
  split; [exact Hc|].
  destruct (checkPercentEncoding (VStr s) (VNum i) (VNum (strlen s)))
    as [o|e] eqn:Hp.
  2:{ unfold pathqfBody in Hb. cbn [js_at] in Hb.
      rewrite Hc, Hp in Hb. discriminate. }
  exists o. split; [now apply checkPercentEncoding_ok_cases|].
  rewrite (pathqfBody_sitemap s (strlen s) i o Hc Hp) in Hb.
  destruct (val_eqb (str_at s (i + o)) (VStr "&")) eqn:Ea.
  - apply val_eqb_eq in Ea.
    destruct (findEscape escapeCodesKeys (VStr s) (strlen s) (i + o))
      as [n|] eqn:F; [|discriminate].
    apply findEscape_some in F. destruct F as (e & He & Hm & ->).
    inversion Hb. split.
    + split; [intros _; now exists e|].
      intros c Hcc. rewrite Ea in Hcc. inversion Hcc. subst c.
      simpl. intros [F|[F|[F|[F|[]]]]]; discriminate F.
    + right. exists e. auto.
  - apply val_eqb_neq in Ea.
    destruct (includes entitiesKeys (str_at s (i + o))) eqn:Ei;
      [discriminate|].
    inversion Hb. split; [|now left]. split; [intro F; contradiction|].
    intros c Hcc Hraw. apply rawReserved_entities in Hraw.
    assert (Hin : includes entitiesKeys (str_at s (i + o)) = true)
      by (apply includes_In; now exists c).
    congruence.
Qed.

(** Every position of a [pathqf] that the scan in sitemap mode accepted was
    passed over in one of the three ways. *)
Lemma scanPathqf_sitemap_scanned (s : string) :
  scanPathqf true (VStr s) = ret tt ->
  forall j, 0 <= j < strlen s -> sitemapScanned s j.
Proof.
  intros H j Hj. unfold scanPathqf in H. cbn [lengthOf] in H.
  refine (for_loop_covers _ _ (sitemapScanned s) 0 _ _ 0 ltac:(lia) H j Hj).
  intros i i' Hi Hlen Hb.
  destruct (pathqfBody_sitemap_ok_full s i i' Hi Hlen Hb)
    as (Hc & o & Ho & Hesc & Hi').
  assert (Hclass : forall k, i <= k <= i + o -> sitemapScanned s k).
  { intros k Hk.
    destruct Ho as [(-> & Hne) | (-> & Hpct & (Hb2 & H1 & H2))].
    - replace k with i by lia. left. split; [exact Hc|]. left.
      split; [exact Hne|]. now replace (i + 0) with i in Hesc by lia.
    - assert (D : k = i \/ k = i + 1 \/ k = i + 2) by lia.
      destruct D as [-> | [-> | ->]].
      + left. split; [exact Hc|]. right. split; [exact Hpct|].
        repeat split; assumption.
      + right. left. split; [exact H1|]. left.
        now replace (i + 1 - 1) with i by lia.
      + right. left. split; [exact H2|]. right.
        split; [now replace (i + 2 - 2) with i by lia | exact Hesc]. }
  assert (Ho' : 0 <= o) by (destruct Ho as [(-> & _) | (-> & _)]; lia).
  destruct Hi' as [-> | (e & He & Hm & ->)].
  - split; [lia | exact Hclass].
  - pose proof (escapeCodesKeys_length e He) as Hl. split; [lia|].
    intros k Hk. destruct (Z_le_gt_dec k (i + o)) as [Hle|Hgt].
    + apply Hclass. lia.
    + right. right. exists (i + o), e.
      split; [lia | split; [exact He | split; [exact Hm | lia]]].
Qed.

End SitemapAccepted.

(** X11.  In a uri that [checkURI] accepts in sitemap mode no entity is left
    unescaped anywhere in [pathqf]: every ampersand begins one of the five
    escape sequences, and no raw [<], [>], double quote or ['] occurs;
    provided the classifier accepts none of these five characters as
    a percent-encoding character, as a hex-digit classifier does. *)
Theorem X11_sitemap_mode_leaves_no_raw_entity :
  forall (C : Chars) (P : Parser) (V : Validators)
         (uri : val) (r : object CheckResult) (s : string),
    (forall c, In c entitiesKeys -> isPercentEncodingChar (VStr c) = false) ->
    checkURI uri (VBool true) = Some (Ok r) ->
    pathqf (parseURI uri) = VStr s ->
    forall j, 0 <= j < strlen s -> escapedAt s j.
Proof.
  intros C P V uri r s Hpec H Es j Hj. apply checkURI_ok_inv in H.
  destruct H as (_ & _ & _ & Hpq & _). rewrite Es in Hpq.
  cbn [val_eqb Bool.eqb] in Hpq.
  destruct (scanPathqf_sitemap_scanned s Hpq j Hj)
    as [(_ & [(_ & Hesc) | (Hpct & _)])
       | [(Hhex & [Hmid | (_ & Hesc)]) | (L & e & HL & He & Hm & Hin)]].
  - exact Hesc.
  - split.
    + intro F. rewrite Hpct in F. discriminate F.
    + intros c Hc. rewrite Hpct in Hc. inversion Hc. subst c.
      simpl. intros [F|[F|[F|[F|[]]]]]; discriminate F.
  - split.
    + intro F. rewrite F in Hhex.
      rewrite (Hpec "&") in Hhex by (simpl; tauto). discriminate.
    + intros c Hc Hraw. rewrite Hc in Hhex.
      rewrite (Hpec c (rawReserved_entities c Hraw)) in Hhex. discriminate.
  - exact Hesc.
  - assert (Hch : str_at s j = str_at e (j - L)).
    { replace j with (L + (j - L)) at 1 by lia.
      apply matchesAt_chars; [exact HL | exact Hm | lia]. }
    destruct (escape_tail e (j - L) He ltac:(lia)) as (c & Hc & Hcin).
    unfold escapedAt. rewrite Hch, Hc. split.
    + intro F. inversion F. subst c. simpl in Hcin.
      repeat match goal with D : _ \/ _ |- _ => destruct D end;
        try contradiction; discriminate.
    + intros c' F. inversion F. subst c'. simpl. simpl in Hcin.
      intros Hraw.
      repeat match goal with D : _ \/ _ |- _ => destruct D end;
        try contradiction; subst; discriminate.
Qed.

Lemma X11_witness :
  let uri := VStr "http://example.com/a&amp;b?c=d&lt;" in
  (forall c, In c entitiesKeys ->
             @isPercentEncodingChar SpecModel.specChars (VStr c) = false)
  /\ pathqf (@parseURI SpecModel.asciiParser uri) = VStr "/a&amp;b?c=d&lt;"
  /\ escapedAt "/a&amp;b?c=d&lt;" 12.
Proof.
  assert (Hpec : forall c, In c entitiesKeys ->
                           @isPercentEncodingChar SpecModel.specChars (VStr c)
                           = false).
  { intros c Hc. simpl in Hc.
    destruct Hc as [<-|[<-|[<-|[<-|[<-|[]]]]]]; reflexivity. }
  refine (conj Hpec (conj eq_refl _)).
  refine (X11_sitemap_mode_leaves_no_raw_entity
            SpecModel.specChars SpecModel.asciiParser
            SpecModel.asciiValidators
            (VStr "http://example.com/a&amp;b?c=d&lt;") _
            "/a&amp;b?c=d&lt;" Hpec eq_refl eq_refl 12 _).
  vm_compute. split; [discriminate | reflexivity].
Defined.

(** ** Sitemap mode against plain mode *)

Section ModeFacts.

Context {C : Chars}.

Lemma pathqfBody_plain (s : string) (len i o : Z) :
  isURIChar (str_at s i) = true ->
  checkPercentEncoding (VStr s) (VNum i) (VNum len) = Ok o ->
  pathqfBody false (VStr s) len i = Ok (i + o).
Proof.
  intros Hc Hp. unfold pathqfBody. cbn [js_at]. now rewrite Hc, Hp.
Qed.

(** A [pathqf] accepted in sitemap mode is accepted by the plain scan, for
    a classifier that takes percent-encoding characters and the letters of
    the escape sequences as URI characters, and no percent sign as
    a percent-encoding character. *)
Lemma scanPathqf_sitemap_plain (pathqf : val) :
  (forall v, isPercentEncodingChar v = true -> isURIChar v = true) ->
  isPercentEncodingChar (VStr "%") = false ->
  (forall c, In c ["a"; "m"; "p"; "l"; "t"; "g"; "q"; "u"; "o"; "s"; ";"] ->
             isURIChar (VStr c) = true) ->
  scanPathqf true pathqf = ret tt ->
  scanPathqf false pathqf = ret tt.
Proof.
  intros H1 H2 H3 H.
  destruct pathqf as [| | | |s]; try exact H.
  unfold scanPathqf. cbn [lengthOf].
  apply (for_loop_passes _ _ 0); [|lia|apply fuel_enough].
  intros j Hj Hlen.
  assert (Hplain : forall k, 0 <= k < strlen s ->
                             isURIChar (str_at s k) = true ->
                             str_at s k <> VStr "%" ->
                             exists k', pathqfBody false (VStr s) (strlen s) k
                                        = Ok k' /\ k <= k').
  { intros k Hk Hc Hne. exists (k + 0). split; [|lia].
    apply pathqfBody_plain; [exact Hc|].
    apply checkPercentEncoding_other; [lia | lia | exact Hne]. }
  destruct (scanPathqf_sitemap_scanned s H j ltac:(lia))
    as [(Hc & [(Hne & _) | (Hpct & Ht)])
       | [(Hhex & _) | (L & e & HL & He & Hm & Hin)]].
  - apply Hplain; [lia | exact Hc | exact Hne].
  - exists (j + 2). split; [|lia]. apply pathqfBody_plain; [exact Hc|].
    now apply (checkPercentEncoding_percent s j (strlen s)).
  - apply Hplain; [lia | now apply H1 |].
    intro F. rewrite F in Hhex. congruence.
  - assert (Hch : str_at s j = str_at e (j - L)).
    { replace j with (L + (j - L)) at 1 by lia.
      apply matchesAt_chars; [exact HL | exact Hm | lia]. }
    destruct (escape_tail e (j - L) He ltac:(lia)) as (c & Hc & Hcin).
    apply Hplain; [lia | |]; rewrite Hch, Hc.
    + now apply H3.
    + intro F. inversion F. subst c. simpl in Hcin.
      repeat match goal with D : _ \/ _ |- _ => destruct D end;
        try contradiction; discriminate.
Qed.

(** Where [pathqf] holds no entity character the sitemap check has nothing
    to say: both modes run the same loop. *)
Lemma scanPathqf_no_entity (s : string) :
  (forall j c, str_at s j = VStr c -> ~ In c entitiesKeys) ->
  scanPathqf true (VStr s) = scanPathqf false (VStr s).
Proof.
  intro Hno. unfold scanPathqf. apply for_loop_ext. intros i _.
  unfold pathqfBody. cbn [js_at].
  destruct (negb (isURIChar (str_at s i))); [reflexivity|].
  destruct (checkPercentEncoding _ _ _) as [o|]; [|reflexivity].
  assert (Hinc : includes entitiesKeys (str_at s (i + o)) = false).
  { destruct (includes entitiesKeys (str_at s (i + o))) eqn:E;
      [|reflexivity].
    apply includes_In in E. destruct E as (k & Hk & E).
    exfalso. exact (Hno _ _ E Hk). }
  assert (Hamp : val_eqb (str_at s (i + o)) (VStr "&") = false).
  { apply val_eqb_neq. intro E. apply (Hno _ _ E). simpl. tauto. }
  now rewrite Hamp, Hinc.
Qed.

End ModeFacts.

(** X12.  Sitemap mode only adds requirements: a uri that [checkURI], or
    [checkHttpURL], accepts with the sitemap option accepts it with the same
    record under any value of the option (so what [checkSitemapURL] accepts
    [checkWebURL] accepts); for a classifier that takes every
    percent-encoding character and the letters and the semicolon of the
    escape sequences as URI characters, and does not take the percent sign
    as a percent-encoding character. *)
Theorem X12_sitemap_mode_only_adds_requirements :
  forall (C : Chars) (P : Parser) (V : Validators)
         (uri : val) (r : object CheckResult),
    (forall v, isPercentEncodingChar v = true -> isURIChar v = true) ->
    isPercentEncodingChar (VStr "%") = false ->
    (forall c, In c ["a"; "m"; "p"; "l"; "t"; "g"; "q"; "u"; "o"; "s"; ";"] ->
               isURIChar (VStr c) = true) ->
    (checkURI uri (VBool true) = Some (Ok r) ->
     forall sm, checkURI uri sm = Some (Ok r))
    /\ (forall h w,
           checkHttpURL uri (mkOptions h w (VBool true)) = Some (Ok r) ->
           forall sm, checkHttpURL uri (mkOptions h w sm) = Some (Ok r)).
Proof.
  intros C P V uri r H1 H2 H3.
  assert (Huri : forall r', checkURI uri (VBool true) = Some (Ok r') ->
                            forall sm, checkURI uri sm = Some (Ok r')).
  { intros r' H sm. apply checkURI_ok_inv in H.
    destruct H as (Hsyn & Hs & Ha & Hpq & ->).
    rewrite (checkURI_after_syntax uri sm _ Hsyn), Hs, Ha. simpl.
    cbn [val_eqb Bool.eqb] in Hpq.
    destruct (val_eqb sm (VBool true)).
    - now rewrite Hpq.
    - now rewrite (scanPathqf_sitemap_plain _ H1 H2 H3 Hpq). }
  split; [apply Huri|].
  intros h w H sm. apply checkHttpURL_ok_inv in H.
  destruct H as (r' & Hr' & Hs & Ha & ->). simpl in Hr', Hs.
  rewrite (checkHttpURL_after_checkURI uri (mkOptions h w sm) r'
             (Huri r' Hr' sm)).
  simpl. now rewrite Hs, Ha.
Qed.

Lemma X12_witness :
  let uri := VStr "http://example.com/a&amp;b" in
  let r := literal (mkResult (@parseURI SpecModel.asciiParser uri)
                      VUndefined (VBool true)) in
  @checkSitemapURL SpecModel.specChars SpecModel.asciiParser
    SpecModel.asciiValidators uri = Some (Ok r)
  /\ @checkWebURL SpecModel.specChars SpecModel.asciiParser
       SpecModel.asciiValidators uri = Some (Ok r).
Proof.
  refine (conj eq_refl _).
  refine (proj2 (X12_sitemap_mode_only_adds_requirements
                   SpecModel.specChars SpecModel.asciiParser
                   SpecModel.asciiValidators
                   (VStr "http://example.com/a&amp;b") _ _ eq_refl _)
            VUndefined (VBool true) eq_refl VUndefined).
  - intros [| | | |[|c [|d t]]] H; try discriminate H.
    unfold isPercentEncodingChar, isURIChar, SpecModel.specChars,
      SpecModel.onChar, SpecModel.isHexDigit, SpecModel.unreserved,
      SpecModel.isLetter, SpecModel.isDigit, SpecModel.between in *.
    apply orb_true_iff. left. apply orb_true_iff. left.
    apply orb_true_iff in H. destruct H as [H|H];
      [apply orb_true_iff in H; destruct H as [H|H]|].
    + apply orb_true_iff. left. apply orb_true_iff. right. exact H.
    + apply orb_true_iff. left. apply orb_true_iff. left.
      apply orb_true_iff. left.
      apply andb_true_iff in H. destruct H as (A & B).
      apply Z.leb_le in A, B. apply andb_true_iff.
      split; apply Z.leb_le; lia.
    + apply orb_true_iff. left. apply orb_true_iff. left.
      apply orb_true_iff. right.
      apply andb_true_iff in H. destruct H as (A & B).
      apply Z.leb_le in A, B. apply andb_true_iff.
      split; apply Z.leb_le; lia.
  - intros c Hc. simpl in Hc.
    repeat match goal with D : _ \/ _ |- _ => destruct D end;
      try contradiction; subst; reflexivity.
Defined.

(** X13.  Where [pathqf] holds none of the five entity characters
    ([&], [<], [>], double quote, [']) the sitemap option changes nothing:
    [checkURI] and [checkHttpURL] give the same record, or the same error,
    with it as without. *)
Theorem X13_sitemap_mode_is_idle_without_entities :
  forall (C : Chars) (P : Parser) (V : Validators)
         (uri : val) (s : string),
    pathqf (parseURI uri) = VStr s ->
    (forall j c, str_at s j = VStr c -> ~ In c entitiesKeys) ->
    (forall sm, checkURI uri (VBool true) = checkURI uri sm)
    /\ (forall h w sm,
           checkHttpURL uri (mkOptions h w (VBool true))
           = checkHttpURL uri (mkOptions h w sm)).
Proof.
  intros C P V uri s Es Hno.
  assert (Huri : forall sm, checkURI uri (VBool true) = checkURI uri sm).
  { intro sm. destruct (checkURISyntax uri) as [r0|e] eqn:E0.
    - rewrite !(checkURI_after_syntax uri _ r0 E0), Es.
      cbn [val_eqb Bool.eqb].
      destruct (val_eqb sm (VBool true)); [reflexivity|].
      now rewrite (scanPathqf_no_entity s Hno).
    - now rewrite !(checkURI_propagates uri _ e E0). }
  split; [exact Huri|].
  intros h w sm. unfold checkHttpURL. simpl. now rewrite (Huri sm).
Qed.

Lemma X13_witness :
  let uri := VStr "http://example.com/a b" in
  pathqf (@parseURI SpecModel.asciiParser uri) = VStr "/a b"
  /\ @checkSitemapURL SpecModel.specChars SpecModel.asciiParser
       SpecModel.asciiValidators uri
     = @checkWebURL SpecModel.specChars SpecModel.asciiParser
         SpecModel.asciiValidators uri.
Proof.
  refine (conj eq_refl _).
  refine (proj2 (X13_sitemap_mode_is_idle_without_entities
                   SpecModel.specChars SpecModel.asciiParser
                   SpecModel.asciiValidators
                   (VStr "http://example.com/a b") "/a b" eq_refl _)
            VUndefined (VBool true) VUndefined).
  intros j c Hc Hin.
  destruct (Z_lt_ge_dec j 0) as [Hneg|Hpos].
  - unfold str_at in Hc.
    replace (0 <=? j) with false in Hc by (symmetry; apply Z.leb_gt; lia).
    discriminate Hc.
  - destruct (Z_lt_ge_dec j 4) as [Hlt|Hge].
    + assert (D : j = 0 \/ j = 1 \/ j = 2 \/ j = 3) by lia.
      simpl in Hin.
      destruct D as [->|[->|[->| ->]]]; vm_compute in Hc; inversion Hc;
        subst c;
        repeat match goal with D : _ \/ _ |- _ => destruct D end;
        try contradiction; discriminate.
    + unfold str_at in Hc. change (strlen "/a b") with 4 in Hc.
      replace (j <? 4) with false in Hc
        by (symmetry; apply Z.ltb_ge; lia).
      rewrite andb_false_r in Hc. discriminate Hc.
Defined.

(** ** The scheme restriction *)

Section SchemeRestriction.

Context {C : Chars} {P : Parser} {V : Validators}.

(** Success of [checkHttpURL] in terms of [checkURI] and the list of
    schemes. *)
Lemma checkHttpURL_ok_iff (uri : val) (o : HttpOptions)
  (r : object CheckResult) :
  checkHttpURL uri o = Some (Ok r)
  <-> checkURI uri (sitemap o) = Some (Ok r)
      /\ includes (schemesToCheck (https o) (web o))
           (scheme (parseURI uri)) = true
      /\ is_String (authority (parseURI uri)) = true.
Proof.
  split.
  - intro H. apply checkHttpURL_ok_inv in H.
    destruct H as (r' & Hr' & Hs & Ha & ->).
    destruct (checkURI_ok_inv _ _ _ Hr') as (_ & _ & _ & _ & ->).
    simpl in *. auto.
  - intros (Hr & Hs & Ha).
    rewrite (checkHttpURL_after_checkURI uri o r Hr).
    destruct (checkURI_ok_inv _ _ _ Hr) as (_ & _ & _ & _ & ->).
    simpl. now rewrite Hs, Ha.
Qed.

End SchemeRestriction.

(** X14.  The web variants accept exactly what the http variant or the
    https variant accepts, with the same record: [checkWebURL] succeeds
    exactly when [checkHttpURL] or [checkHttpsURL] does, [checkSitemapURL]
    exactly when [checkHttpSitemapURL] or [checkHttpsSitemapURL] does; and
    the http and https variants never both accept a uri. *)
Theorem X14_web_is_http_or_https :
  forall (C : Chars) (P : Parser) (V : Validators)
         (uri : val) (r : object CheckResult),
    (checkWebURL uri = Some (Ok r)
     <-> checkHttpURL uri noOptions = Some (Ok r)
         \/ checkHttpsURL uri = Some (Ok r))
    /\ (checkSitemapURL uri = Some (Ok r)
        <-> checkHttpSitemapURL uri = Some (Ok r)
            \/ checkHttpsSitemapURL uri = Some (Ok r))
    /\ (forall r1 r2,
           checkHttpURL uri noOptions = Some (Ok r1) ->
           checkHttpsURL uri = Some (Ok r2) -> False)
    /\ (forall r1 r2,
           checkHttpSitemapURL uri = Some (Ok r1) ->
           checkHttpsSitemapURL uri = Some (Ok r2) -> False).
Proof.
  intros C P V uri r.
  unfold checkWebURL, checkSitemapURL, checkHttpsURL, checkHttpSitemapURL,
    checkHttpsSitemapURL, noOptions.
  assert (Hsplit : forall sm r,
             checkHttpURL uri (mkOptions VUndefined (VBool true) sm)
             = Some (Ok r)
             <-> checkHttpURL uri (mkOptions VUndefined VUndefined sm)
                 = Some (Ok r)
                 \/ checkHttpURL uri (mkOptions (VBool true) VUndefined sm)
                    = Some (Ok r)).
  { intros sm r'. rewrite !checkHttpURL_ok_iff. cbn [sitemap https web].
    change (schemesToCheck VUndefined (VBool true)) with ["http"; "https"].
    change (schemesToCheck VUndefined VUndefined) with ["http"].
    change (schemesToCheck (VBool true) VUndefined) with ["https"].
    rewrite !includes_In. split.
    - intros (Hr & (k & [<-|[<-|[]]] & Hk) & Ha).
      + left. split; [exact Hr|]. split; [|exact Ha].
        exists "http". split; [now left | exact Hk].
      + right. split; [exact Hr|]. split; [|exact Ha].
        exists "https". split; [now left | exact Hk].
    - intros [(Hr & (k & [<-|[]] & Hk) & Ha) | (Hr & (k & [<-|[]] & Hk) & Ha)];
        (split; [exact Hr|]); (split; [|exact Ha]).
      + exists "http". split; [now left | exact Hk].
      + exists "https". split; [right; now left | exact Hk]. }
  assert (Hexcl : forall sm r1 r2,
             checkHttpURL uri (mkOptions VUndefined VUndefined sm)
             = Some (Ok r1) ->
             checkHttpURL uri (mkOptions (VBool true) VUndefined sm)
             = Some (Ok r2) -> False).
  { intros sm r1 r2 Ha Hb.
    apply checkHttpURL_ok_iff in Ha, Hb. cbn [sitemap https web] in Ha, Hb.
    destruct Ha as (_ & Ha & _). destruct Hb as (_ & Hb & _).
    change (schemesToCheck VUndefined VUndefined) with ["http"] in Ha.
    change (schemesToCheck (VBool true) VUndefined) with ["https"] in Hb.
    apply includes_In in Ha, Hb.
    destruct Ha as (k & [<-|[]] & Hk). destruct Hb as (k' & [<-|[]] & Hk').
    rewrite Hk in Hk'. discriminate. }
  split; [apply Hsplit | split; [apply Hsplit | split; apply Hexcl]].
Qed.

Lemma X14_witness :
  let uri := VStr "https://example.com/" in
  let r := literal (mkResult (@parseURI SpecModel.asciiParser uri)
                      VUndefined (VBool true)) in
  @checkHttpsURL SpecModel.specChars SpecModel.asciiParser
    SpecModel.asciiValidators uri = Some (Ok r)
  /\ @checkWebURL SpecModel.specChars SpecModel.asciiParser
       SpecModel.asciiValidators uri = Some (Ok r).
Proof.
  refine (conj eq_refl _).
  exact (proj2 (proj1 (X14_web_is_http_or_https
                         SpecModel.specChars SpecModel.asciiParser
                         SpecModel.asciiValidators
                         (VStr "https://example.com/") _))
           (or_intror eq_refl)).
Defined.

(** X15.  The port check is exact and comes before the scan of [pathqf]:
    for a uri that passes the syntax check, the scheme loop and the userinfo
    loop, whose authority is present and whose host is an IP or a domain,
    [checkURI] throws [URI_INVALID_PORT] exactly when a port is present and
    [int] casts it to [undefined]; whatever [pathqf] holds. *)
Theorem X15_port_check_is_exact :
  forall (C : Chars) (P : Parser) (V : Validators)
         (uri sm : val) (r0 : object CheckResult),
    checkURISyntax uri = Ok r0 ->
    let c := parseURI uri in
    scanScheme (scheme c) (lengthOf (scheme c)) = ret tt ->
    exists_ (authority c) = true ->
    scanUserinfo (userinfo c) = ret tt ->
    isIP (host c) = true \/ isDomain (host c) = true ->
    (checkURI uri sm = Some (Throw "URI_INVALID_PORT")
     <-> exists_ (port c) = true /\ int (port c) = VUndefined).
Proof.
  intros C P V uri sm r0 E0 c Hs Ha Hu Hhost.
  rewrite (checkURI_after_syntax uri sm r0 E0). fold c.
  rewrite Hs. simpl. unfold checkAuthority. rewrite Ha, Hu. simpl.
  replace (negb (isIP (host c)) && negb (isDomain (host c))) with false
    by (destruct Hhost as [-> | ->]; simpl;
        [reflexivity | now rewrite andb_false_r]).
  destruct (exists_ (port c)); simpl.
  - destruct (val_eqb (int (port c)) VUndefined) eqn:Ei; simpl.
    + apply val_eqb_eq in Ei. tauto.
    + apply val_eqb_neq in Ei. split; [|tauto].
      destruct (scanPathqf _ _) as [[[]|e3]|] eqn:E3; simpl;
        try discriminate.
      intro H. inversion H. subst. exfalso.
      destruct (scanPathqf_codes _ _ _ E3) as [F | [F | (_ & F)]];
        discriminate F.
  - split; [|intros (F & _); discriminate F].
    destruct (scanPathqf _ _) as [[[]|e3]|] eqn:E3; simpl; try discriminate.
    intro H. inversion H. subst. exfalso.
    destruct (scanPathqf_codes _ _ _ E3) as [F | [F | (_ & F)]];
      discriminate F.
Qed.

Lemma X15_witness :
  let uri := VStr "http://example.com:80a/a b" in
  let c := @parseURI SpecModel.asciiParser uri in
  port c = VStr "80a"
  /\ @int SpecModel.asciiValidators (port c) = VUndefined
  /\ @checkURI SpecModel.specChars SpecModel.asciiParser
       SpecModel.asciiValidators uri VUndefined
     = Some (Throw "URI_INVALID_PORT").
Proof.
  refine (conj eq_refl (conj eq_refl _)).
  exact (proj2 (X15_port_check_is_exact
                  SpecModel.specChars SpecModel.asciiParser
                  SpecModel.asciiValidators
                  (VStr "http://example.com:80a/a b") VUndefined
                  _ eq_refl eq_refl eq_refl eq_refl (or_intror eq_refl))
           (conj eq_refl eq_refl)).
Defined.

(** ** Percent signs in what was accepted *)

Section PercentAccepted.

Context {C : Chars}.

(** The plain scan of [pathqf], keeping what it learnt at a percent sign. *)
Lemma scanPathqf_plain_percent (s : string) :
  scanPathqf false (VStr s) = ret tt ->
  forall j, 0 <= j < strlen s ->
            (str_at s j = VStr "%" -> triplet s j (strlen s))
            \/ isPercentEncodingChar (str_at s j) = true.
Proof.
  intros H j Hj. unfold scanPathqf in H. cbn [lengthOf] in H.
  refine (for_loop_covers _ _
            (fun j => (str_at s j = VStr "%" -> triplet s j (strlen s))
                      \/ isPercentEncodingChar (str_at s j) = true) 0
            _ _ 0 ltac:(lia) H j Hj).
  intros i i' Hi Hlen Hb. unfold pathqfBody in Hb. cbn [js_at] in Hb.
  destruct (isURIChar (str_at s i)) eqn:Hc; cbn [negb] in Hb; [|discriminate].
  destruct (checkPercentEncoding (VStr s) (VNum i) (VNum (strlen s)))
    as [o|] eqn:Hp; [|discriminate].
  inversion Hb. subst i'.
  destruct (checkPercentEncoding_ok_cases s i _ o Hi Hlen Hp)
    as [(-> & Hne) | (-> & Hpct & Ht)].
  - split; [lia|]. intros k Hk. replace k with i by lia.
    left. intro F. contradiction.
  - split; [lia|]. intros k Hk.
    assert (D : k = i \/ k = i + 1 \/ k = i + 2) by lia.
    destruct D as [-> | [-> | ->]].
    + left. intros _. exact Ht.
    + right. apply Ht.
    + right. apply Ht.
Qed.

Lemma scanUserinfo_percent (u : string) :
  scanUserinfo (VStr u) = ret tt ->
  forall j, 0 <= j < strlen u ->
            (str_at u j = VStr "%" -> triplet u j (strlen u))
            \/ isPercentEncodingChar (str_at u j) = true.
Proof.
  intros H j Hj. unfold scanUserinfo in H. cbn [lengthOf] in H.
  refine (for_loop_covers _ _
            (fun j => (str_at u j = VStr "%" -> triplet u j (strlen u))
                      \/ isPercentEncodingChar (str_at u j) = true) 0
            _ _ 0 ltac:(lia) H j Hj).
  intros i i' Hi Hlen Hb. unfold userinfoBody in Hb. cbn [js_at] in Hb.
  destruct (isUserinfoChar (str_at u i)) eqn:Hc; cbn [negb] in Hb;
    [|discriminate].
  destruct (checkPercentEncoding (VStr u) (VNum i) (VNum (strlen u)))
    as [o|] eqn:Hp; [|discriminate].
  inversion Hb. subst i'.
  destruct (checkPercentEncoding_ok_cases u i _ o Hi Hlen Hp)
    as [(-> & Hne) | (-> & Hpct & Ht)].
  - split; [lia|]. intros k Hk. replace k with i by lia.
    left. intro F. contradiction.
  - split; [lia|]. intros k Hk.
    assert (D : k = i \/ k = i + 1 \/ k = i + 2) by lia.
    destruct D as [-> | [-> | ->]].
    + left. intros _. exact Ht.
    + right. apply Ht.
    + right. apply Ht.
Qed.

End PercentAccepted.

(** X16.  In a uri that [checkURI] accepts, in either mode, every percent
    sign of [pathqf], and of the userinfo when the authority is present,
    begins a complete triplet: two more characters lie inside the same
    component and both are percent-encoding characters; provided the
    classifier does not take the percent sign itself as a percent-encoding
    character. *)
Theorem X16_accepted_percent_signs_begin_triplets :
  forall (C : Chars) (P : Parser) (V : Validators)
         (uri sm : val) (r : object CheckResult),
    isPercentEncodingChar (VStr "%") = false ->
    checkURI uri sm = Some (Ok r) ->
    let c := parseURI uri in
    (forall s j, pathqf c = VStr s -> str_at s j = VStr "%" ->
                 triplet s j (strlen s))
    /\ (exists_ (authority c) = true ->
        forall u j, userinfo c = VStr u -> str_at u j = VStr "%" ->
                    triplet u j (strlen u)).
Proof.
  intros C P V uri sm r Hpct H c. apply checkURI_ok_inv in H.
  destruct H as (_ & _ & Hauth & Hpq & _). fold c in Hauth, Hpq. split.
  - intros s j Es Hj. rewrite Es in Hpq.
    pose proof (str_at_in_range s j "%" Hj) as Hr.
    destruct (val_eqb sm (VBool true)).
    + destruct (scanPathqf_sitemap_scanned s Hpq j Hr)
        as [(_ & [(Hne & _) | (_ & Ht)])
           | [(Hhex & _) | (L & e & HL & He & Hm & Hin)]].
      * contradiction.
      * exact Ht.
      * rewrite Hj in Hhex. congruence.
      * exfalso.
        assert (Hch : str_at s j = str_at e (j - L)).
        { replace j with (L + (j - L)) at 1 by lia.
          apply matchesAt_chars; [exact HL | exact Hm | lia]. }
        destruct (escape_tail e (j - L) He ltac:(lia)) as (ch & Hc & Hcin).
        rewrite Hch, Hc in Hj. inversion Hj. subst ch. simpl in Hcin.
        repeat match goal with D : _ \/ _ |- _ => destruct D end;
          try contradiction; discriminate.
    + destruct (scanPathqf_plain_percent s Hpq j Hr) as [Ht | Hhex].
      * now apply Ht.
      * rewrite Hj in Hhex. congruence.
  - intros Ha u j Eu Hj.
    destruct (checkAuthority_ok_inv c Hauth Ha) as (Hu & _).
    rewrite Eu in Hu.
    pose proof (str_at_in_range u j "%" Hj) as Hr.
    destruct (scanUserinfo_percent u Hu j Hr) as [Ht | Hhex].
    + now apply Ht.
    + rewrite Hj in Hhex. congruence.
Qed.

Lemma X16_witness :
  let uri := VStr "http://us%41er@example.com/a%20b" in
  let K := withPercent SpecModel.specChars in
  let c := @parseURI SpecModel.asciiParser uri in
  @isPercentEncodingChar K (VStr "%") = false
  /\ @checkURI K SpecModel.asciiParser SpecModel.asciiValidators uri
       VUndefined
     = Some (Ok (literal (mkResult c VUndefined (VBool true))))
  /\ pathqf c = VStr "/a%20b"
  /\ str_at "/a%20b" 2 = VStr "%"
  /\ @triplet K "/a%20b" 2 (strlen "/a%20b").
Proof.
  refine (conj eq_refl (conj eq_refl (conj eq_refl (conj eq_refl _)))).
  exact (proj1 (X16_accepted_percent_signs_begin_triplets
                  (withPercent SpecModel.specChars) SpecModel.asciiParser
                  SpecModel.asciiValidators
                  (VStr "http://us%41er@example.com/a%20b") VUndefined
                  _ eq_refl eq_refl)
           "/a%20b" 2 eq_refl eq_refl).
Defined.

(** ** Where URI_INVALID_HOST comes from *)

Section HostSources.

Context {C : Chars} {P : Parser} {V : Validators}.

Lemma checkURISyntax_host_inv (uri : val) :
  checkURISyntax uri = Throw "URI_INVALID_HOST" ->
  exists_ (authority (parseURI uri)) = false
  /\ exists_ (authorityPunydecoded (parseURI uri)) = true.
Proof.
  unfold checkURISyntax.
  repeat match goal with
         | |- context [if negb (exists_ ?a) && exists_ ?b then _ else _] =>
             destruct (exists_ a) eqn:?, (exists_ b) eqn:?; simpl
         | |- context [if ?b then _ else _] => destruct b
         end; intro H; try discriminate H; auto.
Qed.

Lemma checkAuthority_host_inv (c : URIComponents) :
  checkAuthority c = Some (Throw "URI_INVALID_HOST") ->
  exists_ (authority c) = true
  /\ scanUserinfo (userinfo c) = ret tt
  /\ isIP (host c) = false /\ isDomain (host c) = false.
Proof.
  unfold checkAuthority. destruct (exists_ (authority c)); [|discriminate].
  destruct (scanUserinfo (userinfo c)) as [[[]|e]|] eqn:Eu; simpl;
    try discriminate.
  - destruct (isIP (host c)), (isDomain (host c)); simpl;
      try (intros _; auto; fail);
      repeat match goal with
             | |- context [if ?b then _ else _] => destruct b
             end; discriminate.
  - intro H. inversion H. subst. exfalso.
    destruct (scanUserinfo_codes _ _ Eu) as [F | F]; discriminate F.
Qed.

End HostSources.

(** X17.  [URI_INVALID_HOST] from [checkURI] has two sources and no other:
    the syntax check threw it, and then the parse has no authority but
    a punydecoded authority; or the authority is present, the scheme and
    userinfo loops have passed, and the host is refused by [isIP] and by
    [isDomain]. *)
Theorem X17_sources_of_invalid_host :
  forall (C : Chars) (P : Parser) (V : Validators) (uri sm : val),
    checkURI uri sm = Some (Throw "URI_INVALID_HOST") ->
    let c := parseURI uri in
    (checkURISyntax uri = Throw "URI_INVALID_HOST"
     /\ exists_ (authority c) = false
     /\ exists_ (authorityPunydecoded c) = true)
    \/ ((exists r0, checkURISyntax uri = Ok r0)
        /\ exists_ (authority c) = true
        /\ scanScheme (scheme c) (lengthOf (scheme c)) = ret tt
        /\ scanUserinfo (userinfo c) = ret tt
        /\ isIP (host c) = false
        /\ isDomain (host c) = false).
Proof.
  intros C P V uri sm H c.
  destruct (checkURISyntax uri) as [r0|e] eqn:E0.
  - right. split; [now exists r0|].
    rewrite (checkURI_after_syntax uri sm r0 E0) in H. fold c in H.
    destruct (scanScheme (scheme c) (lengthOf (scheme c)))
      as [[[]|e1]|] eqn:E1; simpl in H; try discriminate.
    + destruct (checkAuthority c) as [[[]|e2]|] eqn:E2; simpl in H;
        try discriminate.
      * exfalso.
        destruct (scanPathqf _ _) as [[[]|e3]|] eqn:E3; simpl in H;
          try discriminate.
        inversion H. subst.
        destruct (scanPathqf_codes _ _ _ E3) as [F | [F | (_ & F)]];
          discriminate F.
      * inversion H. subst.
        destruct (checkAuthority_host_inv c E2) as (Ha & Hu & Hip & Hd).
        auto.
    + exfalso. inversion H. subst.
      pose proof (scanScheme_codes _ _ _ E1) as F. discriminate F.
  - left. rewrite (checkURI_propagates uri sm e E0) in H. inversion H. subst.
    split; [reflexivity|]. now apply checkURISyntax_host_inv.
Qed.

Lemma X17_witness :
  let uri := VStr "http://exa mple.com/" in
  let c := @parseURI SpecModel.asciiParser uri in
  @checkURI SpecModel.specChars SpecModel.asciiParser
    SpecModel.asciiValidators uri VUndefined
  = Some (Throw "URI_INVALID_HOST")
  /\ ((@checkURISyntax SpecModel.asciiParser uri = Throw "URI_INVALID_HOST"
       /\ exists_ (authority c) = false
       /\ exists_ (authorityPunydecoded c) = true)
      \/ ((exists r0, @checkURISyntax SpecModel.asciiParser uri = Ok r0)
          /\ exists_ (authority c) = true
          /\ @scanScheme SpecModel.specChars (scheme c) (lengthOf (scheme c))
             = ret tt
          /\ @scanUserinfo SpecModel.specChars (userinfo c) = ret tt
          /\ @isIP SpecModel.asciiValidators (host c) = false
          /\ @isDomain SpecModel.asciiValidators (host c) = false)).
Proof.
  refine (conj eq_refl _).
  exact (X17_sources_of_invalid_host
           SpecModel.specChars SpecModel.asciiParser
           SpecModel.asciiValidators (VStr "http://exa mple.com/")
           VUndefined eq_refl).
Defined.
